(** * LUGX Gaming order service: a shallow embedding and its properties

    The development follows the layers of [order-service]:
    - [models]      the structs of [models/order.go];
    - [repository]  [OrderRepository] over the two tables created by
                    [database/connection.go];
    - [service]     [OrderService];
    - [handlers]    the parts of [OrderHandler] that validate or normalise
                    input before they call the service.

    Go's [float64] is Rocq's primitive binary64 float, Go's [int] is a [Z]
    wrapped to 64 bits where the code multiplies, strings are [string], the
    database handle is an explicit state. *)

From Stdlib Require Import ZArith QArith Lia.
From Stdlib Require Import Floats.PrimFloat Floats.SpecFloat Floats.FloatOps.
From stdpp Require Import gmap strings list fin_maps sorting pretty.

Open Scope Z_scope.

(** ** Numbers *)

(** [float64(n)] for an [int] n: the nearest binary64 value, ties to even. *)
Definition float64_of_int (n : Z) : float :=
  SF2Prim (binary_normalize prec emax n 0 false).

(** Two's-complement wrap-around of Go's 64-bit [int]. *)
Definition wrap64 (n : Z) : Z := (n + 2 ^ 63) mod 2 ^ 64 - 2 ^ 63.

Definition int_mul (a b : Z) : Z := wrap64 (a * b).

(** The exact rational value of a finite float (used only to compare what
    the code computes with exact arithmetic). *)
Definition exact_value (f : float) : option Q :=
  match Prim2SF f with
  | S754_zero _ => Some 0%Q
  | S754_finite s m e =>
      let mag := (inject_Z (Z.pos m) * Qpower 2 e)%Q in
      Some (if s then Qopp mag else mag)
  | _ => None
  end.

(** ** models *)

Module OrderItem.
Record t := mk {
  ID : string;
  OrderID : string;
  GameID : Z;
  GameName : string;
  Price : float;
  Quantity : Z;
  Subtotal : float
}.
Definition with_Subtotal (x : float) (i : t) : t :=
  mk (ID i) (OrderID i) (GameID i) (GameName i) (Price i) (Quantity i) x.
Definition with_ids (id order_id : string) (i : t) : t :=
  mk id order_id (GameID i) (GameName i) (Price i) (Quantity i) (Subtotal i).
End OrderItem.

Module Order.
Record t := mk {
  ID : string;
  CustomerID : string;
  TotalPrice : float;
  Status : string;
  OrderDate : Z;
  CreatedAt : Z;
  UpdatedAt : Z;
  Items : list OrderItem.t
}.
Definition with_Items (l : list OrderItem.t) (o : t) : t :=
  mk (ID o) (CustomerID o) (TotalPrice o) (Status o) (OrderDate o)
     (CreatedAt o) (UpdatedAt o) l.
End Order.

Module CreateOrderItemRequest.
Record t := mk {
  GameID : Z;
  GameName : string;
  Price : float;
  Quantity : Z
}.
End CreateOrderItemRequest.

Module CreateOrderRequest.
Record t := mk {
  CustomerID : string;
  Items : list CreateOrderItemRequest.t
}.
End CreateOrderRequest.

Module UpdateOrderStatusRequest.
Record t := mk { Status : string }.
End UpdateOrderStatusRequest.

Module OrderResponse.
Record t := mk {
  ID : string;
  CustomerID : string;
  TotalPrice : float;
  Status : string;
  OrderDate : Z;
  CreatedAt : Z;
  UpdatedAt : Z;
  Items : list OrderItem.t
}.
End OrderResponse.

Module OrdersListResponse.
Record t := mk {
  Orders : list OrderResponse.t;
  Total : Z
}.
End OrdersListResponse.

(** ** database: the two tables of [createTables]

    [created_at] and [updated_at] of [orders] are declared without
    [NOT NULL]; every other column is [NOT NULL]. *)

Module OrdersRow.
Record t := mk {
  id : string;
  customer_id : string;
  total_price : float;
  status : string;
  order_date : Z;
  created_at : option Z;
  updated_at : option Z
}.
End OrdersRow.

Module OrderItemsRow.
Record t := mk {
  id : string;
  order_id : string;
  game_id : Z;
  game_name : string;
  price : float;
  quantity : Z;
  subtotal : float
}.
End OrderItemsRow.

Record Database := mkDatabase {
  orders : list OrdersRow.t;
  order_items : list OrderItemsRow.t
}.

(** The statements the repository sends over the handle, in the order of
    the source. *)
Inductive Stmt :=
| QBegin
| QCommit
| QRollback
| QInsertOrder (row : OrdersRow.t)
| QInsertItem (row : OrderItemsRow.t)
| QSelectOrder (id : string)
| QSelectOrdersByCustomer (customer_id : string)
| QCountOrders
| QSelectOrdersPage (limit offset : Z)
| QUpdateStatus (status : string) (now : Z) (id : string)
| QDeleteOrder (id : string)
| QSelectItems (order_id : string).

(** What the code reads from outside: the identifiers [uuid.New] draws, the
    readings of [time.Now], whether the driver fails the n-th statement
    sent on the handle (connection loss, a value the column type refuses,
    ...) with the driver's message, what a [DECIMAL(10,2)] column gives
    back for an amount written to it, what a [TIMESTAMP] column gives back
    for a time written to it, and the text of the error [rows.Scan] reports
    for a row it cannot decode. *)
Record Env := mkEnv {
  uuid_New : nat -> string;
  time_Now : nat -> Z;
  driver_error : nat -> option string;
  numeric_10_2 : float -> float;
  timestamp : Z -> Z;
  scan_error : OrdersRow.t -> string
}.

(** The state the code runs on: the committed tables, the statements sent
    so far, and how many identifiers and clock readings were consumed. *)
Record World := mkWorld {
  db : Database;
  trace : list Stmt;
  uuids : nat;
  clock : nat
}.

(** ** A state and error monad for the Go code: [(T, error)] over a world *)

Inductive res (A : Type) :=
| Ok (a : A)
| Err (msg : string).
Arguments Ok {A} a.
Arguments Err {A} msg.

Definition M (A : Type) : Type := World -> res A * World.

Definition ret {A} (a : A) : M A := fun w => (Ok a, w).
Definition fail {A} (msg : string) : M A := fun w => (Err msg, w).
Definition bind {A B} (m : M A) (k : A -> M B) : M B :=
  fun w => match m w with
           | (Ok a, w') => k a w'
           | (Err e, w') => (Err e, w')
           end.

Notation "x <- m ;; k" := (bind m (fun x => k))
  (at level 100, m at next level, right associativity).

(** [fmt.Errorf(prefix + "%v", err)] around a failing call. *)
Definition Errorf {A} (prefix : string) (m : M A) : M A :=
  fun w => match m w with
           | (Err e, w') => (Err (prefix +:+ e), w')
           | r => r
           end.

(** ** The database handle *)

Definition log (s : Stmt) (w : World) : World :=
  mkWorld (db w) (trace w ++ [s]) (uuids w) (clock w).

Definition set_db (d : Database) (w : World) : World :=
  mkWorld d (trace w) (uuids w) (clock w).

(** [ORDER BY order_date DESC] and [ORDER BY id]. *)
Definition newest_first (a b : OrdersRow.t) : Prop :=
  OrdersRow.order_date b <= OrdersRow.order_date a.
Definition by_id (a b : OrderItemsRow.t) : Prop :=
  Is_true (String.leb (OrderItemsRow.id a) (OrderItemsRow.id b)).

#[global] Instance newest_first_dec : RelDecision newest_first.
Proof. intros a b. unfold newest_first. apply _. Defined.
#[global] Instance by_id_dec : RelDecision by_id.
Proof. intros a b. unfold by_id. apply _. Defined.

Section Program.

Variable E : Env.

(** A statement goes over the wire; the driver may fail it. *)
Definition send (s : Stmt) : M unit :=
  fun w => match driver_error E (length (trace w)) with
           | Some msg => (Err msg, log s w)
           | None => (Ok tt, log s w)
           end.

(** [uuid.New().String()] *)
Definition uuid_New_String : M string :=
  fun w => (Ok (uuid_New E (uuids w)),
            mkWorld (db w) (trace w) (S (uuids w)) (clock w)).

(** [time.Now()] *)
Definition time_Now_ : M Z :=
  fun w => (Ok (time_Now E (clock w)),
            mkWorld (db w) (trace w) (uuids w) (S (clock w))).

Definition pk_violation : string :=
  "pq: duplicate key value violates unique constraint".
Definition negative_limit : string := "pq: LIMIT must not be negative".
Definition negative_offset : string := "pq: OFFSET must not be negative".

(** [db.Begin()]: the transaction works on its own view of the tables,
    which starts as the committed ones. *)
Definition db_Begin : M Database :=
  _ <- send QBegin ;; fun w => (Ok (db w), w).

(** A row of [orders] as the table holds it: [total_price] is a
    [DECIMAL(10,2)], the three times are [TIMESTAMP]s. *)
Definition stored_order (r : OrdersRow.t) : OrdersRow.t :=
  OrdersRow.mk (OrdersRow.id r) (OrdersRow.customer_id r)
    (numeric_10_2 E (OrdersRow.total_price r)) (OrdersRow.status r)
    (timestamp E (OrdersRow.order_date r))
    (option_map (timestamp E) (OrdersRow.created_at r))
    (option_map (timestamp E) (OrdersRow.updated_at r)).

(** A row of [order_items] as the table holds it: [price] and [subtotal]
    are [DECIMAL(10,2)]. *)
Definition stored_item (r : OrderItemsRow.t) : OrderItemsRow.t :=
  OrderItemsRow.mk (OrderItemsRow.id r) (OrderItemsRow.order_id r)
    (OrderItemsRow.game_id r) (OrderItemsRow.game_name r)
    (numeric_10_2 E (OrderItemsRow.price r)) (OrderItemsRow.quantity r)
    (numeric_10_2 E (OrderItemsRow.subtotal r)).

(** [tx.Exec(INSERT INTO orders ...)]: [id] is the primary key; the row is
    sent as the parameters give it and held as the columns take it. *)
Definition tx_insert_order (tx : Database) (r : OrdersRow.t) : M Database :=
  _ <- send (QInsertOrder r) ;;
  if existsb (String.eqb (OrdersRow.id r)) (map OrdersRow.id (orders tx))
  then fail pk_violation
  else ret (mkDatabase (orders tx ++ [stored_order r]) (order_items tx)).

(** [tx.Exec(INSERT INTO order_items ...)]: [id] is the primary key (the
    referenced order was inserted by the same transaction). *)
Definition tx_insert_item (tx : Database) (r : OrderItemsRow.t) : M Database :=
  _ <- send (QInsertItem r) ;;
  if existsb (String.eqb (OrderItemsRow.id r))
             (map OrderItemsRow.id (order_items tx))
  then fail pk_violation
  else ret (mkDatabase (orders tx) (order_items tx ++ [stored_item r])).

(** [tx.Commit()]: the transaction's view becomes the committed tables. *)
Definition tx_Commit (tx : Database) : M unit :=
  _ <- send QCommit ;; fun w => (Ok tt, set_db tx w).

(** [defer tx.Rollback()]: runs when the body returns. After a [Commit]
    (successful or not) the transaction is done and nothing is sent;
    otherwise the roll-back is sent and the view is dropped. Its own
    result is ignored, as in the source. *)
Definition defer_Rollback {A} (body : M A) : M A :=
  fun w => match body w with
           | (Ok a, w') => (Ok a, w')
           | (Err e, w') =>
               match last (trace w') with
               | Some QCommit => (Err e, w')
               | _ => (Err e, log QRollback w')
               end
           end.

(** ** repository *)

Definition order_row (o : Order.t) : OrdersRow.t :=
  OrdersRow.mk (Order.ID o) (Order.CustomerID o) (Order.TotalPrice o)
    (Order.Status o) (Order.OrderDate o) (Some (Order.CreatedAt o))
    (Some (Order.UpdatedAt o)).

Definition item_row (i : OrderItem.t) : OrderItemsRow.t :=
  OrderItemsRow.mk (OrderItem.ID i) (OrderItem.OrderID i) (OrderItem.GameID i)
    (OrderItem.GameName i) (OrderItem.Price i) (OrderItem.Quantity i)
    (OrderItem.Subtotal i).

(** The first loop of [CreateOrder]: subtotals in place, total accumulated. *)
Fixpoint subtotal_loop (items : list OrderItem.t) (totalPrice : float)
  : list OrderItem.t * float :=
  match items with
  | [] => ([], totalPrice)
  | i :: rest =>
      let i' := OrderItem.with_Subtotal
                  (OrderItem.Price i * float64_of_int (OrderItem.Quantity i))%float
                  i in
      let '(rest', total) :=
        subtotal_loop rest (totalPrice + OrderItem.Subtotal i')%float in
      (i' :: rest', total)
  end.

(** The second loop of [CreateOrder]: identifiers in place, one insert per
    item, return at the first failing insert. *)
Fixpoint insert_items (orderID : string) (items : list OrderItem.t)
    (tx : Database) : M (list OrderItem.t * Database) :=
  match items with
  | [] => ret ([], tx)
  | i :: rest =>
      id <- uuid_New_String ;;
      let i' := OrderItem.with_ids id orderID i in
      tx' <- Errorf "failed to insert order item: "
               (tx_insert_item tx (item_row i')) ;;
      r <- insert_items orderID rest tx' ;;
      ret (i' :: fst r, snd r)
  end.

(** [OrderRepository.CreateOrder]; the result is the order the pointer
    refers to when the call returns nil. *)
Definition repo_CreateOrder (order : Order.t) : M Order.t :=
  tx <- Errorf "failed to begin transaction: " db_Begin ;;
  defer_Rollback (
    id <- uuid_New_String ;;
    orderDate <- time_Now_ ;;
    createdAt <- time_Now_ ;;
    updatedAt <- time_Now_ ;;
    let '(items, totalPrice) := subtotal_loop (Order.Items order) 0%float in
    let order := Order.mk id (Order.CustomerID order) totalPrice "pending"
                   orderDate createdAt updatedAt items in
    tx <- Errorf "failed to insert order: "
            (tx_insert_order tx (order_row order)) ;;
    r <- insert_items (Order.ID order) (Order.Items order) tx ;;
    _ <- tx_Commit (snd r) ;;
    ret (Order.with_Items (fst r) order)).

(** [rows.Scan] of an [orders] row: a NULL in [created_at] or [updated_at]
    does not fit a [time.Time], and the scan fails with database/sql's
    error for the row. *)
Definition scan_order (r : OrdersRow.t) : res Order.t :=
  match OrdersRow.created_at r, OrdersRow.updated_at r with
  | Some createdAt, Some updatedAt =>
      Ok (Order.mk (OrdersRow.id r) (OrdersRow.customer_id r)
            (OrdersRow.total_price r) (OrdersRow.status r)
            (OrdersRow.order_date r) createdAt updatedAt [])
  | _, _ => Err (scan_error E r)
  end.

(** [rows.Scan] of an [order_items] row: every column is [NOT NULL]. *)
Definition scan_item (r : OrderItemsRow.t) : OrderItem.t :=
  OrderItem.mk (OrderItemsRow.id r) (OrderItemsRow.order_id r)
    (OrderItemsRow.game_id r) (OrderItemsRow.game_name r)
    (OrderItemsRow.price r) (OrderItemsRow.quantity r)
    (OrderItemsRow.subtotal r).

(** [SELECT ... FROM order_items WHERE order_id = $1 ORDER BY id] *)
Definition select_items (orderID : string) : M (list OrderItemsRow.t) :=
  _ <- send (QSelectItems orderID) ;;
  fun w => (Ok (merge_sort by_id
                  (List.filter
                     (fun r => String.eqb (OrderItemsRow.order_id r) orderID)
                     (order_items (db w)))), w).

(** [OrderRepository.getOrderItems] *)
Definition getOrderItems (orderID : string) : M (list OrderItem.t) :=
  rows <- Errorf "failed to query order items: " (select_items orderID) ;;
  ret (map scan_item rows).

(** [SELECT ... FROM orders WHERE id = $1], first row. *)
Definition select_order (id : string) : M (option OrdersRow.t) :=
  _ <- send (QSelectOrder id) ;;
  fun w => (Ok (List.find (fun r => String.eqb (OrdersRow.id r) id)
                  (orders (db w))), w).

(** [OrderRepository.GetOrderByID] *)
Definition repo_GetOrderByID (id : string) : M Order.t :=
  row <- Errorf "failed to get order: " (select_order id) ;;
  match row with
  | None => fail "order not found"
  | Some r =>
      match scan_order r with
      | Err e => fail ("failed to get order: " +:+ e)
      | Ok order =>
          items <- Errorf "failed to get order items: " (getOrderItems id) ;;
          ret (Order.with_Items items order)
      end
  end.

(** The row loop shared by the two list queries: scan, fetch the items,
    append; the first failure returns. *)
Fixpoint scan_orders (rows : list OrdersRow.t) : M (list Order.t) :=
  match rows with
  | [] => ret []
  | r :: rest =>
      match scan_order r with
      | Err e => fail ("failed to scan order: " +:+ e)
      | Ok order =>
          items <- Errorf ("failed to get order items for order "
                           +:+ Order.ID order +:+ ": ")
                     (getOrderItems (Order.ID order)) ;;
          rest' <- scan_orders rest ;;
          ret (Order.with_Items items order :: rest')
      end
  end.

(** [SELECT ... FROM orders WHERE customer_id = $1 ORDER BY order_date DESC] *)
Definition select_orders_by_customer (customerID : string)
  : M (list OrdersRow.t) :=
  _ <- send (QSelectOrdersByCustomer customerID) ;;
  fun w => (Ok (merge_sort newest_first
                  (List.filter
                     (fun r => String.eqb (OrdersRow.customer_id r) customerID)
                     (orders (db w)))), w).

(** [OrderRepository.GetOrdersByCustomerID] *)
Definition repo_GetOrdersByCustomerID (customerID : string)
  : M (list Order.t) :=
  rows <- Errorf "failed to query orders: "
            (select_orders_by_customer customerID) ;;
  scan_orders rows.

(** [SELECT COUNT( * ) FROM orders] *)
Definition select_count : M Z :=
  _ <- send QCountOrders ;;
  fun w => (Ok (Z.of_nat (length (orders (db w)))), w).

(** [SELECT ... FROM orders ORDER BY order_date DESC LIMIT $1 OFFSET $2];
    the server refuses a negative limit or offset. *)
Definition select_orders_page (limit offset : Z) : M (list OrdersRow.t) :=
  _ <- send (QSelectOrdersPage limit offset) ;;
  if limit <? 0 then fail negative_limit
  else if offset <? 0 then fail negative_offset
  else fun w =>
    (Ok (take (Z.to_nat limit)
           (drop (Z.to_nat offset)
              (merge_sort newest_first (orders (db w))))), w).

(** [OrderRepository.GetAllOrders] *)
Definition repo_GetAllOrders (limit offset : Z) : M (list Order.t * Z) :=
  total <- Errorf "failed to get orders count: " select_count ;;
  rows <- Errorf "failed to query orders: " (select_orders_page limit offset) ;;
  orders <- scan_orders rows ;;
  ret (orders, total).

(** [UPDATE orders SET status = $1, updated_at = $2 WHERE id = $3], with the
    number of rows affected; [updated_at] is a [TIMESTAMP]. *)
Definition exec_update_status (status : string) (now : Z) (id : string)
  : M Z :=
  _ <- send (QUpdateStatus status now id) ;;
  fun w =>
    let hit := fun r => String.eqb (OrdersRow.id r) id in
    let upd := fun r =>
      if hit r
      then OrdersRow.mk (OrdersRow.id r) (OrdersRow.customer_id r)
             (OrdersRow.total_price r) status (OrdersRow.order_date r)
             (OrdersRow.created_at r) (Some (timestamp E now))
      else r in
    (Ok (Z.of_nat (length (List.filter hit (orders (db w))))),
     set_db (mkDatabase (map upd (orders (db w))) (order_items (db w))) w).

(** [OrderRepository.UpdateOrderStatus] *)
Definition repo_UpdateOrderStatus (id status : string) : M unit :=
  now <- time_Now_ ;;
  rowsAffected <- Errorf "failed to update order status: "
                    (exec_update_status status now id) ;;
  if rowsAffected =? 0 then fail "order not found" else ret tt.

(** [DELETE FROM orders WHERE id = $1], with the number of rows affected;
    [ON DELETE CASCADE] removes the items that reference a deleted row. *)
Definition exec_delete_order (id : string) : M Z :=
  _ <- send (QDeleteOrder id) ;;
  fun w =>
    let hit := fun r => String.eqb (OrdersRow.id r) id in
    let deleted := List.filter hit (orders (db w)) in
    let orphan := fun i =>
      existsb (fun r => String.eqb (OrdersRow.id r) (OrderItemsRow.order_id i))
              deleted in
    (Ok (Z.of_nat (length deleted)),
     set_db (mkDatabase
               (List.filter (fun r => negb (hit r)) (orders (db w)))
               (List.filter (fun i => negb (orphan i)) (order_items (db w))))
            w).

(** [OrderRepository.DeleteOrder] *)
Definition repo_DeleteOrder (id : string) : M unit :=
  rowsAffected <- Errorf "failed to delete order: " (exec_delete_order id) ;;
  if rowsAffected =? 0 then fail "order not found" else ret tt.

(** ** service *)

(** The conversion loop of [OrderService.CreateOrder]: the first item with
    a quantity [<= 0] or a price [< 0] returns its error. *)
Fixpoint convert_items (items : list CreateOrderItemRequest.t)
  : res (list OrderItem.t) :=
  match items with
  | [] => Ok []
  | item :: rest =>
      if CreateOrderItemRequest.Quantity item <=? 0
      then Err ("quantity must be greater than 0 for game "
                +:+ CreateOrderItemRequest.GameName item)
      else if (CreateOrderItemRequest.Price item <? 0)%float
      then Err ("price cannot be negative for game "
                +:+ CreateOrderItemRequest.GameName item)
      else match convert_items rest with
           | Err e => Err e
           | Ok l =>
               Ok (OrderItem.mk "" "" (CreateOrderItemRequest.GameID item)
                     (CreateOrderItemRequest.GameName item)
                     (CreateOrderItemRequest.Price item)
                     (CreateOrderItemRequest.Quantity item) 0%float :: l)
           end
  end.

(** [OrderService.CreateOrder] *)
Definition service_CreateOrder (request : CreateOrderRequest.t) : M Order.t :=
  if (length (CreateOrderRequest.Items request) =? 0)%nat
  then fail "order must contain at least one item"
  else match convert_items (CreateOrderRequest.Items request) with
       | Err e => fail e
       | Ok items =>
           let order := Order.mk "" (CreateOrderRequest.CustomerID request)
                          0%float "" 0 0 0 items in
           Errorf "failed to create order: " (repo_CreateOrder order)
       end.

(** [OrderService.GetOrderByID] *)
Definition service_GetOrderByID (id : string) : M Order.t :=
  if String.eqb id "" then fail "order ID is required"
  else repo_GetOrderByID id.

(** [OrderService.GetOrdersByCustomerID] *)
Definition service_GetOrdersByCustomerID (customerID : string)
  : M (list Order.t) :=
  if String.eqb customerID "" then fail "customer ID is required"
  else repo_GetOrdersByCustomerID customerID.

Definition to_response (order : Order.t) : OrderResponse.t :=
  OrderResponse.mk (Order.ID order) (Order.CustomerID order)
    (Order.TotalPrice order) (Order.Status order) (Order.OrderDate order)
    (Order.CreatedAt order) (Order.UpdatedAt order) (Order.Items order).

(** The two normalisations at the head of [OrderService.GetAllOrders]. *)
Definition normal_page (page : Z) : Z := if page <? 1 then 1 else page.
Definition normal_pageSize (pageSize : Z) : Z :=
  if (pageSize <? 1) || (100 <? pageSize) then 10 else pageSize.

(** [OrderService.GetAllOrders] *)
Definition service_GetAllOrders (page pageSize : Z)
  : M OrdersListResponse.t :=
  let page := normal_page page in
  let pageSize := normal_pageSize pageSize in
  let offset := int_mul (page - 1) pageSize in
  r <- repo_GetAllOrders pageSize offset ;;
  ret (OrdersListResponse.mk (map to_response (fst r)) (snd r)).

Definition validStatuses : gmap string bool :=
  list_to_map
    [("pending", true); ("confirmed", true); ("processing", true);
     ("shipped", true); ("delivered", true); ("cancelled", true)].

(** [OrderService.UpdateOrderStatus] *)
Definition service_UpdateOrderStatus (id : string)
    (request : UpdateOrderStatusRequest.t) : M unit :=
  if String.eqb id "" then fail "order ID is required"
  else if negb (default false
                  (validStatuses !! UpdateOrderStatusRequest.Status request))
  then fail ("invalid status: " +:+ UpdateOrderStatusRequest.Status request)
  else repo_UpdateOrderStatus id (UpdateOrderStatusRequest.Status request).

(** [OrderService.DeleteOrder] *)
Definition service_DeleteOrder (id : string) : M unit :=
  if String.eqb id "" then fail "order ID is required"
  else repo_DeleteOrder id.

(** The map [GetOrderStatistics] returns, by key. *)
Record Statistics := mkStatistics {
  total_orders : Z;
  total_revenue : float;
  status_counts : gmap string Z
}.

(** The loop of [GetOrderStatistics]; a missing key reads as 0. The
    counters are bounded by the length of the slice, so they do not wrap. *)
Fixpoint statistics_loop (orders : list Order.t)
    (statusCounts : gmap string Z) (totalRevenue : float)
  : gmap string Z * float :=
  match orders with
  | [] => (statusCounts, totalRevenue)
  | order :: rest =>
      let statusCounts :=
        <[Order.Status order :=
            default 0 (statusCounts !! Order.Status order) + 1]> statusCounts in
      let totalRevenue :=
        if String.eqb (Order.Status order) "delivered"
        then (totalRevenue + Order.TotalPrice order)%float
        else totalRevenue in
      statistics_loop rest statusCounts totalRevenue
  end.

(** [OrderService.GetOrderStatistics] *)
Definition service_GetOrderStatistics : M Statistics :=
  r <- Errorf "failed to get orders for statistics: "
         (repo_GetAllOrders 1000 0) ;;
  let '(statusCounts, totalRevenue) := statistics_loop (fst r) ∅ 0%float in
  ret (mkStatistics (snd r) totalRevenue statusCounts).

(** ** handlers *)

Inductive Payload :=
| ErrorDetails (error details : string)
| ErrorOnly (error : string)
| Created (message : string) (order : Order.t)
| Listing (orders : list OrderResponse.t) (total page page_size : Z)
| Message (message : string).

Record Response := mkResponse {
  StatusCode : Z;
  payload : Payload
}.

Definition StatusOK : Z := 200.
Definition StatusCreated : Z := 201.
Definition StatusBadRequest : Z := 400.
Definition StatusNotFound : Z := 404.
Definition StatusInternalServerError : Z := 500.

(** The bodies of the handlers that answer with an order, a list, the
    statistics or the health record; [details] is absent in the 404 body. *)
Inductive Body :=
| OrderBody (order : Order.t)
| OrdersBody (orders : list Order.t) (total : Z)
| StatisticsBody (statistics : Statistics)
| HealthBody (status service : string)
| MessageBody (message : string)
| ErrorBody (error : string) (details : option string).

Record Reply := mkReply {
  ReplyCode : Z;
  ReplyBody : Body
}.

Section Handlers.

(** Library calls the handlers rely on: [strconv.Atoi] ([None] when it
    returns an error), the message of a failed binding, and what the
    validator checks on the elements of [Items]. *)
Variable Atoi : string -> option Z.
Variable binding_details : string.
Variable items_binding : list CreateOrderItemRequest.t -> bool.

(** The [binding] tags of [CreateOrderRequest]: [customer_id] is
    [required], [items] is [required,min=1]. *)
Definition binding_CreateOrderRequest (r : CreateOrderRequest.t) : bool :=
  negb (String.eqb (CreateOrderRequest.CustomerID r) "")
  && (1 <=? length (CreateOrderRequest.Items r))%nat
  && items_binding (CreateOrderRequest.Items r).

(** The [binding] tag of [UpdateOrderStatusRequest]:
    [required,oneof=pending confirmed processing shipped delivered cancelled]. *)
Definition binding_UpdateOrderStatusRequest (r : UpdateOrderStatusRequest.t)
  : bool :=
  existsb (String.eqb (UpdateOrderStatusRequest.Status r))
    ["pending"; "confirmed"; "processing"; "shipped"; "delivered";
     "cancelled"].

(** [c.ShouldBindJSON(&request)]: [decoded] is the body when it parses as
    the struct. *)
Definition ShouldBindJSON {A} (binding : A -> bool) (decoded : option A)
  : option A :=
  match decoded with
  | Some r => if binding r then Some r else None
  | None => None
  end.

(** [OrderHandler.CreateOrder] *)
Definition handler_CreateOrder (decoded : option CreateOrderRequest.t)
  : World -> Response * World :=
  fun w =>
    match ShouldBindJSON binding_CreateOrderRequest decoded with
    | None =>
        (mkResponse StatusBadRequest
           (ErrorDetails "Invalid request body" binding_details), w)
    | Some request =>
        match service_CreateOrder request w with
        | (Err e, w') =>
            (mkResponse StatusBadRequest
               (ErrorDetails "Failed to create order" e), w')
        | (Ok order, w') =>
            (mkResponse StatusCreated
               (Created "Order created successfully" order), w')
        end
    end.

(** The parameter parsing at the head of [OrderHandler.GetAllOrders]. *)
Definition parse_page (pageParam : string) : Z :=
  if String.eqb pageParam "" then 1
  else match Atoi pageParam with
       | Some p => if 0 <? p then p else 1
       | None => 1
       end.
Definition parse_page_size (sizeParam : string) : Z :=
  if String.eqb sizeParam "" then 10
  else match Atoi sizeParam with
       | Some s => if (0 <? s) && (s <=? 100) then s else 10
       | None => 10
       end.

(** [OrderHandler.GetAllOrders] *)
Definition handler_GetAllOrders (pageParam sizeParam : string)
  : World -> Response * World :=
  fun w =>
    let page := parse_page pageParam in
    let pageSize := parse_page_size sizeParam in
    match service_GetAllOrders page pageSize w with
    | (Err e, w') =>
        (mkResponse StatusInternalServerError
           (ErrorDetails "Failed to get orders" e), w')
    | (Ok response, w') =>
        (mkResponse StatusOK
           (Listing (OrdersListResponse.Orders response)
              (OrdersListResponse.Total response) page pageSize), w')
    end.

(** [OrderHandler.UpdateOrderStatus] *)
Definition handler_UpdateOrderStatus (id : string)
    (decoded : option UpdateOrderStatusRequest.t)
  : World -> Response * World :=
  fun w =>
    match ShouldBindJSON binding_UpdateOrderStatusRequest decoded with
    | None =>
        (mkResponse StatusBadRequest
           (ErrorDetails "Invalid request body" binding_details), w)
    | Some request =>
        match service_UpdateOrderStatus id request w with
        | (Err e, w') =>
            if String.eqb e "order not found"
            then (mkResponse StatusNotFound (ErrorOnly "Order not found"), w')
            else (mkResponse StatusBadRequest
                    (ErrorDetails "Failed to update order status" e), w')
        | (Ok _, w') =>
            (mkResponse StatusOK
               (Message "Order status updated successfully"), w')
        end
    end.

(** [OrderHandler.GetOrderByID] *)
Definition handler_GetOrderByID (id : string) : World -> Reply * World :=
  fun w =>
    match service_GetOrderByID id w with
    | (Err e, w') =>
        if String.eqb e "order not found"
        then (mkReply StatusNotFound (ErrorBody "Order not found" None), w')
        else (mkReply StatusInternalServerError
                (ErrorBody "Failed to get order" (Some e)), w')
    | (Ok order, w') => (mkReply StatusOK (OrderBody order), w')
    end.

(** [OrderHandler.GetOrdersByCustomerID] *)
Definition handler_GetOrdersByCustomerID (customerID : string)
  : World -> Reply * World :=
  fun w =>
    match service_GetOrdersByCustomerID customerID w with
    | (Err e, w') =>
        (mkReply StatusInternalServerError
           (ErrorBody "Failed to get orders" (Some e)), w')
    | (Ok orders, w') =>
        (mkReply StatusOK (OrdersBody orders (Z.of_nat (length orders))), w')
    end.

(** [OrderHandler.DeleteOrder] *)
Definition handler_DeleteOrder (id : string) : World -> Reply * World :=
  fun w =>
    match service_DeleteOrder id w with
    | (Err e, w') =>
        if String.eqb e "order not found"
        then (mkReply StatusNotFound (ErrorBody "Order not found" None), w')
        else (mkReply StatusInternalServerError
                (ErrorBody "Failed to delete order" (Some e)), w')
    | (Ok _, w') =>
        (mkReply StatusOK (MessageBody "Order deleted successfully"), w')
    end.

(** [OrderHandler.GetOrderStatistics] *)
Definition handler_GetOrderStatistics : World -> Reply * World :=
  fun w =>
    match service_GetOrderStatistics w with
    | (Err e, w') =>
        (mkReply StatusInternalServerError
           (ErrorBody "Failed to get order statistics" (Some e)), w')
    | (Ok stats, w') => (mkReply StatusOK (StatisticsBody stats), w')
    end.

(** [OrderHandler.HealthCheck] *)
Definition handler_HealthCheck : World -> Reply * World :=
  fun w => (mkReply StatusOK (HealthBody "healthy" "order-service"), w).

End Handlers.

End Program.

(** * Properties *)

(** ** Stepping through the monad *)

Lemma bind_run {A B} (m : M A) (k : A -> M B) w :
  bind m k w = match m w with
               | (Ok a, w') => k a w'
               | (Err e, w') => (Err e, w')
               end.
Proof. reflexivity. Qed.

Lemma Errorf_run {A} prefix (m : M A) w :
  Errorf prefix m w = match m w with
                      | (Err e, w') => (Err (prefix +:+ e), w')
                      | r => r
                      end.
Proof. reflexivity. Qed.

(** What a statement does to the world, whatever the driver answers. *)
Lemma send_cases E s w :
  send E s w = (Ok tt, log s w)
  \/ exists msg, send E s w = (Err msg, log s w).
Proof.
  unfold send. destruct (driver_error E (length (trace w))) as [msg|]; eauto.
Qed.

Ltac step_send :=
  match goal with
  | |- context [send ?E ?s ?w] =>
      let H := fresh "Hsend" in
      let msg := fresh "msg" in
      destruct (send_cases E s w) as [H | [msg H]]; rewrite H; clear H;
      cbn [db trace uuids clock log set_db]
  end.

(** ** CreateOrder: the conversion loop *)

Definition valid_item (item : CreateOrderItemRequest.t) : Prop :=
  0 < CreateOrderItemRequest.Quantity item
  /\ (CreateOrderItemRequest.Price item <? 0)%float = false.

Definition valid_request (request : CreateOrderRequest.t) : Prop :=
  CreateOrderRequest.Items request <> []
  /\ Forall valid_item (CreateOrderRequest.Items request).

(** The three messages validation produces; the last two name the game of
    an item of the request. *)
Definition validation_error (request : CreateOrderRequest.t) (msg : string)
  : Prop :=
  msg = "order must contain at least one item"
  \/ exists item,
       In item (CreateOrderRequest.Items request)
       /\ (msg = "quantity must be greater than 0 for game "
                 +:+ CreateOrderItemRequest.GameName item
           \/ msg = "price cannot be negative for game "
                    +:+ CreateOrderItemRequest.GameName item).

Definition blank_item (item : CreateOrderItemRequest.t) : OrderItem.t :=
  OrderItem.mk "" "" (CreateOrderItemRequest.GameID item)
    (CreateOrderItemRequest.GameName item)
    (CreateOrderItemRequest.Price item)
    (CreateOrderItemRequest.Quantity item) 0%float.

Lemma convert_items_Ok items l :
  convert_items items = Ok l ->
  Forall valid_item items /\ l = map blank_item items.
Proof.
  revert l. induction items as [|item rest IH]; intros l H; simpl in H.
  - inversion H. split; [constructor | reflexivity].
  - destruct (CreateOrderItemRequest.Quantity item <=? 0) eqn:Hq; [discriminate|].
    destruct (CreateOrderItemRequest.Price item <? 0)%float eqn:Hp; [discriminate|].
    destruct (convert_items rest) as [l'|e]; [|discriminate].
    inversion H; subst. destruct (IH l' eq_refl) as [Hv ->].
    split; [|reflexivity]. constructor; [|exact Hv].
    split; [lia | exact Hp].
Qed.

Lemma convert_items_Err items e :
  convert_items items = Err e ->
  ~ Forall valid_item items
  /\ exists item,
       In item items
       /\ (e = "quantity must be greater than 0 for game "
               +:+ CreateOrderItemRequest.GameName item
           \/ e = "price cannot be negative for game "
                  +:+ CreateOrderItemRequest.GameName item).
Proof.
  induction items as [|item rest IH]; intros H; simpl in H; [discriminate|].
  destruct (CreateOrderItemRequest.Quantity item <=? 0) eqn:Hq.
  { inversion H; subst. split.
    - intros Hv. inversion Hv as [|? ? [Hpos _] _]; subst. lia.
    - exists item. split; [left; reflexivity | left; reflexivity]. }
  destruct (CreateOrderItemRequest.Price item <? 0)%float eqn:Hp.
  { inversion H; subst. split.
    - intros Hv. inversion Hv as [|? ? [_ Hprice] _]; subst. congruence.
    - exists item. split; [left; reflexivity | right; reflexivity]. }
  destruct (convert_items rest) as [l'|e'] eqn:Hrest; [discriminate|].
  inversion H; subst. destruct (IH eq_refl) as [Hn (it & Hin & Hmsg)].
  split.
  - intros Hv. inversion Hv; subst. contradiction.
  - exists it. split; [right; exact Hin | exact Hmsg].
Qed.

(** ** CreateOrder: the two loops of the repository *)

Definition priced (i : OrderItem.t) : OrderItem.t :=
  OrderItem.with_Subtotal
    (OrderItem.Price i * float64_of_int (OrderItem.Quantity i))%float i.

Definition add_subtotal (total : float) (i : OrderItem.t) : float :=
  (total + OrderItem.Price i * float64_of_int (OrderItem.Quantity i))%float.

Lemma subtotal_loop_spec items total :
  subtotal_loop items total
  = (map priced items, fold_left add_subtotal items total).
Proof.
  revert total. induction items as [|i rest IH]; intros total; simpl.
  - reflexivity.
  - rewrite IH. reflexivity.
Qed.

(** An item as the second loop leaves it. *)
Definition stamped (orderID : string) (i i' : OrderItem.t) : Prop :=
  exists id, i' = OrderItem.with_ids id orderID i.

Lemma insert_items_spec E orderID items tx w r w' :
  insert_items E orderID items tx w = (r, w') ->
  db w' = db w
  /\ match r with
     | Ok p =>
         orders (snd p) = orders tx
         /\ order_items (snd p)
            = order_items tx ++ map (stored_item E) (map item_row (fst p))
         /\ Forall2 (stamped orderID) items (fst p)
     | Err _ => True
     end.
Proof.
  revert tx w r w'. induction items as [|i rest IH]; intros tx w r w'.
  - simpl. intros H. inversion H; subst. simpl.
    rewrite app_nil_r. repeat split. constructor.
  - simpl. rewrite bind_run. unfold uuid_New_String.
    rewrite bind_run, Errorf_run. unfold tx_insert_item.
    rewrite bind_run.
    step_send.
    + destruct (existsb _ _).
      * intros H. inversion H; subst. split; [reflexivity | exact I].
      * unfold ret at 1. rewrite bind_run.
        match goal with
        | |- context [insert_items E ?o ?l ?t ?w0] =>
            destruct (insert_items E o l t w0) as [r1 w1] eqn:Hrec
        end.
        apply IH in Hrec. destruct Hrec as [Hdb Hr1].
        destruct r1 as [[its tx'']|e]; intros H; inversion H; subst;
          simpl in *.
        -- split; [exact Hdb|]. destruct Hr1 as (Ho & Hi & Hf).
           repeat split.
           ++ exact Ho.
           ++ rewrite Hi. rewrite <- app_assoc. reflexivity.
           ++ constructor; [eexists; reflexivity | exact Hf].
        -- split; [exact Hdb | exact I].
    + intros H. inversion H; subst. split; [reflexivity | exact I].
Qed.

(** What a successful [CreateOrder] made of the order it was given. *)
Definition created (order o : Order.t) : Prop :=
  Order.CustomerID o = Order.CustomerID order
  /\ Order.Status o = "pending"
  /\ Order.TotalPrice o = fold_left add_subtotal (Order.Items order) 0%float
  /\ Forall2 (fun i i' => stamped (Order.ID o) (priced i) i')
       (Order.Items order) (Order.Items o).

Lemma repo_CreateOrder_spec E order w r w' :
  repo_CreateOrder E order w = (r, w') ->
  match r with
  | Ok o =>
      orders (db w') = orders (db w) ++ [stored_order E (order_row o)]
      /\ order_items (db w')
         = order_items (db w)
           ++ map (stored_item E) (map item_row (Order.Items o))
      /\ created order o
  | Err _ => db w' = db w
  end.
Proof.
  unfold repo_CreateOrder. rewrite bind_run, Errorf_run.
  unfold db_Begin. rewrite bind_run.
  step_send; [|intros H; inversion H; reflexivity].
  unfold defer_Rollback. rewrite subtotal_loop_spec.
  repeat rewrite bind_run. unfold uuid_New_String, time_Now_. cbn beta iota.
  repeat rewrite bind_run. cbn beta iota.
  rewrite Errorf_run. unfold tx_insert_order. rewrite bind_run.
  step_send.
  2:{ destruct (last _) as [[]|]; intros H; inversion H; reflexivity. }
  cbn [db log trace uuids clock orders order_items].
  destruct (existsb _ _).
  { unfold fail. destruct (last _) as [[]|]; intros H; inversion H;
      reflexivity. }
  unfold ret at 1. rewrite bind_run.
  match goal with
  | |- context [insert_items E ?o ?l ?t ?w0] =>
      destruct (insert_items E o l t w0) as [r1 w1] eqn:Hins
  end.
  apply insert_items_spec in Hins. destruct Hins as [Hdb Hr1].
  cbn [db log trace uuids clock orders order_items] in Hdb.
  destruct r1 as [[its tx']|e].
  2:{ destruct (last _) as [[]|]; intros H; inversion H; subst;
      exact Hdb. }
  rewrite bind_run. unfold tx_Commit. rewrite bind_run.
  step_send.
  2:{ destruct (last _) as [[]|]; intros H; inversion H; subst;
      exact Hdb. }
  unfold ret. intros H; inversion H; subst; clear H.
  cbn in Hr1. destruct Hr1 as (Ho & Hi & Hf).
  cbn [db set_db orders order_items snd fst Order.with_Items Order.Items
       Order.ID].
  split; [exact Ho|]. split; [exact Hi|].
  unfold created. cbn. repeat split.
  clear -Hf. remember (Order.Items order) as l eqn:Hl. clear Hl.
  revert its Hf. induction l as [|i l IH]; intros its Hf;
    inversion Hf; subst; constructor; auto.
Qed.

(** ** CreateOrder: when the write goes through *)

(** A driver that fails no statement. *)
Definition reliable (E : Env) : Prop := forall n, driver_error E n = None.

Lemma send_reliable E s w : reliable E -> send E s w = (Ok tt, log s w).
Proof. intros H. unfold send. rewrite H. reflexivity. Qed.

(** The identifiers the next [CreateOrder] of [n] items will draw are not
    in the tables yet and differ from each other. *)
Definition fresh_ids (E : Env) (w : World) (n : nat) : Prop :=
  ~ In (uuid_New E (uuids w)) (map OrdersRow.id (orders (db w)))
  /\ NoDup (map (uuid_New E) (seq (S (uuids w)) n))
  /\ forall k, (k < n)%nat ->
               ~ In (uuid_New E (S (uuids w) + k))
                    (map OrderItemsRow.id (order_items (db w))).

Lemma existsb_eqb_false x (l : list string) :
  ~ In x l -> existsb (String.eqb x) l = false.
Proof.
  intros Hn. apply not_true_iff_false. intros Hex.
  apply existsb_exists in Hex. destruct Hex as (y & Hin & Heq).
  apply String.eqb_eq in Heq. subst. contradiction.
Qed.

Lemma convert_items_valid items :
  Forall valid_item items -> convert_items items = Ok (map blank_item items).
Proof.
  induction 1 as [|item rest [Hq Hp] _ IH]; simpl; [reflexivity|].
  replace (CreateOrderItemRequest.Quantity item <=? 0) with false
    by (symmetry; apply Z.leb_gt; exact Hq).
  rewrite Hp, IH. reflexivity.
Qed.

Lemma insert_items_reliable E orderID items :
  reliable E ->
  forall tx w,
    NoDup (map (uuid_New E) (seq (uuids w) (length items))) ->
    (forall k, (k < length items)%nat ->
               ~ In (uuid_New E (uuids w + k))
                    (map OrderItemsRow.id (order_items tx))) ->
    exists p w', insert_items E orderID items tx w = (Ok p, w').
Proof.
  intros Hrel. induction items as [|i rest IH]; intros tx w Hnd Hfresh.
  - eexists _, _. reflexivity.
  - simpl. rewrite bind_run. unfold uuid_New_String.
    rewrite bind_run, Errorf_run. unfold tx_insert_item.
    rewrite bind_run, (send_reliable _ _ _ Hrel).
    cbn [item_row OrderItemsRow.id OrderItem.with_ids OrderItem.ID].
    rewrite existsb_eqb_false.
    2:{ specialize (Hfresh 0%nat). rewrite Nat.add_0_r in Hfresh.
        apply Hfresh. cbn [length]. lia. }
    unfold ret at 1. rewrite bind_run.
    cbn [length seq map] in Hnd. apply NoDup_cons in Hnd.
    destruct Hnd as [Hhead Hnd].
    match goal with
    | |- context [insert_items E orderID rest ?tx' ?w1] =>
        destruct (IH tx' w1) as (p & w' & Hrun)
    end.
    + cbn [uuids log]. exact Hnd.
    + cbn [uuids log order_items]. intros k Hk. rewrite map_app, in_app_iff.
      intros [Hin | Hin].
      * apply (Hfresh (S k)); [cbn [length]; lia|].
        replace (uuids w + S k)%nat with (S (uuids w) + k)%nat by lia.
        exact Hin.
      * cbn in Hin. destruct Hin as [Heq | []].
        apply Hhead. rewrite Heq. apply list_elem_of_In, in_map, in_seq. lia.
    + rewrite Hrun. eexists _, _. reflexivity.
Qed.

Lemma repo_CreateOrder_reliable E order w :
  reliable E ->
  fresh_ids E w (length (Order.Items order)) ->
  exists o w', repo_CreateOrder E order w = (Ok o, w').
Proof.
  intros Hrel (Hid & Hnd & Hfresh).
  unfold repo_CreateOrder. rewrite bind_run, Errorf_run.
  unfold db_Begin. rewrite bind_run, (send_reliable _ _ _ Hrel).
  unfold defer_Rollback. rewrite subtotal_loop_spec.
  repeat rewrite bind_run. unfold uuid_New_String, time_Now_.
  cbn beta iota. repeat rewrite bind_run. cbn beta iota.
  rewrite Errorf_run. unfold tx_insert_order.
  rewrite bind_run, (send_reliable _ _ _ Hrel).
  cbn [db log trace uuids clock orders order_items order_row OrdersRow.id
       Order.ID].
  rewrite (existsb_eqb_false _ _ Hid).
  unfold ret at 1. rewrite bind_run.
  match goal with
  | |- context [insert_items E ?o ?l ?t ?w0] =>
      destruct (insert_items_reliable E o l Hrel t w0) as (p & w1 & Hrun)
  end.
  { cbn [uuids log Order.Items]. rewrite length_map. exact Hnd. }
  { cbn [uuids log Order.Items order_items]. rewrite length_map.
    exact Hfresh. }
  rewrite Hrun, bind_run. unfold tx_Commit.
  rewrite bind_run, (send_reliable _ _ _ Hrel).
  eexists _, _. reflexivity.
Qed.

Lemma service_CreateOrder_reliable E request w :
  reliable E ->
  fresh_ids E w (length (CreateOrderRequest.Items request)) ->
  valid_request request ->
  exists order w', service_CreateOrder E request w = (Ok order, w').
Proof.
  intros Hrel Hfresh [Hne Hv]. unfold service_CreateOrder.
  destruct (CreateOrderRequest.Items request) as [|item rest] eqn:Hitems;
    [congruence|].
  cbn [length Nat.eqb]. rewrite (convert_items_valid _ Hv), Errorf_run.
  match goal with
  | |- context [repo_CreateOrder E ?o w] =>
      destruct (repo_CreateOrder_reliable E o w Hrel) as (o' & w' & Hrun)
  end.
  { cbn [Order.Items]. rewrite length_map. exact Hfresh. }
  rewrite Hrun. eexists _, _. reflexivity.
Qed.

(** ** C1: order creation is all-or-nothing *)

(** C1. A request that fails validation (no item, or an item with a
    quantity [<= 0] or a price [< 0]) is answered with a validation error
    and the world is untouched: no statement was sent, no row written. A
    request that passes validation either succeeds, and then the committed
    tables are the old ones plus the order's row and one row per item of
    the order returned (amounts and times as the columns hold them), or
    fails with a wrapped storage error, and then the committed tables are
    the old ones: no order row and no item row was persisted. With a
    driver that fails no statement and identifiers not in use, it
    succeeds. *)
Theorem create_order_all_or_nothing E request w :
  (~ valid_request request ->
     exists msg,
       service_CreateOrder E request w = (Err msg, w)
       /\ validation_error request msg)
  /\ (valid_request request ->
        (exists order w',
           service_CreateOrder E request w = (Ok order, w')
           /\ orders (db w')
              = orders (db w) ++ [stored_order E (order_row order)]
           /\ order_items (db w')
              = order_items (db w)
                ++ map (stored_item E) (map item_row (Order.Items order))
           /\ length (Order.Items order)
              = length (CreateOrderRequest.Items request))
        \/ (exists e w',
              service_CreateOrder E request w
              = (Err ("failed to create order: " +:+ e), w')
              /\ db w' = db w))
  /\ (valid_request request ->
      reliable E ->
      fresh_ids E w (length (CreateOrderRequest.Items request)) ->
      exists order w', service_CreateOrder E request w = (Ok order, w')).
Proof.
  apply and_assoc. split;
    [|intros Hv Hrel Hfresh;
      exact (service_CreateOrder_reliable E request w Hrel Hfresh Hv)].
  unfold service_CreateOrder, valid_request.
  destruct (CreateOrderRequest.Items request) as [|item rest] eqn:Hitems.
  { split.
    - intros _. exists "order must contain at least one item".
      split; [reflexivity | left; reflexivity].
    - intros [H _]. congruence. }
  cbn [length Nat.eqb].
  destruct (convert_items (item :: rest)) as [l|e] eqn:Hconv.
  - apply convert_items_Ok in Hconv. destruct Hconv as [Hv ->].
    split.
    + intros Hn. exfalso. apply Hn. split; [discriminate | exact Hv].
    + intros _. rewrite Errorf_run.
      match goal with
      | |- context [repo_CreateOrder E ?o w] =>
          destruct (repo_CreateOrder E o w) as [r w'] eqn:Hrepo
      end.
      apply repo_CreateOrder_spec in Hrepo.
      destruct r as [order|e].
      * left. exists order, w'. destruct Hrepo as (Ho & Hi & Hc).
        repeat split; try assumption.
        destruct Hc as (_ & _ & _ & Hf). cbn in Hf.
        apply Forall2_length in Hf. cbn [length] in Hf.
        rewrite length_map in Hf. symmetry. exact Hf.
      * right. exists e, w'. split; [reflexivity | exact Hrepo].
  - apply convert_items_Err in Hconv. destruct Hconv as [Hn (it & Hin & Hmsg)].
    split.
    + intros _. exists e. split; [reflexivity|].
      right. exists it. rewrite Hitems. split; assumption.
    + intros [_ Hv]. contradiction.
Qed.

(** ** Sample runs *)

(** The nearest cent: the binary64 nearest to the amount rounded, half away
    from zero, to two decimals. (PostgreSQL rounds the decimal text the
    driver sends; the two agree except within one part in 10^15 of half a
    cent, which no sample comes near.) *)
Definition round_cents (x : float) : float :=
  match exact_value x with
  | Some q =>
      let h := (Qnum q * 200 + Z.pos (Qden q)) / (2 * Z.pos (Qden q)) in
      let c := if (0 <=? Qnum q) then h
               else - ((- Qnum q * 200 + Z.pos (Qden q)) / (2 * Z.pos (Qden q))) in
      (float64_of_int c / float64_of_int 100)%float
  | None => x
  end.

(** The text of database/sql's error for a NULL in a [time.Time] column:
    the first of [created_at] (column 5) and [updated_at] (column 6) that
    is NULL is named. *)
Definition quoted (s : string) : string :=
  String (Ascii.ascii_of_nat 34) (s +:+ String (Ascii.ascii_of_nat 34) EmptyString).

Definition null_time_error (r : OrdersRow.t) : string :=
  let column := match OrdersRow.created_at r with
                | None => "5, name " +:+ quoted "created_at"
                | Some _ => "6, name " +:+ quoted "updated_at"
                end in
  "sql: Scan error on column index " +:+ column
  +:+ ": unsupported Scan, storing driver.Value type <nil> into type *time.Time".

(** An environment whose driver never fails, with distinct identifiers, a
    clock ticking in whole microseconds (which a [TIMESTAMP] keeps as they
    are) and amounts held to the cent; and the empty database. *)
Definition sample_env : Env :=
  mkEnv (fun n => "uuid-" +:+ pretty n) (fun n => Z.of_nat n) (fun _ => None)
        round_cents (fun t => t) null_time_error.

Definition empty_world : World := mkWorld (mkDatabase [] []) [] 0 0.

(** The scenario of the specification: one game at 10.00, twice. *)
Definition sample_request : CreateOrderRequest.t :=
  CreateOrderRequest.mk "c1" [CreateOrderItemRequest.mk 1 "G" 10%float 2].

(** The binary64 value a JSON body's [0.1] decodes to. *)
Definition tenth : float := 0x1.999999999999ap-4%float.

Definition tenth_request : CreateOrderRequest.t :=
  CreateOrderRequest.mk "c1" [CreateOrderItemRequest.mk 1 "G" tenth 3].

Example sample_create :
  exists order w',
    service_CreateOrder sample_env sample_request empty_world = (Ok order, w')
    /\ Order.TotalPrice order = 20%float
    /\ Order.Status order = "pending"
    /\ length (orders (db w')) = 1%nat
    /\ length (order_items (db w')) = 1%nat.
Proof. vm_compute. eauto 10. Qed.

(** The driver fails the third statement (the item insert): nothing is
    left of the order row the second statement wrote. *)
Example sample_create_fails_midway :
  let E := mkEnv (uuid_New sample_env) (time_Now sample_env)
             (fun n => if (n =? 2)%nat then Some "connection reset" else None)
             round_cents (fun t => t) null_time_error in
  exists w',
    service_CreateOrder E sample_request empty_world
    = (Err "failed to create order: failed to insert order item: connection reset", w')
    /\ db w' = db empty_world
    /\ last (trace w') = Some QRollback.
Proof. vm_compute. eauto. Qed.

(** Both branches of C1 at sample requests: the specification's scenario
    is valid and is written whole; a request with a quantity of 0 is
    refused before anything is sent. *)
Lemma create_order_all_or_nothing_witness :
  (valid_request sample_request
   /\ exists order w',
        service_CreateOrder sample_env sample_request empty_world
        = (Ok order, w')
        /\ orders (db w') = [stored_order sample_env (order_row order)]
        /\ order_items (db w')
           = map (stored_item sample_env) (map item_row (Order.Items order)))
  /\ (let bad := CreateOrderRequest.mk "c1"
                    [CreateOrderItemRequest.mk 1 "G" 10%float 0] in
      ~ valid_request bad
      /\ service_CreateOrder sample_env bad empty_world
         = (Err "quantity must be greater than 0 for game G", empty_world)).
Proof.
  split.
  - assert (Hv : valid_request sample_request).
    { split; [discriminate|]. repeat constructor. }
    split; [exact Hv|].
    destruct (create_order_all_or_nothing sample_env sample_request
                empty_world) as (_ & Hvalid & _).
    destruct (Hvalid Hv) as [(order & w' & Hrun & Ho & Hi & _)
                            | (e & w' & Hrun & _)].
    + exists order, w'. split; [exact Hrun|]. split; assumption.
    + vm_compute in Hrun. discriminate Hrun.
  - cbv zeta. split; [|reflexivity].
    intros [_ Hv]. inversion Hv as [|? ? [Hq _] _]; subst.
    cbn in Hq. lia.
Defined.

(** ** C2: the totals of a created order *)

(** The exact sum of [price * quantity] over the items of a request. *)
Fixpoint exact_sum (items : list CreateOrderItemRequest.t) : option Q :=
  match items with
  | [] => Some 0%Q
  | item :: rest =>
      match exact_value (CreateOrderItemRequest.Price item), exact_sum rest with
      | Some p, Some q =>
          Some (p * inject_Z (CreateOrderItemRequest.Quantity item) + q)%Q
      | _, _ => None
      end
  end.

Definition total_is_exact_sum (request : CreateOrderRequest.t)
    (order : Order.t) : Prop :=
  match exact_value (Order.TotalPrice order),
        exact_sum (CreateOrderRequest.Items request) with
  | Some t, Some q => (t == q)%Q
  | _, _ => False
  end.

(** The total as the code accumulates it: binary64 products added in item
    order, starting from 0. *)
Definition float_total (items : list CreateOrderItemRequest.t) : float :=
  fold_left
    (fun total item =>
       (total + CreateOrderItemRequest.Price item
                * float64_of_int (CreateOrderItemRequest.Quantity item))%float)
    items 0%float.

Definition item_of_request (item : CreateOrderItemRequest.t)
    (i : OrderItem.t) : Prop :=
  OrderItem.Price i = CreateOrderItemRequest.Price item
  /\ OrderItem.Quantity i = CreateOrderItemRequest.Quantity item
  /\ OrderItem.GameID i = CreateOrderItemRequest.GameID item
  /\ OrderItem.GameName i = CreateOrderItemRequest.GameName item
  /\ OrderItem.Subtotal i
     = (CreateOrderItemRequest.Price item
        * float64_of_int (CreateOrderItemRequest.Quantity item))%float.

Lemma fold_add_subtotal_blank items total :
  fold_left add_subtotal (map blank_item items) total
  = fold_left
      (fun total item =>
         (total + CreateOrderItemRequest.Price item
                  * float64_of_int (CreateOrderItemRequest.Quantity item))%float)
      items total.
Proof.
  revert total. induction items as [|item rest IH]; intros total; simpl.
  - reflexivity.
  - rewrite IH. reflexivity.
Qed.

(** What a successful service call returns, in terms of the request. *)
Lemma service_CreateOrder_Ok E request w order w' :
  service_CreateOrder E request w = (Ok order, w') ->
  Order.CustomerID order = CreateOrderRequest.CustomerID request
  /\ Order.Status order = "pending"
  /\ Order.TotalPrice order = float_total (CreateOrderRequest.Items request)
  /\ Forall2 (fun item i' => stamped (Order.ID order) (priced (blank_item item)) i')
       (CreateOrderRequest.Items request) (Order.Items order).
Proof.
  unfold service_CreateOrder.
  destruct (length (CreateOrderRequest.Items request) =? 0)%nat;
    [discriminate|].
  destruct (convert_items _) as [l|e] eqn:Hconv; [|discriminate].
  apply convert_items_Ok in Hconv. destruct Hconv as [_ ->].
  rewrite Errorf_run.
  match goal with
  | |- context [repo_CreateOrder E ?o w] =>
      destruct (repo_CreateOrder E o w) as [r w1] eqn:Hrepo
  end.
  apply repo_CreateOrder_spec in Hrepo.
  destruct r as [o|e]; intros H; inversion H; subst.
  destruct Hrepo as (_ & _ & Hc & Hs & Ht & Hf). cbn in Hc, Ht, Hf.
  repeat split; try assumption.
  - rewrite Ht. apply fold_add_subtotal_blank.
  - clear -Hf. remember (CreateOrderRequest.Items request) as l eqn:Hl.
    clear Hl. remember (Order.Items order) as its eqn:Hi. clear Hi.
    revert its Hf. induction l as [|i l IH]; intros its Hf;
      inversion Hf; subst; constructor; auto.
Qed.

(** X20. What [CreateOrder] computes. The order returned for a valid
    request has status "pending", each item carries the price and quantity of its
    request item with subtotal [price * float64(quantity)], and the total
    is the binary64 sum of these products, added in item order from 0. *)
Theorem create_order_totals E request w order w' :
  valid_request request ->
  service_CreateOrder E request w = (Ok order, w') ->
  Order.TotalPrice order = float_total (CreateOrderRequest.Items request)
  /\ Forall2 item_of_request
       (CreateOrderRequest.Items request) (Order.Items order)
  /\ Order.Status order = "pending".
Proof.
  intros _ H. apply service_CreateOrder_Ok in H.
  destruct H as (_ & Hs & Ht & Hf). repeat split; try assumption.
  eapply Forall2_impl; [exact Hf|].
  intros item i' [id ->]. unfold item_of_request. cbn. repeat split.
Qed.

Lemma create_order_totals_witness :
  valid_request sample_request
  /\ exists order w',
       service_CreateOrder sample_env sample_request empty_world = (Ok order, w')
       /\ Order.TotalPrice order = 20%float
       /\ Forall2 item_of_request
            (CreateOrderRequest.Items sample_request) (Order.Items order)
       /\ Order.Status order = "pending".
Proof.
  assert (Hv : valid_request sample_request).
  { split; [discriminate|]. repeat constructor. }
  split; [exact Hv|].
  destruct (service_CreateOrder sample_env sample_request empty_world)
    as [[order|e] w'] eqn:Heq; [|vm_compute in Heq; discriminate Heq].
  exists order, w'. split; [reflexivity|].
  destruct (create_order_totals sample_env sample_request empty_world order w'
              Hv Heq) as (Ht & Hf & Hs).
  split; [|split; assumption].
  rewrite Ht. vm_compute. reflexivity.
Defined.

(** The total read as a sum in exact arithmetic: this fails, since 0.1
    three times gives 0.30000000000000004, which is neither three times
    the price nor 0.3. *)
Definition create_order_total_exact : Prop :=
  forall E request w order w',
    valid_request request ->
    service_CreateOrder E request w = (Ok order, w') ->
    total_is_exact_sum request order.

Lemma create_order_total_not_exact : ~ create_order_total_exact.
Proof.
  intros H.
  destruct (service_CreateOrder sample_env tenth_request empty_world)
    as [[order|e] w'] eqn:Hrun; [|vm_compute in Hrun; discriminate Hrun].
  assert (Hv : valid_request tenth_request).
  { split; [discriminate|]. repeat constructor. }
  specialize (H sample_env tenth_request empty_world order w' Hv Hrun).
  vm_compute in Hrun. inversion Hrun; subst. clear Hrun.
  vm_compute in H.
  discriminate H.
Qed.

(** C2. One game at 0.1, three times, in the empty store: the request is
    valid and [CreateOrder] returns a pending order whose total and whose
    item's subtotal are 0.30000000000000004 (binary64
    0x1.3333333333334p-2). This is not the exact sum of [price * quantity]
    of the request; the [DECIMAL(10,2)] columns hold 0.30 for both, and the
    order read back by its id has the total 0.3 (the binary64 nearest to
    it, 0x1.3333333333333p-2), which is also what the constant [0.1 * 3]
    is in a Go test. The order returned and the order stored differ. *)
Theorem create_order_total_at_tenth :
  valid_request tenth_request
  /\ exists order w',
       service_CreateOrder sample_env tenth_request empty_world
       = (Ok order, w')
       /\ Order.Status order = "pending"
       /\ Order.TotalPrice order = 0x1.3333333333334p-2%float
       /\ map OrderItem.Subtotal (Order.Items order)
          = [0x1.3333333333334p-2%float]
       /\ ~ total_is_exact_sum tenth_request order
       /\ map OrdersRow.total_price (orders (db w'))
          = [0x1.3333333333333p-2%float]
       /\ map OrderItemsRow.subtotal (order_items (db w'))
          = [0x1.3333333333333p-2%float]
       /\ exists o w'',
            service_GetOrderByID sample_env (Order.ID order) w' = (Ok o, w'')
            /\ Order.TotalPrice o = 0x1.3333333333333p-2%float
            /\ map OrderItem.Subtotal (Order.Items o)
               = [0x1.3333333333333p-2%float].
Proof.
  split; [split; [discriminate | repeat constructor]|].
  destruct (service_CreateOrder sample_env tenth_request empty_world)
    as [[order|e] w'] eqn:Hrun; [|vm_compute in Hrun; discriminate Hrun].
  exists order, w'. split; [reflexivity|].
  vm_compute in Hrun. inversion Hrun; subst. clear Hrun.
  split; [reflexivity|]. split; [reflexivity|]. split; [reflexivity|].
  split; [intros H; vm_compute in H; discriminate H|].
  split; [reflexivity|]. split; [reflexivity|].
  eexists _, _. split; [vm_compute; reflexivity|].
  split; reflexivity.
Qed.

(** ** Reading orders back *)

(** The items [getOrderItems] returns for an order id. *)
Definition items_of (d : Database) (orderID : string) : list OrderItem.t :=
  map scan_item
    (merge_sort by_id
       (List.filter (fun r => String.eqb (OrderItemsRow.order_id r) orderID)
          (order_items d))).

Lemma getOrderItems_spec E orderID w r w' :
  getOrderItems E orderID w = (r, w') ->
  db w' = db w
  /\ match r with
     | Ok items => items = items_of (db w) orderID
     | Err _ => True
     end.
Proof.
  unfold getOrderItems, select_items.
  rewrite bind_run, Errorf_run, bind_run. step_send.
  - intros H. inversion H; subst. split; reflexivity.
  - intros H. inversion H; subst. split; [reflexivity | exact I].
Qed.

Lemma getOrderItems_reliable E orderID w :
  reliable E ->
  getOrderItems E orderID w
  = (Ok (items_of (db w) orderID), log (QSelectItems orderID) w).
Proof.
  intros H. unfold getOrderItems, select_items.
  rewrite bind_run, Errorf_run, bind_run, (send_reliable _ _ _ H).
  reflexivity.
Qed.

(** A row that [rows.Scan] accepts. *)
Definition decodable (r : OrdersRow.t) : Prop :=
  is_Some (OrdersRow.created_at r) /\ is_Some (OrdersRow.updated_at r).

(** The order a list query builds from a row of database [d]. *)
Definition fetched (E : Env) (d : Database) (r : OrdersRow.t) (o : Order.t)
  : Prop :=
  exists order,
    scan_order E r = Ok order
    /\ o = Order.with_Items (items_of d (OrdersRow.id r)) order.

Lemma fetched_fields E d r o :
  fetched E d r o ->
  Order.ID o = OrdersRow.id r
  /\ Order.Status o = OrdersRow.status r
  /\ Order.TotalPrice o = OrdersRow.total_price r
  /\ Order.CustomerID o = OrdersRow.customer_id r
  /\ Order.Items o = items_of d (OrdersRow.id r).
Proof.
  intros (order & Hs & ->). unfold scan_order in Hs.
  destruct (OrdersRow.created_at r), (OrdersRow.updated_at r);
    inversion Hs; subst. cbn. repeat split.
Qed.

Lemma scan_orders_spec E rows w r w' :
  scan_orders E rows w = (r, w') ->
  db w' = db w
  /\ match r with
     | Ok l => Forall2 (fetched E (db w)) rows l
     | Err _ => True
     end.
Proof.
  revert w r w'. induction rows as [|row rest IH]; intros w r w'; simpl.
  - intros H. inversion H; subst. split; [reflexivity | constructor].
  - destruct (scan_order E row) as [order|e] eqn:Hscan.
    2:{ intros H. inversion H; subst. split; [reflexivity | exact I]. }
    rewrite bind_run, Errorf_run.
    destruct (getOrderItems E (Order.ID order) w) as [ri w1] eqn:Hitems.
    apply getOrderItems_spec in Hitems. destruct Hitems as [Hdb1 Hri].
    destruct ri as [items|e].
    2:{ intros H. inversion H; subst. split; [exact Hdb1 | exact I]. }
    rewrite bind_run.
    destruct (scan_orders E rest w1) as [rr w2] eqn:Hrest.
    apply IH in Hrest. destruct Hrest as [Hdb2 Hrr].
    destruct rr as [l|e]; intros H; inversion H; subst.
    + split; [congruence|]. constructor.
      * exists order. split; [exact Hscan|].
        assert (Hid : Order.ID order = OrdersRow.id row).
        { unfold scan_order in Hscan.
          destruct (OrdersRow.created_at row), (OrdersRow.updated_at row);
            inversion Hscan; reflexivity. }
        rewrite Hid. reflexivity.
      * rewrite <- Hdb1. exact Hrr.
    + split; [congruence | exact I].
Qed.

Lemma scan_orders_reliable E rows w :
  reliable E ->
  Forall decodable rows ->
  exists l w', scan_orders E rows w = (Ok l, w') /\ db w' = db w.
Proof.
  intros Hrel. revert w. induction rows as [|row rest IH]; intros w Hdec.
  - exists [], w. split; reflexivity.
  - inversion Hdec as [|? ? [[c Hc] [u Hu]] Hrest]; subst. simpl.
    unfold scan_order. rewrite Hc, Hu. rewrite bind_run, Errorf_run.
    rewrite (getOrderItems_reliable _ _ _ Hrel). rewrite bind_run.
    match goal with
    | |- context [scan_orders E rest ?w0] =>
        destruct (IH w0 Hrest) as (l & w' & Hrun & Hdb)
    end.
    rewrite Hrun. eexists _, w'. split; [reflexivity | exact Hdb].
Qed.

(** The rows a page query selects. *)
Definition page_rows (limit offset : Z) (d : Database) : list OrdersRow.t :=
  take (Z.to_nat limit)
    (drop (Z.to_nat offset) (merge_sort newest_first (orders d))).

Lemma repo_GetAllOrders_spec E limit offset w r w' :
  repo_GetAllOrders E limit offset w = (r, w') ->
  db w' = db w
  /\ match r with
     | Ok p =>
         0 <= limit /\ 0 <= offset
         /\ snd p = Z.of_nat (length (orders (db w)))
         /\ Forall2 (fetched E (db w)) (page_rows limit offset (db w)) (fst p)
     | Err _ => True
     end.
Proof.
  unfold repo_GetAllOrders, select_count, select_orders_page.
  rewrite bind_run, Errorf_run, bind_run. step_send.
  2:{ intros H. inversion H; subst. split; [reflexivity | exact I]. }
  rewrite bind_run, Errorf_run, bind_run. step_send.
  2:{ intros H. inversion H; subst. split; [reflexivity | exact I]. }
  destruct (limit <? 0) eqn:Hl.
  { intros H. inversion H; subst. split; [reflexivity | exact I]. }
  destruct (offset <? 0) eqn:Ho.
  { intros H. inversion H; subst. split; [reflexivity | exact I]. }
  rewrite bind_run.
  match goal with
  | |- context [scan_orders E ?rows ?w0] =>
      destruct (scan_orders E rows w0) as [rr w1] eqn:Hscan
  end.
  apply scan_orders_spec in Hscan. destruct Hscan as [Hdb Hrr].
  cbn [db log trace uuids clock] in Hdb, Hrr.
  destruct rr as [l|e]; intros H; inversion H; subst.
  - split; [exact Hdb|]. cbn [fst snd]. repeat split; try lia. exact Hrr.
  - split; [exact Hdb | exact I].
Qed.

Lemma repo_GetAllOrders_reliable E limit offset w :
  reliable E -> 0 <= limit -> 0 <= offset ->
  Forall decodable (orders (db w)) ->
  exists l w',
    repo_GetAllOrders E limit offset w
    = (Ok (l, Z.of_nat (length (orders (db w)))), w').
Proof.
  intros Hrel Hl Ho Hdec.
  unfold repo_GetAllOrders, select_count, select_orders_page.
  rewrite bind_run, Errorf_run, bind_run, (send_reliable _ _ _ Hrel).
  rewrite bind_run, Errorf_run, bind_run, (send_reliable _ _ _ Hrel).
  destruct (limit <? 0) eqn:Hl'; [lia|].
  destruct (offset <? 0) eqn:Ho'; [lia|].
  rewrite bind_run.
  match goal with
  | |- context [scan_orders E ?rows ?w0] =>
      destruct (scan_orders_reliable E rows w0 Hrel) as (l & w' & Hrun & _)
  end.
  { cbn [db log]. apply Forall_take, Forall_drop.
    rewrite merge_sort_Permutation. exact Hdec. }
  rewrite Hrun. exists l, w'. reflexivity.
Qed.

(** ** C3: statistics *)

(** How many of the rows have status [s], and the binary64 sum of
    [total_price] over the delivered ones, added in list order from 0. *)
Definition count_status (s : string) (rows : list OrdersRow.t) : Z :=
  Z.of_nat
    (length (List.filter (fun r => String.eqb (OrdersRow.status r) s) rows)).

Definition delivered_revenue_from (rows : list OrdersRow.t) (start : float)
  : float :=
  fold_left (fun total r => (total + OrdersRow.total_price r)%float)
    (List.filter (fun r => String.eqb (OrdersRow.status r) "delivered") rows)
    start.

Definition delivered_revenue (rows : list OrdersRow.t) : float :=
  delivered_revenue_from rows 0%float.

Lemma statistics_loop_spec E d rows l :
  Forall2 (fetched E d) rows l ->
  forall statusCounts totalRevenue,
    (forall s,
        default 0 (fst (statistics_loop l statusCounts totalRevenue) !! s)
        = default 0 (statusCounts !! s) + count_status s rows)
    /\ snd (statistics_loop l statusCounts totalRevenue)
       = delivered_revenue_from rows totalRevenue.
Proof.
  induction 1 as [|row o rows l Hrow _ IH]; intros m rev.
  - split; [|reflexivity]. intros s. unfold count_status.
    cbn [statistics_loop fst List.filter length]. lia.
  - apply fetched_fields in Hrow. destruct Hrow as (_ & Hs & Ht & _).
    simpl statistics_loop. rewrite Hs, Ht.
    match goal with
    | |- context [statistics_loop l ?m' ?rev'] =>
        destruct (IH m' rev') as [Hc Hr]
    end.
    split.
    + intros s. rewrite Hc. unfold count_status. simpl List.filter.
      destruct (decide (OrdersRow.status row = s)) as [->|Hne].
      * rewrite lookup_insert_eq, String.eqb_refl. cbn [default length].
        unfold id. lia.
      * rewrite lookup_insert_ne by exact Hne.
        destruct (String.eqb_spec (OrdersRow.status row) s);
          [contradiction|]. lia.
    + rewrite Hr. unfold delivered_revenue_from. simpl List.filter.
      destruct (String.eqb (OrdersRow.status row) "delivered"); reflexivity.
Qed.

Lemma count_status_Permutation s (l1 l2 : list OrdersRow.t) :
  l1 ≡ₚ l2 -> count_status s l1 = count_status s l2.
Proof.
  intros H. unfold count_status. f_equal.
  induction H as [|x l1 l2 _ IH|x y l|l1 l2 l3 _ IH1 _ IH2]; simpl.
  - reflexivity.
  - destruct (String.eqb _ s); simpl; congruence.
  - destruct (String.eqb (OrdersRow.status x) s),
             (String.eqb (OrdersRow.status y) s); reflexivity.
  - congruence.
Qed.

(** The rows statistics are computed from: the 1000 newest. *)
Definition recent_orders (d : Database) : list OrdersRow.t :=
  take 1000 (merge_sort newest_first (orders d)).

Lemma recent_orders_page d : page_rows 1000 0 d = recent_orders d.
Proof. reflexivity. Qed.

Lemma recent_orders_all d :
  (length (orders d) <= 1000)%nat ->
  recent_orders d = merge_sort newest_first (orders d).
Proof.
  intros H. unfold recent_orders. apply take_ge.
  rewrite merge_sort_Permutation. exact H.
Qed.

Lemma service_GetOrderStatistics_spec E w st w' :
  service_GetOrderStatistics E w = (Ok st, w') ->
  db w' = db w
  /\ total_orders st = Z.of_nat (length (orders (db w)))
  /\ total_revenue st = delivered_revenue (recent_orders (db w))
  /\ forall s,
       default 0 (status_counts st !! s)
       = count_status s (recent_orders (db w)).
Proof.
  unfold service_GetOrderStatistics. rewrite bind_run, Errorf_run.
  destruct (repo_GetAllOrders E 1000 0 w) as [r w1] eqn:Hrepo.
  apply repo_GetAllOrders_spec in Hrepo. destruct Hrepo as [Hdb Hr].
  destruct r as [[l total]|e]; [|discriminate].
  destruct Hr as (_ & _ & Htotal & Hf). cbn [fst snd] in *.
  rewrite recent_orders_page in Hf.
  destruct (statistics_loop_spec _ _ _ _ Hf ∅ 0%float) as [Hc Hrev].
  destruct (statistics_loop l ∅ 0%float) as [counts rev] eqn:Hloop.
  cbn [fst snd] in *.
  intros H. inversion H; subst. cbn. repeat split; try assumption.
Qed.

(** With a driver that fails no statement and rows that decode, the
    statistics are returned. *)
Lemma service_GetOrderStatistics_reliable E w :
  reliable E ->
  Forall decodable (orders (db w)) ->
  exists st w', service_GetOrderStatistics E w = (Ok st, w').
Proof.
  intros Hrel Hdec.
  destruct (repo_GetAllOrders_reliable E 1000 0 w Hrel) as (l & w' & Hrun);
    [lia | lia | exact Hdec |].
  unfold service_GetOrderStatistics.
  rewrite bind_run, Errorf_run, Hrun.
  destruct (statistics_loop _ _ _). eexists _, _. reflexivity.
Qed.

(** C3, as the code has it. With a driver that fails no statement and
    rows that decode, statistics are returned and the tables are left as
    they were: the total is the count of all orders; the revenue is the
    binary64 sum of [total_price] over the delivered orders among the 1000
    newest, added newest first; and each status is counted among the 1000
    newest. When the store holds at most 1000 orders, these are all its
    orders. *)
Theorem statistics_over_recent_orders E w :
  reliable E ->
  Forall decodable (orders (db w)) ->
  exists st w',
    service_GetOrderStatistics E w = (Ok st, w')
    /\ db w' = db w
    /\ total_orders st = Z.of_nat (length (orders (db w)))
    /\ total_revenue st = delivered_revenue (recent_orders (db w))
    /\ (forall s,
          default 0 (status_counts st !! s)
          = count_status s (recent_orders (db w)))
    /\ ((length (orders (db w)) <= 1000)%nat ->
        total_revenue st
        = delivered_revenue (merge_sort newest_first (orders (db w)))
        /\ forall s,
             default 0 (status_counts st !! s)
             = count_status s (orders (db w))).
Proof.
  intros Hrel Hdec.
  destruct (service_GetOrderStatistics_reliable E w Hrel Hdec)
    as (st & w'' & Hstat).
  exists st, w''. split; [exact Hstat|].
  apply service_GetOrderStatistics_spec in Hstat.
  destruct Hstat as (Hdb & Ht & Hr & Hc).
  repeat split; try assumption.
  - rewrite Hr, recent_orders_all by assumption. reflexivity.
  - intros s. rewrite Hc, recent_orders_all by assumption.
    apply count_status_Permutation, merge_sort_Permutation.
Qed.

Definition sample_rows : list OrdersRow.t :=
  [OrdersRow.mk "a1" "c1" 20%float "delivered" 3 (Some 3) (Some 7);
   OrdersRow.mk "a2" "c2" 5%float "pending" 4 (Some 4) (Some 4);
   OrdersRow.mk "a3" "c1" 1.5%float "delivered" 5 (Some 5) (Some 9)].

Definition sample_item_rows : list OrderItemsRow.t :=
  [OrderItemsRow.mk "i2" "a1" 7 "G" 10%float 2 20%float;
   OrderItemsRow.mk "i1" "a2" 8 "H" 5%float 1 5%float;
   OrderItemsRow.mk "i3" "a3" 9 "K" 1.5%float 1 1.5%float].

Definition sample_world : World :=
  mkWorld (mkDatabase sample_rows sample_item_rows) [] 0 0.

Lemma sample_env_reliable : reliable sample_env.
Proof. intros n. reflexivity. Qed.

Lemma sample_rows_decodable : Forall decodable sample_rows.
Proof. repeat constructor; eexists; reflexivity. Qed.

Lemma statistics_over_recent_orders_witness :
  reliable sample_env
  /\ Forall decodable (orders (db sample_world))
  /\ exists st w',
       service_GetOrderStatistics sample_env sample_world = (Ok st, w')
       /\ total_orders st = 3
       /\ total_revenue st = 21.5%float
       /\ default 0 (status_counts st !! "delivered") = 2
       /\ default 0 (status_counts st !! "pending") = 1
       /\ default 0 (status_counts st !! "shipped") = 0.
Proof.
  split; [exact sample_env_reliable|].
  split; [exact sample_rows_decodable|].
  destruct (statistics_over_recent_orders sample_env sample_world
              sample_env_reliable sample_rows_decodable)
    as (st & w' & Hrun & _ & Ht & Hr & Hc & _).
  exists st, w'. split; [exact Hrun|].
  split; [exact Ht|]. split; [rewrite Hr; vm_compute; reflexivity|].
  repeat split; rewrite Hc; reflexivity.
Defined.

(** The specification's reading: counts and revenue range over every stored
    order. *)
Definition statistics_over_all_orders : Prop :=
  forall E w st w',
    service_GetOrderStatistics E w = (Ok st, w') ->
    total_orders st = Z.of_nat (length (orders (db w)))
    /\ total_revenue st
       = delivered_revenue (merge_sort newest_first (orders (db w)))
    /\ forall s,
         default 0 (status_counts st !! s) = count_status s (orders (db w)).

(** A store with 1001 pending orders. *)
Definition crowded_rows : list OrdersRow.t :=
  map (fun n => OrdersRow.mk ("o" +:+ pretty n) "c1" 1%float "pending"
                  (Z.of_nat n) (Some 0) (Some 0))
    (seq 0 1001).

Definition crowded_world : World :=
  mkWorld (mkDatabase crowded_rows []) [] 0 0.

Lemma crowded_rows_decodable : Forall decodable crowded_rows.
Proof.
  apply Forall_forall. intros r Hr. unfold crowded_rows in Hr.
  apply list_elem_of_fmap in Hr. destruct Hr as (n & -> & _).
  split; eexists; reflexivity.
Qed.

(** With 1001 pending orders, 1000 are counted. *)
Lemma statistics_miss_older_orders : ~ statistics_over_all_orders.
Proof.
  intros H.
  destruct (service_GetOrderStatistics_reliable sample_env crowded_world
              sample_env_reliable crowded_rows_decodable)
    as (st & w' & Hrun).
  destruct (H _ _ _ _ Hrun) as (_ & _ & Hall).
  apply service_GetOrderStatistics_spec in Hrun.
  destruct Hrun as (_ & _ & _ & Hc).
  specialize (Hc "pending"). specialize (Hall "pending").
  rewrite Hall in Hc. vm_compute in Hc.
  discriminate Hc.
Qed.

(** ** C4: the status whitelist *)

Definition six_statuses : list string :=
  ["pending"; "confirmed"; "processing"; "shipped"; "delivered"; "cancelled"].

Lemma validStatuses_spec s :
  default false (validStatuses !! s) = true <-> In s six_statuses.
Proof.
  unfold validStatuses, six_statuses. cbn [list_to_map foldr fst snd].
  repeat (rewrite lookup_insert; case_decide;
          [subst; cbn; intuition auto; fail|]).
  rewrite lookup_empty. cbn. split; [discriminate|].
  intuition congruence.
Qed.

(** An error message names a value when the value occurs in it. *)
Definition names (msg value : string) : Prop :=
  is_Some (String.index 0 value msg).

Lemma substring_whole s : String.substring 0 (String.length s) s = s.
Proof. induction s as [|a s IH]; simpl; [reflexivity | rewrite IH; reflexivity]. Qed.

Lemma substring_after_prefix p s :
  String.substring (String.length p) (String.length s) (p +:+ s) = s.
Proof.
  induction p as [|a p IH]; simpl; [apply substring_whole | exact IH].
Qed.

Lemma names_suffix p s : names (p +:+ s) s.
Proof.
  unfold names. destruct (String.index 0 s (p +:+ s)) as [n|] eqn:Hidx;
    [eexists; reflexivity|].
  exfalso. destruct s as [|a s].
  - apply String.index_correct4 in Hidx. lia.
  - apply (String.index_correct3 0 (String.length p)) in Hidx;
      [|discriminate | lia].
    apply Hidx, substring_after_prefix.
Qed.

(** The specification's reading, for every order id. *)
Definition unknown_status_named_for_every_id : Prop :=
  forall E id status w,
    ~ In status six_statuses ->
    exists msg,
      service_UpdateOrderStatus E id (UpdateOrderStatusRequest.mk status) w
      = (Err msg, w)
      /\ names msg status.

(** With the empty id the id check answers first, and its message does
    not mention the status. *)
Lemma empty_id_error_does_not_name_status :
  ~ unknown_status_named_for_every_id.
Proof.
  intros H.
  destruct (H sample_env "" "bogus" sample_world) as (msg & Hrun & Hnames).
  { unfold six_statuses. cbn. intuition discriminate. }
  cbn in Hrun. inversion Hrun; subst.
  destruct Hnames as [n Hn]. vm_compute in Hn. discriminate Hn.
Qed.

(** C4, as the code has it. The empty id is refused first, with "order ID
    is required". For a non-empty id, a status outside the six values is
    refused with "invalid status: " followed by the value; in both cases
    the world is untouched (no statement sent, no row changed). For a
    non-empty id and one of the six values the call is the store's
    update. *)
Theorem update_status_whitelist E id request w :
  (id = "" ->
   service_UpdateOrderStatus E id request w = (Err "order ID is required", w))
  /\ (id <> "" ->
      ~ In (UpdateOrderStatusRequest.Status request) six_statuses ->
      service_UpdateOrderStatus E id request w
      = (Err ("invalid status: " +:+ UpdateOrderStatusRequest.Status request),
         w)
      /\ names ("invalid status: " +:+ UpdateOrderStatusRequest.Status request)
           (UpdateOrderStatusRequest.Status request))
  /\ (id <> "" ->
      In (UpdateOrderStatusRequest.Status request) six_statuses ->
      service_UpdateOrderStatus E id request w
      = repo_UpdateOrderStatus E id (UpdateOrderStatusRequest.Status request)
          w).
Proof.
  unfold service_UpdateOrderStatus.
  destruct (String.eqb_spec id "") as [->|Hid].
  - split; [reflexivity|]. split; intros Hne; congruence.
  - split; [intros; congruence|].
    destruct (default false
                (validStatuses !! UpdateOrderStatusRequest.Status request))
      eqn:Hvalid.
    + apply validStatuses_spec in Hvalid. split.
      * intros _ Hout. contradiction.
      * intros _ _. reflexivity.
    + split.
      * intros _ _. split; [reflexivity | apply names_suffix].
      * intros _ Hin. apply validStatuses_spec in Hin. congruence.
Qed.

Lemma update_status_whitelist_witness :
  "a2" <> ""
  /\ ~ In "refunded" six_statuses
  /\ service_UpdateOrderStatus sample_env "a2"
       (UpdateOrderStatusRequest.mk "refunded") sample_world
     = (Err "invalid status: refunded", sample_world)
  /\ In "shipped" six_statuses
  /\ exists w',
       service_UpdateOrderStatus sample_env "a2"
         (UpdateOrderStatusRequest.mk "shipped") sample_world
       = (Ok tt, w')
       /\ map OrdersRow.status (orders (db w'))
          = ["delivered"; "shipped"; "delivered"]
       /\ trace w' = [QUpdateStatus "shipped" 0 "a2"].
Proof.
  assert (Hid : "a2" <> "") by discriminate.
  assert (Hout : ~ In "refunded" six_statuses).
  { unfold six_statuses. cbn. intuition discriminate. }
  assert (Hin : In "shipped" six_statuses).
  { unfold six_statuses. cbn. tauto. }
  split; [exact Hid|]. split; [exact Hout|].
  destruct (update_status_whitelist sample_env "a2"
              (UpdateOrderStatusRequest.mk "refunded") sample_world)
    as (_ & Hbad & _).
  destruct (Hbad Hid Hout) as [Hrun _].
  split; [exact Hrun|]. split; [exact Hin|].
  destruct (update_status_whitelist sample_env "a2"
              (UpdateOrderStatusRequest.mk "shipped") sample_world)
    as (_ & _ & Hgood).
  rewrite (Hgood Hid Hin). eexists. split; [vm_compute; reflexivity|].
  split; reflexivity.
Defined.

(** Through the handler an unknown status does not reach the service: the
    [oneof] binding answers 400 and the world is untouched. *)
Lemma handler_rejects_unknown_status E details id request w :
  ~ In (UpdateOrderStatusRequest.Status request) six_statuses ->
  handler_UpdateOrderStatus E details id (Some request) w
  = (mkResponse StatusBadRequest
       (ErrorDetails "Invalid request body" details), w).
Proof.
  intros Hout. unfold handler_UpdateOrderStatus, ShouldBindJSON,
    binding_UpdateOrderStatusRequest.
  fold six_statuses. rewrite (existsb_eqb_false _ _ Hout). reflexivity.
Qed.

(** ** C5: deleting an order *)

Definition has_order (d : Database) (id : string) : Prop :=
  exists r, In r (orders d) /\ OrdersRow.id r = id.

Lemma filter_keeps_all {A} (f : A -> bool) (l : list A) :
  (forall x, In x l -> f x = true) -> List.filter f l = l.
Proof.
  induction l as [|x l IH]; intros H; simpl; [reflexivity|].
  rewrite (H x (or_introl eq_refl)). f_equal. apply IH.
  intros y Hy. apply H. right. exact Hy.
Qed.

Lemma find_none_iff d id :
  List.find (fun r => String.eqb (OrdersRow.id r) id) (orders d) = None
  <-> ~ has_order d id.
Proof.
  split.
  - intros Hf [r [Hin Hid]].
    pose proof (find_none _ _ Hf r Hin) as Hr. cbn in Hr.
    rewrite Hid, String.eqb_refl in Hr. discriminate.
  - intros Hn.
    destruct (List.find _ (orders d)) as [r|] eqn:Hf; [|reflexivity].
    apply find_some in Hf. destruct Hf as [Hin Heq].
    apply String.eqb_eq in Heq. exfalso. apply Hn. exists r. auto.
Qed.

(** The tables after [DELETE FROM orders WHERE id = $1] with its cascade. *)
Lemma exec_delete_order_run E id w :
  driver_error E (length (trace w)) = None ->
  exists w',
    exec_delete_order E id w
    = (Ok (Z.of_nat
             (length (List.filter
                        (fun r => String.eqb (OrdersRow.id r) id)
                        (orders (db w))))), w')
    /\ trace w' = trace w ++ [QDeleteOrder id]
    /\ (forall r, In r (orders (db w'))
                  <-> In r (orders (db w)) /\ OrdersRow.id r <> id)
    /\ (has_order (db w) id ->
        forall i, In i (order_items (db w'))
                  <-> In i (order_items (db w))
                      /\ OrderItemsRow.order_id i <> id)
    /\ (~ has_order (db w) id -> db w' = db w).
Proof.
  intros Hdrv. unfold exec_delete_order. rewrite bind_run.
  unfold send. rewrite Hdrv. cbn [db trace log set_db].
  eexists. split; [reflexivity|].
  cbn [db trace orders order_items set_db log].
  split; [reflexivity|]. split; [|split].
  - intros r. rewrite filter_In. rewrite negb_true_iff.
    split; intros [Hin Hne]; (split; [exact Hin|]).
    + intros Heq. rewrite Heq, String.eqb_refl in Hne. discriminate.
    + destruct (String.eqb_spec (OrdersRow.id r) id); congruence.
  - intros [r0 [Hin0 Hid0]] i. rewrite filter_In, negb_true_iff.
    split; intros [Hin Hne]; (split; [exact Hin|]).
    + intros Heq. apply not_true_iff_false in Hne. apply Hne.
      apply existsb_exists. exists r0. split.
      * apply filter_In. split; [exact Hin0|].
        rewrite Hid0. apply String.eqb_refl.
      * rewrite Hid0, Heq. apply String.eqb_refl.
    + apply not_true_iff_false. intros Hex.
      apply existsb_exists in Hex. destruct Hex as (r & Hr & Heq).
      apply filter_In in Hr. destruct Hr as [_ Hr].
      apply String.eqb_eq in Hr, Heq. congruence.
  - intros Hn.
    assert (Hall : forall r, In r (orders (db w)) ->
                             String.eqb (OrdersRow.id r) id = false).
    { intros r Hin. apply not_true_iff_false. intros Heq.
      apply String.eqb_eq in Heq. apply Hn. exists r. auto. }
    assert (Hnone : List.filter (fun r => String.eqb (OrdersRow.id r) id)
                      (orders (db w)) = []).
    { destruct (List.filter _ (orders (db w))) as [|r l] eqn:Hf;
        [reflexivity|].
      assert (Hr : In r (r :: l)) by (left; reflexivity).
      rewrite <- Hf in Hr. apply filter_In in Hr. destruct Hr as [Hin Heq].
      rewrite (Hall r Hin) in Heq. discriminate. }
    rewrite Hnone. cbn [existsb negb].
    rewrite !filter_keeps_all; [destruct (db w); reflexivity | reflexivity |].
    intros r Hin. rewrite (Hall r Hin). reflexivity.
Qed.

(** C5. When the driver fails neither the DELETE nor the SELECT that
    follows: deleting an existing id succeeds, leaves exactly the orders
    with another id and exactly the items of another order, and a
    following [GetOrderByID] on the id answers "order not found"; deleting
    an absent id answers "order not found" and leaves the tables as they
    were. *)
Theorem delete_order_cascades E id w :
  driver_error E (length (trace w)) = None ->
  driver_error E (S (length (trace w))) = None ->
  exists r w',
    repo_DeleteOrder E id w = (r, w')
    /\ (has_order (db w) id ->
        r = Ok tt
        /\ ~ has_order (db w') id
        /\ (forall i, In i (order_items (db w')) ->
                      OrderItemsRow.order_id i <> id)
        /\ (forall o, In o (orders (db w'))
                      <-> In o (orders (db w)) /\ OrdersRow.id o <> id)
        /\ (forall i, In i (order_items (db w'))
                      <-> In i (order_items (db w))
                          /\ OrderItemsRow.order_id i <> id)
        /\ exists w'', repo_GetOrderByID E id w' = (Err "order not found", w''))
    /\ (~ has_order (db w) id ->
        r = Err "order not found" /\ db w' = db w).
Proof.
  intros Hdel Hsel.
  destruct (exec_delete_order_run E id w Hdel)
    as (w' & Hrun & Htrace & Horders & Hitems & Habsent).
  unfold repo_DeleteOrder. rewrite bind_run, Errorf_run, Hrun.
  match goal with
  | |- context [Z.of_nat (length ?l) =? 0] => destruct l as [|r0 l0] eqn:Hhit
  end.
  - assert (Hn : ~ has_order (db w) id).
    { intros [r [Hin Hid]].
      assert (Hr : In r []).
      { rewrite <- Hhit. apply filter_In. split; [exact Hin|].
        rewrite Hid. apply String.eqb_refl. }
      exact Hr. }
    cbn [length Z.of_nat Z.eqb]. unfold fail.
    eexists _, w'. split; [reflexivity|]. split; [contradiction|].
    intros _. split; [reflexivity | exact (Habsent Hn)].
  - assert (Hhas : has_order (db w) id).
    { assert (Hr : In r0 (r0 :: l0)) by (left; reflexivity).
      rewrite <- Hhit in Hr. apply filter_In in Hr. destruct Hr as [Hin Heq].
      apply String.eqb_eq in Heq. exists r0. auto. }
    replace (Z.of_nat (length (r0 :: l0)) =? 0) with false
      by (symmetry; apply Z.eqb_neq; cbn [length]; lia).
    unfold ret. eexists _, w'. split; [reflexivity|].
    split; [|intros Hn; contradiction].
    intros _. split; [reflexivity|].
    assert (Hgone : ~ has_order (db w') id).
    { intros [r [Hin Hid]]. apply Horders in Hin. tauto. }
    split; [exact Hgone|]. split.
    { intros i Hin. apply (Hitems Hhas) in Hin. tauto. }
    split; [exact Horders|]. split; [exact (Hitems Hhas)|].
    unfold repo_GetOrderByID, select_order.
    rewrite bind_run, Errorf_run, bind_run. unfold send.
    rewrite Htrace, length_app, Nat.add_comm. cbn [length Nat.add].
    rewrite Hsel.
    apply find_none_iff in Hgone. cbn [db log]. rewrite Hgone.
    eexists. reflexivity.
Qed.

Lemma delete_order_cascades_witness :
  driver_error sample_env (length (trace sample_world)) = None
  /\ driver_error sample_env (S (length (trace sample_world))) = None
  /\ exists w' w'',
       repo_DeleteOrder sample_env "a1" sample_world = (Ok tt, w')
       /\ map OrdersRow.id (orders (db w')) = ["a2"; "a3"]
       /\ map OrderItemsRow.id (order_items (db w')) = ["i1"; "i3"]
       /\ repo_GetOrderByID sample_env "a1" w' = (Err "order not found", w'').
Proof.
  split; [reflexivity|]. split; [reflexivity|].
  destruct (delete_order_cascades sample_env "a1" sample_world
              eq_refl eq_refl) as (r & w' & Hrun & Hhas & _).
  destruct Hhas as (Hr & _ & _ & _ & _ & w'' & Hget).
  { eexists. split; [left; reflexivity | reflexivity]. }
  subst r. exists w', w''. split; [exact Hrun|].
  vm_compute in Hrun. inversion Hrun; subst. clear Hrun.
  split; [reflexivity|]. split; [reflexivity | exact Hget].
Defined.

(** ** C6: the size of a page *)

Lemma page_rows_length limit offset d :
  length (page_rows limit offset d)
  = Nat.min (Z.to_nat limit) (length (orders d) - Z.to_nat offset).
Proof.
  unfold page_rows. rewrite length_take, length_drop.
  rewrite (Permutation_length (merge_sort_Permutation _ _)). reflexivity.
Qed.

(** The specification's reading: no page of the store has more than 100
    orders. *)
Definition store_clamps_limit : Prop :=
  forall E limit offset w l total w',
    repo_GetAllOrders E limit offset w = (Ok (l, total), w') ->
    (length l <= 100)%nat.

(** Asked for 1000 orders, as the statistics do, the store returns 1000. *)
Lemma store_returns_more_than_100 : ~ store_clamps_limit.
Proof.
  intros H.
  destruct (repo_GetAllOrders_reliable sample_env 1000 0 crowded_world
              sample_env_reliable) as (l & w' & Hrun);
    [lia | lia | exact crowded_rows_decodable |].
  pose proof (H _ _ _ _ _ _ _ Hrun) as Hle.
  apply repo_GetAllOrders_spec in Hrun. destruct Hrun as (_ & _ & _ & _ & Hf).
  apply Forall2_length in Hf. cbn [fst] in Hf.
  rewrite page_rows_length in Hf. rewrite <- Hf in Hle.
  vm_compute in Hle. lia.
Qed.

(** C6, as the code has it. The store applies the limit it is given: a
    page holds min(limit, count - offset) orders, so never more than the
    limit. The bound of 100 is the service's: a page returned by
    [OrderService.GetAllOrders] never holds more than 100 orders. *)
Theorem page_within_limit E w :
  (forall limit offset l total w',
      repo_GetAllOrders E limit offset w = (Ok (l, total), w') ->
      length l
      = Nat.min (Z.to_nat limit) (length (orders (db w)) - Z.to_nat offset)
      /\ Z.of_nat (length l) <= limit)
  /\ (forall page pageSize response w',
        service_GetAllOrders E page pageSize w = (Ok response, w') ->
        (length (OrdersListResponse.Orders response) <= 100)%nat).
Proof.
  assert (Hstore : forall limit offset l total w',
             repo_GetAllOrders E limit offset w = (Ok (l, total), w') ->
             length l
             = Nat.min (Z.to_nat limit)
                 (length (orders (db w)) - Z.to_nat offset)
             /\ Z.of_nat (length l) <= limit).
  { intros limit offset l total w' Hrun.
    apply repo_GetAllOrders_spec in Hrun.
    destruct Hrun as (_ & Hl & _ & _ & Hf). cbn [fst] in Hf.
    apply Forall2_length in Hf. rewrite page_rows_length in Hf.
    split; [symmetry; exact Hf | lia]. }
  split; [exact Hstore|].
  intros page pageSize response w'. unfold service_GetAllOrders.
  rewrite bind_run.
  destruct (repo_GetAllOrders E _ _ w) as [[[l total]|e] w1] eqn:Hrun;
    [|discriminate].
  apply Hstore in Hrun. destruct Hrun as [_ Hle].
  intros H. inversion H; subst. cbn. rewrite length_map.
  unfold normal_pageSize in Hle.
  destruct (pageSize <? 1) eqn:H1; destruct (100 <? pageSize) eqn:H2;
    cbn [orb] in Hle; lia.
Qed.

Lemma page_within_limit_witness :
  exists l total w',
    repo_GetAllOrders sample_env 2 1 sample_world = (Ok (l, total), w')
    /\ length l = 2%nat
    /\ total = 3.
Proof.
  destruct (repo_GetAllOrders sample_env 2 1 sample_world)
    as [[[l total]|e] w'] eqn:Hrun; [|vm_compute in Hrun; discriminate Hrun].
  exists l, total, w'. split; [reflexivity|].
  destruct (page_within_limit sample_env sample_world) as [Hstore _].
  destruct (Hstore _ _ _ _ _ Hrun) as [Hlen _].
  split; [exact Hlen|].
  vm_compute in Hrun. inversion Hrun. reflexivity.
Defined.

(** ** C7: the empty customer id *)

(** C7. A create request whose [customer_id] is empty does not pass the
    binding of [OrderHandler.CreateOrder]: the answer is 400 "Invalid
    request body", the service is not called and the world is untouched
    (no statement sent, no row written). *)
Theorem empty_customer_rejected E details items_binding request w :
  CreateOrderRequest.CustomerID request = "" ->
  handler_CreateOrder E details items_binding (Some request) w
  = (mkResponse StatusBadRequest
       (ErrorDetails "Invalid request body" details), w).
Proof.
  intros Hc. unfold handler_CreateOrder, ShouldBindJSON,
    binding_CreateOrderRequest.
  rewrite Hc. reflexivity.
Qed.

Lemma empty_customer_rejected_witness :
  CreateOrderRequest.CustomerID
    (CreateOrderRequest.mk "" (CreateOrderRequest.Items sample_request)) = ""
  /\ handler_CreateOrder sample_env "customer_id is required" (fun _ => true)
       (Some (CreateOrderRequest.mk "" (CreateOrderRequest.Items sample_request)))
       sample_world
     = (mkResponse 400
          (ErrorDetails "Invalid request body" "customer_id is required"),
        sample_world).
Proof.
  split; [reflexivity|].
  apply (empty_customer_rejected sample_env "customer_id is required"
           (fun _ => true)
           (CreateOrderRequest.mk "" (CreateOrderRequest.Items sample_request))
           sample_world).
  reflexivity.
Defined.

(** The check is the binding's: called directly, the service creates the
    order of a request with an empty customer id. *)
Example service_accepts_empty_customer :
  exists order w',
    service_CreateOrder sample_env
      (CreateOrderRequest.mk "" (CreateOrderRequest.Items sample_request))
      empty_world
    = (Ok order, w')
    /\ Order.CustomerID order = ""
    /\ length (orders (db w')) = 1%nat.
Proof. vm_compute. eauto. Qed.

(** ** C8: rows that do not decode *)

Lemma scan_order_Ok E r order : scan_order E r = Ok order -> decodable r.
Proof.
  unfold scan_order, decodable.
  destruct (OrdersRow.created_at r), (OrdersRow.updated_at r);
    intros H; inversion H; split; eexists; reflexivity.
Qed.

Lemma scan_order_Err E r :
  ~ decodable r -> scan_order E r = Err (scan_error E r).
Proof.
  unfold scan_order, decodable.
  destruct (OrdersRow.created_at r), (OrdersRow.updated_at r);
    intros H; try reflexivity.
  exfalso. apply H. split; eexists; reflexivity.
Qed.

Lemma decodable_dec r : {decodable r} + {~ decodable r}.
Proof.
  unfold decodable.
  destruct (OrdersRow.created_at r), (OrdersRow.updated_at r);
    try (left; split; eexists; reflexivity);
    right; intros [[? H1] [? H2]]; discriminate.
Qed.

(** [r] is the first of [rows] that does not decode. *)
Definition first_undecodable (rows : list OrdersRow.t) (r : OrdersRow.t)
  : Prop :=
  exists good rest,
    rows = good ++ r :: rest /\ Forall decodable good /\ ~ decodable r.

Lemma Exists_first_undecodable rows :
  Exists (fun r => ~ decodable r) rows -> exists r, first_undecodable rows r.
Proof.
  induction rows as [|x rows IH]; intros Hex; [inversion Hex|].
  destruct (decodable_dec x) as [Hd|Hd].
  - destruct IH as (r & good & rest & -> & Hgood & Hr).
    { inversion Hex as [? ? Hbad|]; subst; [contradiction | assumption]. }
    exists r, (x :: good), rest. split; [reflexivity|].
    split; [constructor; assumption | exact Hr].
  - exists x, [], rows. split; [reflexivity|]. split; [constructor | exact Hd].
Qed.

(** With a driver that fails no statement, the loop stops at the first row
    that does not decode, with that row's decoding error. *)
Lemma scan_orders_first_undecodable E rows r w :
  reliable E ->
  first_undecodable rows r ->
  exists w',
    scan_orders E rows w
    = (Err ("failed to scan order: " +:+ scan_error E r), w').
Proof.
  intros Hrel (good & rest & -> & Hgood & Hr). revert w.
  induction Hgood as [|x good [[c Hc] [u Hu]] _ IH]; intros w.
  - cbn [app scan_orders]. rewrite (scan_order_Err E _ Hr).
    eexists. reflexivity.
  - cbn [app scan_orders]. unfold scan_order. rewrite Hc, Hu.
    rewrite bind_run, Errorf_run.
    rewrite (getOrderItems_reliable _ _ _ Hrel), bind_run.
    match goal with
    | |- context [scan_orders E _ ?w0] => destruct (IH w0) as (w' & ->)
    end.
    eexists. reflexivity.
Qed.

(** A row that does not decode makes the loop fail, whatever the driver
    does; the tables are as they were. *)
Lemma scan_orders_undecodable E rows w :
  Exists (fun r => ~ decodable r) rows ->
  exists msg w',
    scan_orders E rows w = (Err msg, w')
    /\ db w' = db w
    /\ exists r,
         first_undecodable rows r
         /\ (reliable E
             -> msg = "failed to scan order: " +:+ scan_error E r).
Proof.
  intros Hex.
  destruct (scan_orders E rows w) as [[l|msg] w'] eqn:Hrun.
  - exfalso. apply scan_orders_spec in Hrun. destruct Hrun as [_ Hf].
    clear -Hex Hf. induction Hf as [|r o rows l Hr _ IH].
    + inversion Hex.
    + inversion Hex as [? ? Hbad|? ? Hrest]; subst.
      * destruct Hr as (order & Hs & _). apply scan_order_Ok in Hs.
        contradiction.
      * exact (IH Hrest).
  - pose proof (scan_orders_spec _ _ _ _ _ Hrun) as [Hdb _].
    exists msg, w'. split; [reflexivity|]. split; [exact Hdb|].
    destruct (Exists_first_undecodable rows Hex) as (r & Hfirst).
    exists r. split; [exact Hfirst|]. intros Hrel.
    destruct (scan_orders_first_undecodable E rows r w Hrel Hfirst)
      as (w1 & Hrun1).
    rewrite Hrun1 in Hrun. inversion Hrun. reflexivity.
Qed.

(** The rows a by-customer query selects. *)
Definition customer_rows (customerID : string) (d : Database)
  : list OrdersRow.t :=
  merge_sort newest_first
    (List.filter (fun r => String.eqb (OrdersRow.customer_id r) customerID)
       (orders d)).

Definition skip_undecodable (rows : list OrdersRow.t) : list OrdersRow.t :=
  List.filter (fun r => if decodable_dec r then true else false) rows.

(** The specification's reading: with a driver that fails no statement, both
    list operations succeed and return the rows that decode. *)
Definition listing_skips_undecodable_rows : Prop :=
  forall E w,
    reliable E ->
    (exists l total w',
        repo_GetAllOrders E 100 0 w = (Ok (l, total), w')
        /\ Forall2 (fetched E (db w))
             (skip_undecodable (page_rows 100 0 (db w))) l)
    /\ (forall customerID,
          exists l w',
            repo_GetOrdersByCustomerID E customerID w = (Ok l, w')
            /\ Forall2 (fetched E (db w))
                 (skip_undecodable (customer_rows customerID (db w))) l).

(** A store where the second order of customer c1 has no [created_at]. *)
Definition damaged_world : World :=
  mkWorld
    (mkDatabase
       (sample_rows
        ++ [OrdersRow.mk "a4" "c1" 2%float "pending" 6 None (Some 6)])
       sample_item_rows)
    [] 0 0.

Lemma listing_fails_on_damaged_world : ~ listing_skips_undecodable_rows.
Proof.
  intros H.
  destruct (H sample_env damaged_world sample_env_reliable)
    as [(l & total & w' & Hrun & _) _].
  vm_compute in Hrun. discriminate Hrun.
Qed.

(** C8, as the code has it. A selected row that does not decode makes the
    list operation fail, whatever the driver does: no order is returned
    and the tables are untouched; with a driver that fails no statement the
    error is "failed to scan order: " followed by the decoding error of
    the first selected row that does not decode. *)
Theorem listing_fails_on_undecodable_row E w :
  (forall limit offset,
      0 <= limit -> 0 <= offset ->
      Exists (fun r => ~ decodable r) (page_rows limit offset (db w)) ->
      exists msg w',
        repo_GetAllOrders E limit offset w = (Err msg, w')
        /\ db w' = db w
        /\ exists r,
             first_undecodable (page_rows limit offset (db w)) r
             /\ (reliable E
                 -> msg = "failed to scan order: " +:+ scan_error E r))
  /\ (forall customerID,
        Exists (fun r => ~ decodable r) (customer_rows customerID (db w)) ->
        exists msg w',
          repo_GetOrdersByCustomerID E customerID w = (Err msg, w')
          /\ db w' = db w
          /\ exists r,
               first_undecodable (customer_rows customerID (db w)) r
               /\ (reliable E
                   -> msg = "failed to scan order: " +:+ scan_error E r)).
Proof.
  split.
  - intros limit offset Hl Ho Hex.
    unfold repo_GetAllOrders, select_count, select_orders_page.
    rewrite bind_run, Errorf_run, bind_run. unfold send at 1.
    destruct (driver_error E (length (trace w))) as [m|] eqn:Hd1.
    { eexists _, _. split; [reflexivity|]. split; [reflexivity|].
      destruct (Exists_first_undecodable _ Hex) as (r & Hfirst).
      exists r. split; [exact Hfirst|].
      intros Hrel. rewrite Hrel in Hd1. discriminate. }
    rewrite bind_run, Errorf_run, bind_run. unfold send at 1.
    destruct (driver_error E (length (trace (log QCountOrders w))))
      as [m|] eqn:Hd2.
    { eexists _, _. split; [reflexivity|]. split; [reflexivity|].
      destruct (Exists_first_undecodable _ Hex) as (r & Hfirst).
      exists r. split; [exact Hfirst|].
      intros Hrel. rewrite Hrel in Hd2. discriminate. }
    destruct (limit <? 0) eqn:Hl'; [lia|].
    destruct (offset <? 0) eqn:Ho'; [lia|].
    rewrite bind_run. cbn [db log].
    match goal with
    | |- context [scan_orders E ?rows ?w0] =>
        destruct (scan_orders_undecodable E rows w0 Hex)
          as (msg & w' & Hrun & Hdb & Hmsg)
    end.
    rewrite Hrun. exists msg, w'. split; [reflexivity|].
    split; [exact Hdb | exact Hmsg].
  - intros customerID Hex.
    unfold repo_GetOrdersByCustomerID, select_orders_by_customer.
    rewrite bind_run, Errorf_run, bind_run. unfold send at 1.
    destruct (driver_error E (length (trace w))) as [m|] eqn:Hd1.
    { eexists _, _. split; [reflexivity|]. split; [reflexivity|].
      destruct (Exists_first_undecodable _ Hex) as (r & Hfirst).
      exists r. split; [exact Hfirst|].
      intros Hrel. rewrite Hrel in Hd1. discriminate. }
    cbn [db log].
    match goal with
    | |- context [scan_orders E ?rows ?w0] =>
        destruct (scan_orders_undecodable E rows w0 Hex)
          as (msg & w' & Hrun & Hdb & Hmsg)
    end.
    rewrite Hrun. exists msg, w'. split; [reflexivity|].
    split; [exact Hdb | exact Hmsg].
Qed.

Lemma listing_fails_on_undecodable_row_witness :
  Exists (fun r => ~ decodable r) (customer_rows "c1" (db damaged_world))
  /\ exists msg w',
       repo_GetOrdersByCustomerID sample_env "c1" damaged_world
       = (Err msg, w')
       /\ db w' = db damaged_world
       /\ exists r,
            first_undecodable (customer_rows "c1" (db damaged_world)) r
            /\ (reliable sample_env
                -> msg = "failed to scan order: " +:+ scan_error sample_env r).
Proof.
  assert (Hex : Exists (fun r => ~ decodable r)
                  (customer_rows "c1" (db damaged_world))).
  { apply Exists_cons_hd. intros [[c Hc] _]. discriminate Hc. }
  split; [exact Hex|].
  destruct (listing_fails_on_undecodable_row sample_env damaged_world)
    as [_ Hcust].
  exact (Hcust "c1" Hex).
Defined.

(** The run of the witness, evaluated: the error names the column. *)
Example listing_of_damaged_world :
  fst (repo_GetOrdersByCustomerID sample_env "c1" damaged_world)
  = Err ("failed to scan order: sql: Scan error on column index 5, name "
         +:+ quoted "created_at"
         +:+ ": unsupported Scan, storing driver.Value type <nil> into type *time.Time").
Proof. vm_compute. reflexivity. Qed.

(** ** C9: page and page size *)

Lemma getOrderItems_trace E orderID w r w' :
  getOrderItems E orderID w = (r, w') ->
  trace w' = trace w ++ [QSelectItems orderID].
Proof.
  unfold getOrderItems, select_items.
  rewrite bind_run, Errorf_run, bind_run. step_send;
    intros H; inversion H; reflexivity.
Qed.

Lemma scan_orders_trace E rows w r w' :
  scan_orders E rows w = (r, w') -> exists rest, trace w' = trace w ++ rest.
Proof.
  revert w r w'. induction rows as [|row rows IH]; intros w r w'; simpl.
  - intros H. inversion H; subst. exists []. rewrite app_nil_r. reflexivity.
  - destruct (scan_order E row) as [order|e].
    2:{ intros H. inversion H; subst. exists [].
        rewrite app_nil_r. reflexivity. }
    rewrite bind_run, Errorf_run.
    destruct (getOrderItems E (Order.ID order) w) as [ri w1] eqn:Hitems.
    apply getOrderItems_trace in Hitems.
    destruct ri as [items|e].
    2:{ intros H. inversion H; subst. eexists. exact Hitems. }
    rewrite bind_run.
    destruct (scan_orders E rows w1) as [rr w2] eqn:Hrest.
    apply IH in Hrest. destruct Hrest as [rest Hrest].
    intros H. exists ([QSelectItems (Order.ID order)] ++ rest).
    rewrite app_assoc, <- Hitems, <- Hrest.
    destruct rr; inversion H; reflexivity.
Qed.

(** The statements a page query sends when the driver lets the count
    through: the count, then the page with the limit and offset given. *)
Lemma repo_GetAllOrders_trace E limit offset w :
  driver_error E (length (trace w)) = None ->
  exists rest,
    trace (snd (repo_GetAllOrders E limit offset w))
    = trace w ++ QCountOrders :: QSelectOrdersPage limit offset :: rest.
Proof.
  intros Hd. unfold repo_GetAllOrders, select_count, select_orders_page.
  rewrite bind_run, Errorf_run, bind_run. unfold send at 1. rewrite Hd.
  rewrite bind_run, Errorf_run, bind_run. step_send.
  2:{ exists []. cbn. rewrite <- app_assoc. reflexivity. }
  destruct (limit <? 0).
  { exists []. cbn. rewrite <- app_assoc. reflexivity. }
  destruct (offset <? 0).
  { exists []. cbn. rewrite <- app_assoc. reflexivity. }
  rewrite bind_run.
  match goal with
  | |- context [scan_orders E ?rows ?w0] =>
      destruct (scan_orders E rows w0) as [rr w1] eqn:Hscan
  end.
  apply scan_orders_trace in Hscan. destruct Hscan as [rest Hrest].
  cbn [trace log] in Hrest.
  exists rest. destruct rr; cbn [snd ret]; rewrite Hrest, <- !app_assoc;
    reflexivity.
Qed.

(** The specification's reading of the offset: the page query carries the
    exact product [(page - 1) * pageSize] of the normalised values,
    whatever the page. *)
Definition offset_is_exact_product : Prop :=
  forall E page pageSize w,
    - 2 ^ 63 <= page < 2 ^ 63 ->
    driver_error E (length (trace w)) = None ->
    exists rest,
      trace (snd (service_GetAllOrders E page pageSize w))
      = trace w
        ++ QCountOrders
           :: QSelectOrdersPage (normal_pageSize pageSize)
                ((normal_page page - 1) * normal_pageSize pageSize)
           :: rest.

(** At page 2^62 + 1 with 4 orders a page the product is 2^64: the offset
    sent is 0, the first page. *)
Lemma offset_wraps_at_large_page : ~ offset_is_exact_product.
Proof.
  intros H.
  destruct (H sample_env 4611686018427387905 4 sample_world
              ltac:(split; vm_compute; congruence) eq_refl) as [rest Hrest].
  vm_compute in Hrest. inversion Hrest.
Qed.

(** At page 2^61 + 1 with 4 orders a page the product is 2^63 and wraps
    to a negative offset, which the database refuses: the listing fails. *)
Example negative_offset_at_large_page :
  int_mul (normal_page 2305843009213693953 - 1) (normal_pageSize 4)
  = - 2 ^ 63
  /\ fst (service_GetAllOrders sample_env 2305843009213693953 4 sample_world)
     = Err ("failed to query orders: " +:+ negative_offset).
Proof. split; vm_compute; reflexivity. Qed.

(** C9. [OrderService.GetAllOrders] replaces a page below 1 by 1 and a
    page size outside 1..100 by 10, keeps the other values, and asks the
    store for [limit = pageSize] and for the offset that Go's 64-bit [int]
    product [(page - 1) * pageSize] gives: the value in the [int] range
    congruent to the exact product modulo 2^64, which is the exact product
    when that is below 2^63. When the driver lets the count through, the
    next statement is the page query with this limit and offset, and the
    answer is the store's, reshaped. The handler passes on what it parsed:
    the page is the parameter's number when [strconv.Atoi] reads one above
    0 and 1 otherwise (absent, not a number, or not above 0); the size is
    the parameter's number when that is in 1..100 and 10 otherwise. *)
Theorem list_orders_normalizes E Atoi page pageSize w :
  let p := normal_page page in
  let ps := normal_pageSize pageSize in
  let offset := int_mul (p - 1) ps in
  (1 <= p /\ (page < 1 -> p = 1) /\ (1 <= page -> p = page))
  /\ (1 <= ps <= 100
      /\ (1 <= pageSize <= 100 -> ps = pageSize)
      /\ (pageSize < 1 \/ 100 < pageSize -> ps = 10))
  /\ ((p - 1) * ps < 2 ^ 63 -> offset = (p - 1) * ps)
  /\ (- 2 ^ 63 <= offset < 2 ^ 63
      /\ (offset - (p - 1) * ps) mod 2 ^ 64 = 0)
  /\ service_GetAllOrders E page pageSize w
     = (r <- repo_GetAllOrders E ps offset ;;
        ret (OrdersListResponse.mk (map to_response (fst r)) (snd r))) w
  /\ (driver_error E (length (trace w)) = None ->
      exists rest,
        trace (snd (service_GetAllOrders E page pageSize w))
        = trace w ++ QCountOrders :: QSelectOrdersPage ps offset :: rest)
  /\ parse_page Atoi "" = 1
  /\ parse_page_size Atoi "" = 10
  /\ (forall pageParam,
        pageParam <> "" ->
        (forall n, Atoi pageParam = Some n -> 0 < n ->
                   parse_page Atoi pageParam = n)
        /\ (forall n, Atoi pageParam = Some n -> n <= 0 ->
                      parse_page Atoi pageParam = 1)
        /\ (Atoi pageParam = None -> parse_page Atoi pageParam = 1))
  /\ (forall sizeParam,
        sizeParam <> "" ->
        (forall n, Atoi sizeParam = Some n -> 1 <= n <= 100 ->
                   parse_page_size Atoi sizeParam = n)
        /\ (forall n, Atoi sizeParam = Some n -> n < 1 \/ 100 < n ->
                      parse_page_size Atoi sizeParam = 10)
        /\ (Atoi sizeParam = None -> parse_page_size Atoi sizeParam = 10))
  /\ (forall pageParam sizeParam,
        snd (handler_GetAllOrders E Atoi pageParam sizeParam w)
        = snd (service_GetAllOrders E (parse_page Atoi pageParam)
                 (parse_page_size Atoi sizeParam) w)).
Proof.
  cbv zeta.
  assert (Hparse :
    parse_page Atoi "" = 1
    /\ parse_page_size Atoi "" = 10
    /\ (forall pageParam,
          pageParam <> "" ->
          (forall n, Atoi pageParam = Some n -> 0 < n ->
                     parse_page Atoi pageParam = n)
          /\ (forall n, Atoi pageParam = Some n -> n <= 0 ->
                        parse_page Atoi pageParam = 1)
          /\ (Atoi pageParam = None -> parse_page Atoi pageParam = 1))
    /\ (forall sizeParam,
          sizeParam <> "" ->
          (forall n, Atoi sizeParam = Some n -> 1 <= n <= 100 ->
                     parse_page_size Atoi sizeParam = n)
          /\ (forall n, Atoi sizeParam = Some n -> n < 1 \/ 100 < n ->
                        parse_page_size Atoi sizeParam = 10)
          /\ (Atoi sizeParam = None -> parse_page_size Atoi sizeParam = 10))
    /\ (forall pageParam sizeParam,
          snd (handler_GetAllOrders E Atoi pageParam sizeParam w)
          = snd (service_GetAllOrders E (parse_page Atoi pageParam)
                   (parse_page_size Atoi sizeParam) w))).
  { split; [reflexivity|]. split; [reflexivity|]. split; [|split].
    - intros pageParam Hne. unfold parse_page.
      destruct (String.eqb_spec pageParam "") as [|_]; [contradiction|].
      split; [|split].
      + intros n -> Hn.
        replace (0 <? n) with true by (symmetry; apply Z.ltb_lt; lia).
        reflexivity.
      + intros n -> Hn.
        replace (0 <? n) with false by (symmetry; apply Z.ltb_ge; lia).
        reflexivity.
      + intros ->. reflexivity.
    - intros sizeParam Hne. unfold parse_page_size.
      destruct (String.eqb_spec sizeParam "") as [|_]; [contradiction|].
      split; [|split].
      + intros n -> Hn.
        replace (0 <? n) with true by (symmetry; apply Z.ltb_lt; lia).
        replace (n <=? 100) with true by (symmetry; apply Z.leb_le; lia).
        reflexivity.
      + intros n -> Hn.
        destruct (0 <? n) eqn:H0; destruct (n <=? 100) eqn:H1;
          cbn [andb]; try reflexivity.
        apply Z.ltb_lt in H0. apply Z.leb_le in H1. lia.
      + intros ->. reflexivity.
    - intros pageParam sizeParam. unfold handler_GetAllOrders.
      destruct (service_GetAllOrders E _ _ w) as [[x|e] w1]; reflexivity. }
  assert (Hwrap : forall a b,
             - 2 ^ 63 <= int_mul a b < 2 ^ 63
             /\ (int_mul a b - a * b) mod 2 ^ 64 = 0).
  { intros a b. unfold int_mul, wrap64.
    pose proof (Z.mod_pos_bound (a * b + 2 ^ 63) (2 ^ 64) ltac:(lia)) as Hb.
    split; [lia|].
    replace ((a * b + 2 ^ 63) mod 2 ^ 64 - 2 ^ 63 - a * b)
      with ((- ((a * b + 2 ^ 63) / 2 ^ 64)) * 2 ^ 64)
      by (rewrite (Z.mod_eq (a * b + 2 ^ 63) (2 ^ 64)) by lia; ring).
    apply Z.mod_mul. lia. }
  unfold normal_page, normal_pageSize.
  destruct (page <? 1) eqn:Hp; destruct (pageSize <? 1) eqn:Hs1;
    destruct (100 <? pageSize) eqn:Hs2; cbn [orb];
    (split; [lia|]); (split; [lia|]);
    (split; [intros Hfit; unfold int_mul, wrap64;
             rewrite Z.mod_small by nia; lia|]);
    (split; [apply Hwrap|]);
    (split; [unfold service_GetAllOrders, normal_page, normal_pageSize;
             rewrite ?Hp, ?Hs1, ?Hs2; reflexivity|]);
    (split; [|exact Hparse]);
    intros Hd; unfold service_GetAllOrders, normal_page, normal_pageSize;
    rewrite ?Hp, ?Hs1, ?Hs2; cbn [orb]; rewrite bind_run;
    match goal with
    | |- context [repo_GetAllOrders E ?l ?o w] =>
        destruct (repo_GetAllOrders_trace E l o w Hd) as [rest Hrest];
        exists rest; rewrite <- Hrest;
        destruct (repo_GetAllOrders E l o w) as [[x|e] w1]; reflexivity
    end.
Qed.

(** A sample [strconv.Atoi] for the parameters of the samples. *)
Definition sample_Atoi (s : string) : option Z :=
  if String.eqb s "3" then Some 3
  else if String.eqb s "500" then Some 500
  else if String.eqb s "-2" then Some (-2)
  else if String.eqb s "25" then Some 25
  else None.

Lemma list_orders_normalizes_witness :
  (exists rest,
      trace (snd (service_GetAllOrders sample_env 3 500 sample_world))
      = QCountOrders :: QSelectOrdersPage 10 20 :: rest)
  /\ parse_page sample_Atoi "3" = 3
  /\ parse_page sample_Atoi "-2" = 1
  /\ parse_page sample_Atoi "abc" = 1
  /\ parse_page_size sample_Atoi "25" = 25
  /\ parse_page_size sample_Atoi "500" = 10
  /\ exists rest,
       trace (snd (handler_GetAllOrders sample_env sample_Atoi "3" "500"
                     sample_world))
       = QCountOrders :: QSelectOrdersPage 10 20 :: rest.
Proof.
  destruct (list_orders_normalizes sample_env sample_Atoi 3 500
              sample_world)
    as (_ & _ & Hfit & _ & _ & Htrace & _ & _ & Hpage & Hsize & Hhandler).
  destruct (Htrace eq_refl) as [rest Hrest].
  cbv zeta in Hfit. rewrite Hfit in Hrest by (vm_compute; reflexivity).
  assert (Hservice :
            exists rest,
              trace (snd (service_GetAllOrders sample_env 3 500 sample_world))
              = QCountOrders :: QSelectOrdersPage 10 20 :: rest).
  { exists rest. exact Hrest. }
  split; [exact Hservice|].
  destruct (Hpage "3" ltac:(discriminate)) as (H3 & _ & _).
  destruct (Hpage "-2" ltac:(discriminate)) as (_ & Hneg & _).
  destruct (Hpage "abc" ltac:(discriminate)) as (_ & _ & Hnan).
  destruct (Hsize "25" ltac:(discriminate)) as (H25 & _ & _).
  destruct (Hsize "500" ltac:(discriminate)) as (_ & H500 & _).
  split; [exact (H3 3 eq_refl ltac:(lia))|].
  split; [exact (Hneg (-2) eq_refl ltac:(lia))|].
  split; [exact (Hnan eq_refl)|].
  split; [exact (H25 25 eq_refl ltac:(lia))|].
  split; [exact (H500 500 eq_refl ltac:(lia))|].
  rewrite (Hhandler "3" "500").
  rewrite (H3 3 eq_refl ltac:(lia)), (H500 500 eq_refl ltac:(lia)).
  exact Hservice.
Defined.

(** ** C10: items point back to their order *)

Definition items_point_to (o : Order.t) : Prop :=
  Forall (fun i => OrderItem.OrderID i = Order.ID o) (Order.Items o).

Lemma items_of_order_id d orderID :
  Forall (fun i => OrderItem.OrderID i = orderID) (items_of d orderID).
Proof.
  unfold items_of. apply Forall_fmap.
  rewrite merge_sort_Permutation. apply Forall_forall. intros r Hr.
  apply list_elem_of_In, filter_In in Hr. destruct Hr as [_ Heq].
  apply String.eqb_eq in Heq. exact Heq.
Qed.

Lemma fetched_items_point_to E d r o : fetched E d r o -> items_point_to o.
Proof.
  intros H. apply fetched_fields in H. destruct H as (Hid & _ & _ & _ & Hi).
  unfold items_point_to. rewrite Hi, Hid. apply items_of_order_id.
Qed.

Lemma Forall2_fetched_items_point_to E d rows l :
  Forall2 (fetched E d) rows l -> Forall items_point_to l.
Proof.
  induction 1 as [|r o rows l Hr _ IH]; constructor;
    [exact (fetched_items_point_to _ _ _ _ Hr) | exact IH].
Qed.

Lemma repo_GetOrderByID_spec E id w o w' :
  repo_GetOrderByID E id w = (Ok o, w') ->
  db w' = db w
  /\ Order.ID o = id
  /\ Order.Items o = items_of (db w) id
  /\ exists r, In r (orders (db w)) /\ fetched E (db w) r o.
Proof.
  unfold repo_GetOrderByID, select_order.
  rewrite bind_run, Errorf_run, bind_run. step_send; [|discriminate].
  cbn [db log].
  destruct (List.find _ (orders (db w))) as [r|] eqn:Hfind; [|discriminate].
  apply find_some in Hfind. destruct Hfind as [Hin Heq].
  apply String.eqb_eq in Heq.
  destruct (scan_order E r) as [order|e] eqn:Hscan; [|discriminate].
  rewrite bind_run, Errorf_run.
  match goal with
  | |- context [getOrderItems E id ?w0] =>
      destruct (getOrderItems E id w0) as [ri w1] eqn:Hitems
  end.
  apply getOrderItems_spec in Hitems. destruct Hitems as [Hdb Hri].
  cbn [db log] in Hdb, Hri.
  destruct ri as [items|e]; [|discriminate].
  intros H. inversion H; subst. clear H.
  assert (Hid : Order.ID order = OrdersRow.id r).
  { unfold scan_order in Hscan.
    destruct (OrdersRow.created_at r), (OrdersRow.updated_at r);
      inversion Hscan; reflexivity. }
  split; [exact Hdb|]. split; [exact Hid|]. split; [reflexivity|].
  exists r. split; [exact Hin|]. exists order. split; [exact Hscan|].
  reflexivity.
Qed.

Lemma repo_GetOrdersByCustomerID_spec E customerID w l w' :
  repo_GetOrdersByCustomerID E customerID w = (Ok l, w') ->
  db w' = db w
  /\ Forall2 (fetched E (db w)) (customer_rows customerID (db w)) l.
Proof.
  unfold repo_GetOrdersByCustomerID, select_orders_by_customer.
  rewrite bind_run, Errorf_run, bind_run. step_send; [|discriminate].
  cbn [db log]. intros Hrun. apply scan_orders_spec in Hrun.
  exact Hrun.
Qed.

(** The item [CreateOrder] returns for an item it was given: it refers to
    the order and sells the same game at the same price and quantity. *)
Definition item_of_order (orderID : string) (i i' : OrderItem.t) : Prop :=
  OrderItem.OrderID i' = orderID
  /\ OrderItem.GameID i' = OrderItem.GameID i
  /\ OrderItem.GameName i' = OrderItem.GameName i
  /\ OrderItem.Price i' = OrderItem.Price i
  /\ OrderItem.Quantity i' = OrderItem.Quantity i.

(** The same, for an item of the request. *)
Definition item_of_request_item (orderID : string)
    (item : CreateOrderItemRequest.t) (i' : OrderItem.t) : Prop :=
  OrderItem.OrderID i' = orderID
  /\ OrderItem.GameID i' = CreateOrderItemRequest.GameID item
  /\ OrderItem.GameName i' = CreateOrderItemRequest.GameName item
  /\ OrderItem.Price i' = CreateOrderItemRequest.Price item
  /\ OrderItem.Quantity i' = CreateOrderItemRequest.Quantity item.

(** The item rows a creation added to the table: one for each item of the
    order returned, in order, under the item's id and with the order's id
    as [order_id]. *)
Definition item_rows_written (d d' : Database) (o : Order.t) : Prop :=
  exists rows,
    order_items d' = order_items d ++ rows
    /\ Forall2 (fun i r => OrderItemsRow.id r = OrderItem.ID i
                          /\ OrderItemsRow.order_id r = Order.ID o)
         (Order.Items o) rows.

Lemma Forall2_stamped_item_of_order orderID l l' :
  Forall2 (fun i i' => stamped orderID (priced i) i') l l' ->
  Forall2 (item_of_order orderID) l l'.
Proof.
  induction 1 as [|i i' l l' [id ->] _ IH]; constructor; [|exact IH].
  unfold item_of_order. cbn. repeat split.
Qed.

Lemma item_rows_of_stored E o :
  items_point_to o ->
  Forall2 (fun i r => OrderItemsRow.id r = OrderItem.ID i
                      /\ OrderItemsRow.order_id r = Order.ID o)
    (Order.Items o) (map (stored_item E) (map item_row (Order.Items o))).
Proof.
  unfold items_point_to. generalize (Order.ID o). intros orderID.
  induction 1 as [|i l Hi _ IH]; cbn [map]; constructor; [|exact IH].
  cbn. split; [reflexivity | exact Hi].
Qed.

(** C10. Every order returned by [GetOrderByID], [GetOrdersByCustomerID]
    or [GetAllOrders] carries the item rows stored for its id, so each
    item's [order_id] is the order's id. The order [CreateOrder] returns
    has the generated order id; its items are those it was given, one for
    one and in order (the same game, price and quantity), each with
    [order_id] set to that id; and the item rows it committed are one per
    returned item, each under the order's id. Through the service the
    items are those of the request, and there is at least one. *)
Theorem items_reference_their_order E w :
  (forall id o w',
      repo_GetOrderByID E id w = (Ok o, w') ->
      Order.Items o = items_of (db w) (Order.ID o) /\ items_point_to o)
  /\ (forall customerID l w',
        repo_GetOrdersByCustomerID E customerID w = (Ok l, w') ->
        Forall (fun o => Order.Items o = items_of (db w) (Order.ID o)
                         /\ items_point_to o) l)
  /\ (forall limit offset l total w',
        repo_GetAllOrders E limit offset w = (Ok (l, total), w') ->
        Forall (fun o => Order.Items o = items_of (db w) (Order.ID o)
                         /\ items_point_to o) l)
  /\ (forall order o w',
        repo_CreateOrder E order w = (Ok o, w') ->
        Order.ID o = uuid_New E (uuids w)
        /\ items_point_to o
        /\ Forall2 (item_of_order (Order.ID o))
             (Order.Items order) (Order.Items o)
        /\ item_rows_written (db w) (db w') o)
  /\ (forall request o w',
        service_CreateOrder E request w = (Ok o, w') ->
        Order.ID o = uuid_New E (uuids w)
        /\ items_point_to o
        /\ Order.Items o <> []
        /\ Forall2 (item_of_request_item (Order.ID o))
             (CreateOrderRequest.Items request) (Order.Items o)
        /\ item_rows_written (db w) (db w') o).
Proof.
  assert (Hlist : forall rows l,
             Forall2 (fetched E (db w)) rows l ->
             Forall (fun o => Order.Items o = items_of (db w) (Order.ID o)
                              /\ items_point_to o) l).
  { induction 1 as [|r o rows l Hr _ IH]; constructor; [|exact IH].
    split; [|exact (fetched_items_point_to _ _ _ _ Hr)].
    apply fetched_fields in Hr. destruct Hr as (Hid & _ & _ & _ & Hi).
    rewrite Hi, Hid. reflexivity. }
  split.
  { intros id o w' Hrun. apply repo_GetOrderByID_spec in Hrun.
    destruct Hrun as (_ & Hid & Hitems & _).
    split; [rewrite Hitems, Hid; reflexivity|].
    unfold items_point_to. rewrite Hitems, Hid. apply items_of_order_id. }
  split.
  { intros customerID l w' Hrun.
    apply repo_GetOrdersByCustomerID_spec in Hrun.
    destruct Hrun as [_ Hf]. exact (Hlist _ _ Hf). }
  split.
  { intros limit offset l total w' Hrun.
    apply repo_GetAllOrders_spec in Hrun.
    destruct Hrun as (_ & _ & _ & _ & Hf). exact (Hlist _ _ Hf). }
  assert (Hcreate : forall order o w',
             repo_CreateOrder E order w = (Ok o, w') ->
             Order.ID o = uuid_New E (uuids w)
             /\ items_point_to o
             /\ Forall2 (item_of_order (Order.ID o))
                  (Order.Items order) (Order.Items o)
             /\ item_rows_written (db w) (db w') o).
  { intros order o w' Hrun.
    assert (Hid : Order.ID o = uuid_New E (uuids w)).
    { revert Hrun. unfold repo_CreateOrder.
      rewrite bind_run, Errorf_run. unfold db_Begin. rewrite bind_run.
      step_send; [|discriminate].
      unfold defer_Rollback. rewrite subtotal_loop_spec.
      repeat rewrite bind_run. unfold uuid_New_String, time_Now_.
      cbn beta iota. repeat rewrite bind_run. cbn beta iota.
      match goal with
      | |- context [Errorf ?p ?m ?w0] =>
          destruct (Errorf p m w0) as [[tx|e] w1]
      end.
      2:{ destruct (last _) as [[]|]; discriminate. }
      rewrite bind_run.
      match goal with
      | |- context [insert_items E ?i ?l ?t ?w0] =>
          destruct (insert_items E i l t w0) as [[r|e] w2]
      end.
      2:{ destruct (last _) as [[]|]; discriminate. }
      rewrite bind_run.
      destruct (tx_Commit E (snd r) w2) as [[u|e] w3].
      2:{ destruct (last _) as [[]|]; discriminate. }
      unfold ret. intros H. inversion H. reflexivity. }
    split; [exact Hid|].
    apply repo_CreateOrder_spec in Hrun.
    destruct Hrun as (_ & Hrows & _ & _ & _ & Hf).
    assert (Hpoint : items_point_to o).
    { unfold items_point_to. clear -Hf.
      induction Hf as [|i i' l l' [id ->] _ IH]; constructor;
        [reflexivity | exact IH]. }
    split; [exact Hpoint|].
    split; [exact (Forall2_stamped_item_of_order _ _ _ Hf)|].
    eexists. split; [exact Hrows|]. exact (item_rows_of_stored E o Hpoint). }
  split; [exact Hcreate|].
  intros request o w'. unfold service_CreateOrder.
  destruct (CreateOrderRequest.Items request) as [|item rest] eqn:Hitems;
    [discriminate|].
  cbn [length Nat.eqb].
  destruct (convert_items (item :: rest)) as [l|e] eqn:Hconv;
    [|discriminate].
  apply convert_items_Ok in Hconv. destruct Hconv as [_ ->].
  rewrite Errorf_run.
  match goal with
  | |- context [repo_CreateOrder E ?o0 w] =>
      destruct (repo_CreateOrder E o0 w) as [[o1|e] w1] eqn:Hrepo;
      [|discriminate]
  end.
  intros H. inversion H; subst.
  destruct (Hcreate _ _ _ Hrepo) as (Hid & Hpoint & Hf & Hrows).
  cbn [Order.Items] in Hf.
  split; [exact Hid|]. split; [exact Hpoint|].
  split; [intros Hnil; rewrite Hnil in Hf; inversion Hf|].
  split; [|exact Hrows].
  change (map blank_item (item :: rest)) with (blank_item <$> item :: rest)
    in Hf.
  rewrite Forall2_fmap_l in Hf. eapply Forall2_impl; [exact Hf|].
  intros x y Hxy. exact Hxy.
Qed.

(** A read of order a1 of the sample store, and a creation in it: the
    order returned has the item of the request, referring to the new
    order, and one item row was written under the order's id. *)
Lemma items_reference_their_order_witness :
  (exists o w',
      repo_GetOrderByID sample_env "a1" sample_world = (Ok o, w')
      /\ map OrderItem.ID (Order.Items o) = ["i2"]
      /\ items_point_to o)
  /\ exists o w',
       service_CreateOrder sample_env sample_request sample_world
       = (Ok o, w')
       /\ Order.ID o = "uuid-0"
       /\ map OrderItem.OrderID (Order.Items o) = ["uuid-0"]
       /\ map OrderItemsRow.order_id (order_items (db w'))
          = ["a1"; "a2"; "a3"; "uuid-0"]
       /\ items_point_to o
       /\ Forall2 (item_of_request_item (Order.ID o))
            (CreateOrderRequest.Items sample_request) (Order.Items o)
       /\ item_rows_written (db sample_world) (db w') o.
Proof.
  destruct (items_reference_their_order sample_env sample_world)
    as (Hget & _ & _ & _ & Hcreate).
  split.
  - destruct (repo_GetOrderByID sample_env "a1" sample_world)
      as [[o|e] w'] eqn:Hrun; [|vm_compute in Hrun; discriminate Hrun].
    exists o, w'. split; [reflexivity|].
    destruct (Hget _ _ _ Hrun) as [Hitems Hpoint].
    split; [|exact Hpoint].
    vm_compute in Hrun. inversion Hrun. reflexivity.
  - destruct (service_CreateOrder sample_env sample_request sample_world)
      as [[o|e] w'] eqn:Hrun; [|vm_compute in Hrun; discriminate Hrun].
    exists o, w'. split; [reflexivity|].
    destruct (Hcreate _ _ _ Hrun) as (_ & Hpoint & _ & Hf & Hrows).
    assert (Hvalues : Order.ID o = "uuid-0"
                      /\ map OrderItem.OrderID (Order.Items o) = ["uuid-0"]
                      /\ map OrderItemsRow.order_id (order_items (db w'))
                         = ["a1"; "a2"; "a3"; "uuid-0"]).
    { clear -Hrun. vm_compute in Hrun. inversion Hrun.
      split; [|split]; reflexivity. }
    destruct Hvalues as (H1 & H2 & H3).
    split; [exact H1|]. split; [exact H2|]. split; [exact H3|].
    split; [exact Hpoint|]. split; [exact Hf | exact Hrows].
Defined.

(** * Further properties of the repository, the service and the handlers *)

(** ** Reads leave the store alone *)

(** A computation that may send statements but changes neither the
    committed tables nor the identifier and clock counters. *)
Definition read_only {A} (m : M A) : Prop :=
  forall w,
    db (snd (m w)) = db w
    /\ uuids (snd (m w)) = uuids w
    /\ clock (snd (m w)) = clock w.

Lemma read_only_ret {A} (a : A) : read_only (ret a).
Proof. intros w. repeat split. Qed.

Lemma read_only_fail {A} msg : read_only (@fail A msg).
Proof. intros w. repeat split. Qed.

Lemma read_only_send E s : read_only (send E s).
Proof.
  intros w. unfold send.
  destruct (driver_error E (length (trace w))); repeat split.
Qed.

Lemma read_only_bind {A B} (m : M A) (k : A -> M B) :
  read_only m -> (forall a, read_only (k a)) -> read_only (bind m k).
Proof.
  intros Hm Hk w. rewrite bind_run. specialize (Hm w).
  destruct (m w) as [[a|e] w1]; cbn [snd] in *.
  - destruct (Hk a w1) as (H1 & H2 & H3). destruct Hm as (H4 & H5 & H6).
    repeat split; congruence.
  - exact Hm.
Qed.

Lemma read_only_Errorf {A} prefix (m : M A) :
  read_only m -> read_only (Errorf prefix m).
Proof.
  intros Hm w. rewrite Errorf_run. specialize (Hm w).
  destruct (m w) as [[a|e] w1]; exact Hm.
Qed.

Lemma read_only_state {A} (f : World -> A) :
  read_only (fun w => (Ok (f w), w)).
Proof. intros w. repeat split. Qed.

Lemma read_only_getOrderItems E orderID :
  read_only (getOrderItems E orderID).
Proof.
  unfold getOrderItems, select_items.
  apply read_only_bind; [|intros; apply read_only_ret].
  apply read_only_Errorf, read_only_bind; [apply read_only_send|].
  intros _. apply (read_only_state (fun w => merge_sort by_id _)).
Qed.

Lemma read_only_scan_orders E rows : read_only (scan_orders E rows).
Proof.
  induction rows as [|r rows IH]; simpl; [apply read_only_ret|].
  destruct (scan_order E r) as [order|e]; [|apply read_only_fail].
  apply read_only_bind;
    [apply read_only_Errorf, read_only_getOrderItems|].
  intros items. apply read_only_bind; [exact IH|].
  intros rest. apply read_only_ret.
Qed.

Lemma read_only_repo_GetOrderByID E id : read_only (repo_GetOrderByID E id).
Proof.
  unfold repo_GetOrderByID, select_order.
  apply read_only_bind.
  - apply read_only_Errorf, read_only_bind; [apply read_only_send|].
    intros _. apply (read_only_state (fun w => List.find _ (orders (db w)))).
  - intros [r|]; [|apply read_only_fail].
    destruct (scan_order E r) as [order|e]; [|apply read_only_fail].
    apply read_only_bind;
      [apply read_only_Errorf, read_only_getOrderItems|].
    intros items. apply read_only_ret.
Qed.

Lemma read_only_repo_GetOrdersByCustomerID E customerID :
  read_only (repo_GetOrdersByCustomerID E customerID).
Proof.
  unfold repo_GetOrdersByCustomerID, select_orders_by_customer.
  apply read_only_bind; [|intros rows; apply read_only_scan_orders].
  apply read_only_Errorf, read_only_bind; [apply read_only_send|].
  intros _. apply (read_only_state (fun w => merge_sort newest_first _)).
Qed.

Lemma read_only_repo_GetAllOrders E limit offset :
  read_only (repo_GetAllOrders E limit offset).
Proof.
  unfold repo_GetAllOrders, select_count, select_orders_page.
  apply read_only_bind.
  { apply read_only_Errorf, read_only_bind; [apply read_only_send|].
    intros _. apply (read_only_state (fun w => Z.of_nat _)). }
  intros total. apply read_only_bind.
  { apply read_only_Errorf, read_only_bind; [apply read_only_send|].
    intros _. destruct (limit <? 0); [apply read_only_fail|].
    destruct (offset <? 0); [apply read_only_fail|].
    apply (read_only_state (fun w => take _ _)). }
  intros rows. apply read_only_bind; [apply read_only_scan_orders|].
  intros l. apply read_only_ret.
Qed.

(** X1. Whatever the driver does, the four reading operations of the
    service (one order, the orders of a customer, a page, the statistics)
    leave the committed tables as they were and draw no identifier and no
    clock reading. *)
Theorem reads_leave_the_store E w :
  (forall id, read_only (service_GetOrderByID E id))
  /\ (forall customerID, read_only (service_GetOrdersByCustomerID E customerID))
  /\ (forall page pageSize, read_only (service_GetAllOrders E page pageSize))
  /\ read_only (service_GetOrderStatistics E)
  /\ (forall id, db (snd (service_GetOrderByID E id w)) = db w)
  /\ (forall customerID,
        db (snd (service_GetOrdersByCustomerID E customerID w)) = db w)
  /\ (forall page pageSize,
        db (snd (service_GetAllOrders E page pageSize w)) = db w)
  /\ db (snd (service_GetOrderStatistics E w)) = db w.
Proof.
  assert (H1 : forall id, read_only (service_GetOrderByID E id)).
  { intros id. unfold service_GetOrderByID.
    destruct (String.eqb id "");
      [apply read_only_fail | apply read_only_repo_GetOrderByID]. }
  assert (H2 : forall c, read_only (service_GetOrdersByCustomerID E c)).
  { intros c. unfold service_GetOrdersByCustomerID.
    destruct (String.eqb c "");
      [apply read_only_fail | apply read_only_repo_GetOrdersByCustomerID]. }
  assert (H3 : forall p ps, read_only (service_GetAllOrders E p ps)).
  { intros p ps. unfold service_GetAllOrders.
    apply read_only_bind; [apply read_only_repo_GetAllOrders|].
    intros r. apply read_only_ret. }
  assert (H4 : read_only (service_GetOrderStatistics E)).
  { unfold service_GetOrderStatistics.
    apply read_only_bind;
      [apply read_only_Errorf, read_only_repo_GetAllOrders|].
    intros r. destruct (statistics_loop _ _ _). apply read_only_ret. }
  repeat split; try assumption; intros; try apply H1; try apply H2;
    try apply H3; apply H4.
Qed.

(** ** UpdateOrderStatus *)

(** What the update does to one row: a row with the id gets the status
    and the time of the update, nothing else changes; another row is left
    as it is. *)
Definition status_set (id status : string) (now : Z) (r r' : OrdersRow.t)
  : Prop :=
  (OrdersRow.id r = id ->
   r' = OrdersRow.mk (OrdersRow.id r) (OrdersRow.customer_id r)
          (OrdersRow.total_price r) status (OrdersRow.order_date r)
          (OrdersRow.created_at r) (Some now))
  /\ (OrdersRow.id r <> id -> r' = r).

Lemma Forall2_map_status_set id status now rows :
  Forall2 (status_set id status now) rows
    (map (fun r =>
            if String.eqb (OrdersRow.id r) id
            then OrdersRow.mk (OrdersRow.id r) (OrdersRow.customer_id r)
                   (OrdersRow.total_price r) status (OrdersRow.order_date r)
                   (OrdersRow.created_at r) (Some now)
            else r) rows).
Proof.
  induction rows as [|r rows IH]; simpl; constructor; [|exact IH].
  destruct (String.eqb_spec (OrdersRow.id r) id); split; congruence.
Qed.

Lemma status_set_absent id status now rows rows' :
  (forall r, In r rows -> OrdersRow.id r <> id) ->
  Forall2 (status_set id status now) rows rows' -> rows' = rows.
Proof.
  intros Habs Hf. induction Hf as [|r r' rows rows' [_ Hr] _ IH];
    [reflexivity|].
  rewrite (Hr (Habs r (or_introl eq_refl))). f_equal. apply IH.
  intros x Hx. apply Habs. right. exact Hx.
Qed.

Lemma filter_hit_nil_iff d id :
  List.filter (fun r => String.eqb (OrdersRow.id r) id) (orders d) = []
  <-> ~ has_order d id.
Proof.
  split.
  - intros Hnil [r [Hin Hid]].
    assert (Hr : In r []).
    { rewrite <- Hnil. apply filter_In. split; [exact Hin|].
      rewrite Hid. apply String.eqb_refl. }
    exact Hr.
  - intros Hn. destruct (List.filter _ (orders d)) as [|r l] eqn:Hf;
      [reflexivity|].
    assert (Hr : In r (r :: l)) by (left; reflexivity).
    rewrite <- Hf in Hr. apply filter_In in Hr. destruct Hr as [Hin Heq].
    apply String.eqb_eq in Heq. exfalso. apply Hn. exists r. auto.
Qed.

Lemma classic_has_order d id : has_order d id \/ ~ has_order d id.
Proof.
  destruct (List.find (fun r => String.eqb (OrdersRow.id r) id) (orders d))
    as [r|] eqn:Hf.
  - left. apply find_some in Hf. destruct Hf as [Hin Heq].
    apply String.eqb_eq in Heq. exists r. auto.
  - right. apply find_none_iff. exact Hf.
Qed.

Lemma repo_UpdateOrderStatus_run E id status w :
  driver_error E (length (trace w)) = None ->
  exists r w',
    repo_UpdateOrderStatus E id status w = (r, w')
    /\ order_items (db w') = order_items (db w)
    /\ Forall2 (status_set id status (timestamp E (time_Now E (clock w))))
         (orders (db w)) (orders (db w'))
    /\ trace w' = trace w ++ [QUpdateStatus status (time_Now E (clock w)) id]
    /\ clock w' = S (clock w)
    /\ (has_order (db w) id -> r = Ok tt)
    /\ (~ has_order (db w) id -> r = Err "order not found" /\ db w' = db w).
Proof.
  intros Hdrv. unfold repo_UpdateOrderStatus, time_Now_, exec_update_status.
  rewrite bind_run. cbn beta iota. rewrite bind_run, Errorf_run, bind_run.
  unfold send. cbn [trace]. rewrite Hdrv.
  cbn [db trace uuids clock log set_db orders order_items].
  pose proof (Forall2_map_status_set id status (timestamp E (time_Now E (clock w)))
                (orders (db w))) as Hset.
  destruct (List.filter (fun r => String.eqb (OrdersRow.id r) id)
              (orders (db w))) as [|r0 l0] eqn:Hhit.
  - apply filter_hit_nil_iff in Hhit. cbn [length Z.of_nat Z.eqb].
    eexists _, _. split; [reflexivity|].
    cbn [db trace uuids clock log set_db orders order_items].
    split; [reflexivity|]. split; [exact Hset|]. split; [reflexivity|].
    split; [reflexivity|]. split; [intros Hhas; contradiction|].
    intros _. split; [reflexivity|].
    assert (Habs : forall r, In r (orders (db w)) -> OrdersRow.id r <> id).
    { intros r Hin Heq. apply Hhit. exists r. auto. }
    rewrite (status_set_absent _ _ _ _ _ Habs Hset).
    destruct (db w); reflexivity.
  - assert (Hhas : has_order (db w) id).
    { destruct (classic_has_order (db w) id) as [H|H]; [exact H|].
      apply filter_hit_nil_iff in H. congruence. }
    replace (Z.of_nat (length (r0 :: l0)) =? 0) with false
      by (symmetry; apply Z.eqb_neq; cbn [length]; lia).
    eexists _, _. split; [reflexivity|].
    cbn [db trace uuids clock log set_db orders order_items].
    split; [reflexivity|]. split; [exact Hset|]. split; [reflexivity|].
    split; [reflexivity|]. split; [reflexivity | intros Hn; contradiction].
Qed.

(** X2. When the driver lets the UPDATE through: for an existing id the
    store's [UpdateOrderStatus] succeeds, every row with the id gets the
    new status and [updated_at] set to the time read before the statement
    (as a [TIMESTAMP] holds it), every other row and every item row is
    unchanged; for an absent id it answers "order not found" and the
    tables are unchanged. In both cases one clock reading is consumed and
    one statement sent. *)
Theorem update_status_effect E id status w :
  driver_error E (length (trace w)) = None ->
  exists r w',
    repo_UpdateOrderStatus E id status w = (r, w')
    /\ order_items (db w') = order_items (db w)
    /\ Forall2 (status_set id status (timestamp E (time_Now E (clock w))))
         (orders (db w)) (orders (db w'))
    /\ trace w' = trace w ++ [QUpdateStatus status (time_Now E (clock w)) id]
    /\ clock w' = S (clock w)
    /\ (has_order (db w) id -> r = Ok tt)
    /\ (~ has_order (db w) id -> r = Err "order not found" /\ db w' = db w).
Proof. exact (repo_UpdateOrderStatus_run E id status w). Qed.

Lemma find_status_set id status now rows rows' r :
  Forall2 (status_set id status now) rows rows' ->
  List.find (fun x => String.eqb (OrdersRow.id x) id) rows = Some r ->
  List.find (fun x => String.eqb (OrdersRow.id x) id) rows'
  = Some (OrdersRow.mk (OrdersRow.id r) (OrdersRow.customer_id r)
            (OrdersRow.total_price r) status (OrdersRow.order_date r)
            (OrdersRow.created_at r) (Some now)).
Proof.
  induction 1 as [|x x' rows rows' [Hhit Hmiss] _ IH]; simpl;
    [discriminate|].
  destruct (String.eqb_spec (OrdersRow.id x) id) as [Heq|Hne].
  - intros H. inversion H; subst r. rewrite (Hhit Heq). cbn.
    rewrite Heq, String.eqb_refl. reflexivity.
  - intros H. rewrite (Hmiss Hne).
    destruct (String.eqb_spec (OrdersRow.id x) id); [contradiction|].
    exact (IH H).
Qed.

(** X3. Update then read. With a driver that fails no statement, a
    non-empty id whose (first) row has a [created_at], and one of the six
    statuses: the service's update succeeds, and the order then read by id
    has the new status and, as [UpdatedAt], the time of the update as the
    [TIMESTAMP] column holds it; its id, customer, total, dates of creation
    and items are those stored before. *)
Theorem update_then_get E id status w r createdAt :
  reliable E ->
  id <> "" ->
  In status six_statuses ->
  List.find (fun x => String.eqb (OrdersRow.id x) id) (orders (db w)) = Some r ->
  OrdersRow.created_at r = Some createdAt ->
  exists w1 o w2,
    service_UpdateOrderStatus E id (UpdateOrderStatusRequest.mk status) w
    = (Ok tt, w1)
    /\ service_GetOrderByID E id w1 = (Ok o, w2)
    /\ Order.Status o = status
    /\ Order.UpdatedAt o = timestamp E (time_Now E (clock w))
    /\ Order.ID o = id
    /\ Order.CustomerID o = OrdersRow.customer_id r
    /\ Order.TotalPrice o = OrdersRow.total_price r
    /\ Order.OrderDate o = OrdersRow.order_date r
    /\ Order.CreatedAt o = createdAt
    /\ Order.Items o = items_of (db w) id.
Proof.
  intros Hrel Hid Hin Hfind Hcreated.
  assert (Hhas : has_order (db w) id).
  { apply find_some in Hfind. destruct Hfind as [Hr Heq].
    apply String.eqb_eq in Heq. exists r. auto. }
  destruct (repo_UpdateOrderStatus_run E id status w (Hrel _))
    as (res & w1 & Hrun & Hitems & Hrows & _ & _ & Hok & _).
  rewrite (Hok Hhas) in Hrun.
  assert (Hsvc : service_UpdateOrderStatus E id
                   (UpdateOrderStatusRequest.mk status) w = (Ok tt, w1)).
  { unfold service_UpdateOrderStatus.
    destruct (String.eqb_spec id ""); [contradiction|].
    cbn [UpdateOrderStatusRequest.Status].
    apply validStatuses_spec in Hin. rewrite Hin. exact Hrun. }
  pose proof (find_status_set _ _ _ _ _ _ Hrows Hfind) as Hfind1.
  exists w1. unfold service_GetOrderByID.
  destruct (String.eqb_spec id ""); [contradiction|].
  unfold repo_GetOrderByID, select_order.
  rewrite bind_run, Errorf_run, bind_run, (send_reliable _ _ _ Hrel).
  cbn [db log]. rewrite Hfind1. unfold scan_order.
  cbn [OrdersRow.created_at OrdersRow.updated_at]. rewrite Hcreated.
  rewrite bind_run, Errorf_run, (getOrderItems_reliable _ _ _ Hrel).
  eexists _, _. split; [exact Hsvc|]. split; [reflexivity|].
  cbn. apply find_some in Hfind. destruct Hfind as [_ Heq].
  apply String.eqb_eq in Heq. unfold items_of. rewrite Hitems.
  repeat split; assumption.
Qed.

(** ** Create, then read or delete *)

(** Every item row belongs to a stored order. *)
Definition references_resolve (d : Database) : Prop :=
  forall i, In i (order_items d) -> has_order d (OrderItemsRow.order_id i).

(** A successful [CreateOrder] drew the order id first, and the insert
    found it unused. *)
Lemma repo_CreateOrder_Ok_id E order w o w' :
  repo_CreateOrder E order w = (Ok o, w') ->
  Order.ID o = uuid_New E (uuids w)
  /\ ~ In (Order.ID o) (map OrdersRow.id (orders (db w)))
  /\ Order.OrderDate o = time_Now E (clock w)
  /\ Order.CreatedAt o = time_Now E (S (clock w))
  /\ Order.UpdatedAt o = time_Now E (S (S (clock w))).
Proof.
  unfold repo_CreateOrder.
  rewrite bind_run, Errorf_run. unfold db_Begin. rewrite bind_run.
  step_send; [|discriminate].
  unfold defer_Rollback. rewrite subtotal_loop_spec.
  repeat rewrite bind_run. unfold uuid_New_String, time_Now_.
  cbn beta iota. repeat rewrite bind_run. cbn beta iota.
  rewrite Errorf_run. unfold tx_insert_order. rewrite bind_run.
  step_send.
  2:{ destruct (last _) as [[]|]; discriminate. }
  cbn [order_row OrdersRow.id Order.ID].
  destruct (existsb _ _) eqn:Hpk.
  { unfold fail. destruct (last _) as [[]|]; discriminate. }
  unfold ret at 1. rewrite bind_run.
  match goal with
  | |- context [insert_items E ?i ?l ?t ?w0] =>
      destruct (insert_items E i l t w0) as [[r|e] w2]
  end.
  2:{ destruct (last _) as [[]|]; discriminate. }
  rewrite bind_run.
  destruct (tx_Commit E (snd r) w2) as [[u|e] w3].
  2:{ destruct (last _) as [[]|]; discriminate. }
  unfold ret. intros H. inversion H. cbn.
  repeat split. intros Hin.
  apply not_true_iff_false in Hpk. apply Hpk.
  apply existsb_exists. eexists. split; [exact Hin|].
  apply String.eqb_refl.
Qed.

Lemma service_CreateOrder_Ok_repo E request w order w' :
  service_CreateOrder E request w = (Ok order, w') ->
  exists o0, repo_CreateOrder E o0 w = (Ok order, w').
Proof.
  unfold service_CreateOrder.
  destruct (length (CreateOrderRequest.Items request) =? 0)%nat;
    [discriminate|].
  destruct (convert_items _) as [l|e]; [|discriminate].
  rewrite Errorf_run.
  match goal with
  | |- context [repo_CreateOrder E ?o0 w] =>
      destruct (repo_CreateOrder E o0 w) as [[o1|e] w1] eqn:Hrepo;
      [|discriminate]
  end.
  intros H. inversion H; subst. eexists. exact Hrepo.
Qed.

Lemma scan_item_row i : scan_item (item_row i) = i.
Proof. destruct i. reflexivity. Qed.

(** An item and an order as the tables hand them back: amounts as a
    [DECIMAL(10,2)] holds them, times as a [TIMESTAMP] holds them. *)
Definition read_back_item (E : Env) (i : OrderItem.t) : OrderItem.t :=
  OrderItem.mk (OrderItem.ID i) (OrderItem.OrderID i) (OrderItem.GameID i)
    (OrderItem.GameName i) (numeric_10_2 E (OrderItem.Price i))
    (OrderItem.Quantity i) (numeric_10_2 E (OrderItem.Subtotal i)).

Definition read_back (E : Env) (o : Order.t) : Order.t :=
  Order.mk (Order.ID o) (Order.CustomerID o)
    (numeric_10_2 E (Order.TotalPrice o)) (Order.Status o)
    (timestamp E (Order.OrderDate o)) (timestamp E (Order.CreatedAt o))
    (timestamp E (Order.UpdatedAt o))
    (map (read_back_item E) (Order.Items o)).

Lemma scan_stored_item E i :
  scan_item (stored_item E (item_row i)) = read_back_item E i.
Proof. destruct i. reflexivity. Qed.

Lemma scan_stored_order E o :
  scan_order E (stored_order E (order_row o))
  = Ok (Order.with_Items [] (read_back E o)).
Proof. destruct o. reflexivity. Qed.

Lemma find_app_last id rows r :
  ~ In id (map OrdersRow.id rows) ->
  OrdersRow.id r = id ->
  List.find (fun x => String.eqb (OrdersRow.id x) id) (rows ++ [r]) = Some r.
Proof.
  intros Hfresh Hid. induction rows as [|x rows IH]; simpl.
  - rewrite Hid, String.eqb_refl. reflexivity.
  - destruct (String.eqb_spec (OrdersRow.id x) id) as [Heq|Hne].
    + exfalso. apply Hfresh. left. exact Heq.
    + apply IH. intros Hin. apply Hfresh. right. exact Hin.
Qed.

Lemma filter_none {A} (f : A -> bool) (l : list A) :
  (forall x, In x l -> f x = false) -> List.filter f l = [].
Proof.
  induction l as [|x l IH]; intros H; simpl; [reflexivity|].
  rewrite (H x (or_introl eq_refl)). apply IH.
  intros y Hy. apply H. right. exact Hy.
Qed.

(** The stored items of a freshly created order are its own. *)
Lemma items_of_created E d d' o :
  references_resolve d ->
  ~ In (Order.ID o) (map OrdersRow.id (orders d)) ->
  items_point_to o ->
  order_items d'
  = order_items d ++ map (stored_item E) (map item_row (Order.Items o)) ->
  List.filter (fun r => String.eqb (OrderItemsRow.order_id r) (Order.ID o))
    (order_items d')
  = map (stored_item E) (map item_row (Order.Items o)).
Proof.
  intros Href Hfresh Hpoint ->. rewrite List.filter_app.
  rewrite filter_none.
  - cbn [app]. apply filter_keeps_all. intros r Hr. rewrite map_map in Hr.
    apply in_map_iff in Hr. destruct Hr as (i & <- & Hi).
    unfold items_point_to in Hpoint. rewrite Forall_forall in Hpoint.
    cbn. rewrite (Hpoint i); [apply String.eqb_refl|].
    apply list_elem_of_In. exact Hi.
  - intros r Hr. apply not_true_iff_false. intros Heq.
    apply String.eqb_eq in Heq. apply Hfresh.
    destruct (Href r Hr) as (x & Hx & Hid).
    apply in_map_iff. exists x. split; [congruence | exact Hx].
Qed.

Lemma created_items_point_to o' o :
  created o' o -> items_point_to o.
Proof.
  intros (_ & _ & _ & Hf). unfold items_point_to.
  induction Hf as [|i i' l l' [id ->] _ IH]; constructor;
    [reflexivity | exact IH].
Qed.

#[global] Instance by_id_total : Total by_id.
Proof.
  intros a b. unfold by_id.
  destruct (String.leb_total (OrderItemsRow.id a) (OrderItemsRow.id b))
    as [H|H]; rewrite H; [left | right]; exact I.
Qed.

#[global] Instance newest_first_total : Total newest_first.
Proof. intros a b. unfold newest_first. lia. Qed.

#[global] Instance newest_first_trans : Transitive newest_first.
Proof. intros a b c. unfold newest_first. lia. Qed.

(** Items in ascending order of their ids. *)
Definition items_by_id (a b : OrderItem.t) : Prop :=
  Is_true (String.leb (OrderItem.ID a) (OrderItem.ID b)).

Lemma items_of_sorted d orderID : Sorted items_by_id (items_of d orderID).
Proof.
  unfold items_of. apply (Sorted_fmap scan_item by_id items_by_id).
  - intros x y H. exact H.
  - apply Sorted_merge_sort. apply _.
Qed.

Lemma map_scan_item_row l : map scan_item (map item_row l) = l.
Proof.
  induction l as [|i l IH]; simpl; [reflexivity|].
  rewrite scan_item_row, IH. reflexivity.
Qed.

Lemma map_scan_stored_item E l :
  map scan_item (map (stored_item E) (map item_row l))
  = map (read_back_item E) l.
Proof.
  induction l as [|i l IH]; simpl; [reflexivity|].
  rewrite scan_stored_item, IH. reflexivity.
Qed.

(** X4. Create then read. In a store where every item belongs to a stored
    order, after a successful [CreateOrder] whose identifier is not empty,
    and when the driver lets the two SELECTs through, reading the order by
    the returned id gives back the returned order as the tables hold it:
    the same id, customer and status; the total as the [DECIMAL(10,2)]
    column holds it and the three times as the [TIMESTAMP] columns hold
    them; and the same items, with price and subtotal as their
    [DECIMAL(10,2)] columns hold them, listed in ascending order of their
    ids. *)
Theorem create_then_get E request w order w1 :
  references_resolve (db w) ->
  service_CreateOrder E request w = (Ok order, w1) ->
  Order.ID order <> "" ->
  driver_error E (length (trace w1)) = None ->
  driver_error E (S (length (trace w1))) = None ->
  exists o w2,
    service_GetOrderByID E (Order.ID order) w1 = (Ok o, w2)
    /\ Order.ID o = Order.ID order
    /\ Order.CustomerID o = Order.CustomerID order
    /\ Order.Status o = Order.Status order
    /\ Order.TotalPrice o = numeric_10_2 E (Order.TotalPrice order)
    /\ Order.OrderDate o = timestamp E (Order.OrderDate order)
    /\ Order.CreatedAt o = timestamp E (Order.CreatedAt order)
    /\ Order.UpdatedAt o = timestamp E (Order.UpdatedAt order)
    /\ Order.Items o ≡ₚ map (read_back_item E) (Order.Items order)
    /\ Sorted items_by_id (Order.Items o).
Proof.
  intros Href Hrun Hid Hd1 Hd2.
  destruct (service_CreateOrder_Ok_repo _ _ _ _ _ Hrun) as [o0 Hrepo].
  pose proof (repo_CreateOrder_Ok_id _ _ _ _ _ Hrepo) as (_ & Hfresh & _).
  apply repo_CreateOrder_spec in Hrepo.
  destruct Hrepo as (Horders & Hitems & Hcreated).
  pose proof (created_items_point_to _ _ Hcreated) as Hpoint.
  unfold service_GetOrderByID.
  destruct (String.eqb_spec (Order.ID order) ""); [contradiction|].
  unfold repo_GetOrderByID, select_order.
  rewrite bind_run, Errorf_run, bind_run. unfold send at 1. rewrite Hd1.
  cbn [db log]. rewrite Horders.
  rewrite (find_app_last _ _ _ Hfresh) by (destruct order; reflexivity).
  rewrite scan_stored_order, bind_run, Errorf_run.
  unfold getOrderItems, select_items.
  rewrite bind_run, Errorf_run, bind_run. unfold send.
  cbn [trace log]. rewrite length_app, Nat.add_comm. cbn [length Nat.add].
  rewrite Hd2. cbn [db log].
  rewrite (items_of_created E (db w) (db w1) order Href Hfresh Hpoint Hitems).
  eexists _, _. split; [reflexivity|].
  cbn [Order.with_Items Order.Items read_back Order.ID Order.CustomerID
       Order.Status Order.TotalPrice Order.OrderDate Order.CreatedAt
       Order.UpdatedAt].
  do 7 (split; [reflexivity|]). split.
  - rewrite merge_sort_Permutation, map_scan_stored_item. reflexivity.
  - apply (Sorted_fmap scan_item by_id items_by_id).
    + intros x y H. exact H.
    + apply Sorted_merge_sort. apply _.
Qed.

Lemma delete_created_rows id rows row items new :
  OrdersRow.id row = id ->
  ~ In id (map OrdersRow.id rows) ->
  (forall i, In i items -> OrderItemsRow.order_id i <> id) ->
  (forall i, In i new -> OrderItemsRow.order_id i = id) ->
  List.filter (fun r => String.eqb (OrdersRow.id r) id) (rows ++ [row])
  = [row]
  /\ List.filter (fun r => negb (String.eqb (OrdersRow.id r) id))
       (rows ++ [row]) = rows
  /\ List.filter
       (fun i => negb (existsb
                         (fun r => String.eqb (OrdersRow.id r)
                                     (OrderItemsRow.order_id i)) [row]))
       (items ++ new) = items.
Proof.
  intros Hid Hfresh Hold Hnew.
  assert (Hmiss : forall r, In r rows ->
                            String.eqb (OrdersRow.id r) id = false).
  { intros r Hr. apply not_true_iff_false. intros Heq.
    apply String.eqb_eq in Heq. apply Hfresh. apply in_map_iff.
    exists r. auto. }
  rewrite !List.filter_app. cbn [List.filter existsb].
  rewrite Hid, String.eqb_refl. cbn [negb].
  split; [|split].
  - rewrite filter_none by exact Hmiss. reflexivity.
  - rewrite filter_keeps_all, app_nil_r; [reflexivity|].
    intros r Hr. rewrite (Hmiss r Hr). reflexivity.
  - rewrite filter_keeps_all, filter_none, app_nil_r; [reflexivity | |].
    + intros i Hi. rewrite (Hnew i Hi), String.eqb_refl. reflexivity.
    + intros i Hi. destruct (String.eqb_spec id (OrderItemsRow.order_id i));
        [|reflexivity].
      exfalso. apply (Hold i Hi). congruence.
Qed.

(** X5. Create then delete. In a store where every item belongs to a
    stored order, after a successful [CreateOrder] whose identifier is not
    empty, and when the driver lets the DELETE through, deleting the
    returned id succeeds and the committed tables are exactly those before
    the creation. *)
Theorem create_then_delete E request w order w1 :
  references_resolve (db w) ->
  service_CreateOrder E request w = (Ok order, w1) ->
  Order.ID order <> "" ->
  driver_error E (length (trace w1)) = None ->
  exists w2,
    service_DeleteOrder E (Order.ID order) w1 = (Ok tt, w2)
    /\ db w2 = db w.
Proof.
  intros Href Hrun Hid Hd.
  destruct (service_CreateOrder_Ok_repo _ _ _ _ _ Hrun) as [o0 Hrepo].
  pose proof (repo_CreateOrder_Ok_id _ _ _ _ _ Hrepo) as (_ & Hfresh & _).
  apply repo_CreateOrder_spec in Hrepo.
  destruct Hrepo as (Horders & Hitems & Hcreated).
  pose proof (created_items_point_to _ _ Hcreated) as Hpoint.
  destruct (delete_created_rows (Order.ID order) (orders (db w))
              (stored_order E (order_row order)) (order_items (db w))
              (map (stored_item E) (map item_row (Order.Items order))))
    as (Hhit & Hkeep & Hkeep_items).
  { destruct order; reflexivity. }
  { exact Hfresh. }
  { intros i Hi Heq. apply Hfresh. destruct (Href i Hi) as (x & Hx & Hxid).
    apply in_map_iff. exists x. split; [congruence | exact Hx]. }
  { intros r Hr. rewrite map_map in Hr.
    apply in_map_iff in Hr. destruct Hr as (i & <- & Hi).
    unfold items_point_to in Hpoint. rewrite Forall_forall in Hpoint.
    apply (Hpoint i). apply list_elem_of_In. exact Hi. }
  unfold service_DeleteOrder.
  destruct (String.eqb_spec (Order.ID order) ""); [contradiction|].
  unfold repo_DeleteOrder, exec_delete_order.
  rewrite bind_run, Errorf_run, bind_run. unfold send. rewrite Hd.
  cbn [db log set_db]. cbv zeta. rewrite Horders, Hitems.
  rewrite Hhit, Hkeep, Hkeep_items. cbn [length Z.of_nat Z.eqb Pos.of_succ_nat].
  eexists. split; [reflexivity|]. cbn [db]. destruct (db w); reflexivity.
Qed.

(** ** Invariants of the tables under the service *)

(** Primary keys are unique and every item belongs to a stored order. *)
Definition integrity (d : Database) : Prop :=
  NoDup (map OrdersRow.id (orders d))
  /\ NoDup (map OrderItemsRow.id (order_items d))
  /\ references_resolve d.

Lemma existsb_eqb_false_inv x (l : list string) :
  existsb (String.eqb x) l = false -> ~ In x l.
Proof.
  intros Hex Hin. apply not_true_iff_false in Hex. apply Hex.
  apply existsb_exists. exists x. split; [exact Hin | apply String.eqb_refl].
Qed.

Lemma NoDup_snoc_fresh (l : list string) x :
  NoDup l -> ~ In x l -> NoDup (l ++ [x]).
Proof.
  intros Hnd Hx. apply NoDup_app. split; [exact Hnd|]. split.
  - intros y Hy Hin. apply list_elem_of_In in Hy.
    apply list_elem_of_In in Hin. cbn in Hin. destruct Hin as [<-|[]].
    contradiction.
  - apply NoDup_singleton.
Qed.

(** The item inserts keep the item keys unique. *)
Lemma insert_items_keys E orderID items tx w p w' :
  insert_items E orderID items tx w = (Ok p, w') ->
  NoDup (map OrderItemsRow.id (order_items tx)) ->
  NoDup (map OrderItemsRow.id (order_items (snd p))).
Proof.
  revert tx w p w'. induction items as [|i rest IH]; intros tx w p w'.
  - simpl. intros H. inversion H; subst. auto.
  - simpl. rewrite bind_run. unfold uuid_New_String.
    rewrite bind_run, Errorf_run. unfold tx_insert_item.
    rewrite bind_run. step_send; [|discriminate].
    destruct (existsb _ _) eqn:Hpk; [discriminate|].
    unfold ret at 1. rewrite bind_run.
    match goal with
    | |- context [insert_items E ?o ?l ?t ?w0] =>
        destruct (insert_items E o l t w0) as [[p1|e] w1] eqn:Hrec;
        [|discriminate]
    end.
    intros H Hnd. inversion H; subst. cbn [snd].
    apply (IH _ _ _ _ Hrec). cbn [order_items]. rewrite map_app.
    apply NoDup_snoc_fresh; [exact Hnd|].
    apply existsb_eqb_false_inv. exact Hpk.
Qed.

Lemma repo_CreateOrder_keys E order w o w' :
  repo_CreateOrder E order w = (Ok o, w') ->
  NoDup (map OrderItemsRow.id (order_items (db w))) ->
  NoDup (map OrderItemsRow.id (order_items (db w'))).
Proof.
  unfold repo_CreateOrder.
  rewrite bind_run, Errorf_run. unfold db_Begin. rewrite bind_run.
  step_send; [|discriminate].
  unfold defer_Rollback. rewrite subtotal_loop_spec.
  repeat rewrite bind_run. unfold uuid_New_String, time_Now_.
  cbn beta iota. repeat rewrite bind_run. cbn beta iota.
  rewrite Errorf_run. unfold tx_insert_order. rewrite bind_run.
  step_send.
  2:{ destruct (last _) as [[]|]; discriminate. }
  destruct (existsb _ _).
  { unfold fail. destruct (last _) as [[]|]; discriminate. }
  unfold ret at 1. rewrite bind_run.
  match goal with
  | |- context [insert_items E ?i ?l ?t ?w0] =>
      destruct (insert_items E i l t w0) as [[r|e] w2] eqn:Hins
  end.
  2:{ destruct (last _) as [[]|]; discriminate. }
  rewrite bind_run. unfold tx_Commit. rewrite bind_run.
  step_send.
  2:{ destruct (last _) as [[]|]; discriminate. }
  unfold ret. intros H Hnd. inversion H; subst. cbn [db set_db].
  apply (insert_items_keys _ _ _ _ _ _ _ Hins). exact Hnd.
Qed.

(** What a call to [OrderService.CreateOrder] can do to the tables:
    nothing, or append the row of a new order and the rows of its items. *)
Definition order_added (E : Env) (request : CreateOrderRequest.t)
    (d d' : Database) : Prop :=
  exists order,
    orders d' = orders d ++ [stored_order E (order_row order)]
    /\ order_items d'
       = order_items d ++ map (stored_item E) (map item_row (Order.Items order))
    /\ ~ In (Order.ID order) (map OrdersRow.id (orders d))
    /\ (NoDup (map OrderItemsRow.id (order_items d)) ->
        NoDup (map OrderItemsRow.id (order_items d')))
    /\ items_point_to order
    /\ Order.Status order = "pending"
    /\ Order.TotalPrice order = float_total (CreateOrderRequest.Items request)
    /\ Forall2 (fun item i' =>
                  stamped (Order.ID order) (priced (blank_item item)) i')
         (CreateOrderRequest.Items request) (Order.Items order)
    /\ valid_request request.

Lemma service_CreateOrder_step E request w :
  db (snd (service_CreateOrder E request w)) = db w
  \/ order_added E request (db w) (db (snd (service_CreateOrder E request w))).
Proof.
  destruct (service_CreateOrder E request w) as [[order|e] w'] eqn:Hrun;
    cbn [snd].
  - right. exists order.
    pose proof (service_CreateOrder_Ok _ _ _ _ _ Hrun)
      as (_ & Hs & Ht & Hf).
    destruct (service_CreateOrder_Ok_repo _ _ _ _ _ Hrun) as [o0 Hrepo].
    pose proof (repo_CreateOrder_Ok_id _ _ _ _ _ Hrepo) as (_ & Hfresh & _).
    pose proof (repo_CreateOrder_keys _ _ _ _ _ Hrepo) as Hkeys.
    apply repo_CreateOrder_spec in Hrepo.
    destruct Hrepo as (Horders & Hitems & Hcreated).
    split; [exact Horders|]. split; [exact Hitems|].
    split; [exact Hfresh|]. split; [exact Hkeys|].
    split; [exact (created_items_point_to _ _ Hcreated)|].
    split; [exact Hs|]. split; [exact Ht|]. split; [exact Hf|].
    revert Hrun. unfold service_CreateOrder, valid_request.
    destruct (CreateOrderRequest.Items request) as [|item rest];
      [discriminate|].
    cbn [length Nat.eqb].
    destruct (convert_items (item :: rest)) as [l|e] eqn:Hconv;
      [|discriminate].
    apply convert_items_Ok in Hconv. destruct Hconv as [Hv _].
    intros _. split; [discriminate | exact Hv].
  - left. revert Hrun. unfold service_CreateOrder.
    destruct (length (CreateOrderRequest.Items request) =? 0)%nat.
    { intros H. inversion H. reflexivity. }
    destruct (convert_items _) as [l|e'].
    2:{ intros H. inversion H. reflexivity. }
    rewrite Errorf_run.
    match goal with
    | |- context [repo_CreateOrder E ?o0 w] =>
        destruct (repo_CreateOrder E o0 w) as [[o1|e1] w1] eqn:Hrepo
    end; [discriminate|].
    apply repo_CreateOrder_spec in Hrepo.
    intros H. inversion H; subst. exact Hrepo.
Qed.

Lemma update_status_effect_any E id status w :
  driver_error E (length (trace w)) = None ->
  exists r w',
    repo_UpdateOrderStatus E id status w = (r, w')
    /\ order_items (db w') = order_items (db w)
    /\ Forall2 (status_set id status (timestamp E (time_Now E (clock w))))
         (orders (db w)) (orders (db w')).
Proof.
  intros Hdrv. unfold repo_UpdateOrderStatus, time_Now_, exec_update_status.
  rewrite bind_run. cbn beta iota. rewrite bind_run, Errorf_run, bind_run.
  unfold send. cbn [trace]. rewrite Hdrv.
  cbn [db trace uuids clock log set_db orders order_items].
  pose proof (Forall2_map_status_set id status (timestamp E (time_Now E (clock w)))
                (orders (db w))) as Hset.
  destruct (Z.of_nat _ =? 0); eexists _, _;
    (split; [reflexivity|]);
    cbn [db trace uuids clock log set_db orders order_items];
    (split; [reflexivity | exact Hset]).
Qed.

(** What a call to [OrderService.UpdateOrderStatus] can do to the tables:
    nothing, or set one of the six statuses on the rows with the id. *)
Definition status_changed (id status : string) (d d' : Database) : Prop :=
  exists now,
    In status six_statuses
    /\ order_items d' = order_items d
    /\ Forall2 (status_set id status now) (orders d) (orders d').

Lemma service_UpdateOrderStatus_step E id request w :
  db (snd (service_UpdateOrderStatus E id request w)) = db w
  \/ status_changed id (UpdateOrderStatusRequest.Status request) (db w)
       (db (snd (service_UpdateOrderStatus E id request w))).
Proof.
  unfold service_UpdateOrderStatus.
  destruct (String.eqb id ""); [left; reflexivity|].
  destruct (default false _) eqn:Hvalid; cbn [negb]; [|left; reflexivity].
  apply validStatuses_spec in Hvalid.
  destruct (driver_error E (length (trace w))) as [msg|] eqn:Hd.
  - left. unfold repo_UpdateOrderStatus, time_Now_, exec_update_status.
    rewrite bind_run. cbn beta iota. rewrite bind_run, Errorf_run, bind_run.
    unfold send. cbn [trace]. rewrite Hd. reflexivity.
  - right.
    destruct (update_status_effect_any E id
                (UpdateOrderStatusRequest.Status request) w Hd)
      as (r & w' & Hrun & Hitems & Hrows).
    rewrite Hrun. cbn [snd]. eexists. split; [exact Hvalid|].
    split; [exact Hitems | exact Hrows].
Qed.

(** What a call to [OrderService.DeleteOrder] can do to the tables:
    nothing, or remove the rows with the id and the items that refer to
    it. *)
Definition order_removed (id : string) (d d' : Database) : Prop :=
  has_order d id
  /\ orders d'
     = List.filter (fun r => negb (String.eqb (OrdersRow.id r) id)) (orders d)
  /\ order_items d'
     = List.filter
         (fun i => negb (String.eqb (OrderItemsRow.order_id i) id))
         (order_items d).

Lemma service_DeleteOrder_step E id w :
  db (snd (service_DeleteOrder E id w)) = db w
  \/ order_removed id (db w) (db (snd (service_DeleteOrder E id w))).
Proof.
  unfold service_DeleteOrder.
  destruct (String.eqb id ""); [left; reflexivity|].
  unfold repo_DeleteOrder, exec_delete_order.
  rewrite bind_run, Errorf_run, bind_run. unfold send.
  destruct (driver_error E (length (trace w))) as [msg|];
    [left; reflexivity|].
  cbv zeta. cbn [db log].
  destruct (classic_has_order (db w) id) as [Hhas|Hn].
  - right.
    destruct (List.filter (fun r => String.eqb (OrdersRow.id r) id)
                (orders (db w))) as [|r0 l0] eqn:Hhit.
    { apply filter_hit_nil_iff in Hhit. contradiction. }
    replace (Z.of_nat (length (r0 :: l0)) =? 0) with false
      by (symmetry; apply Z.eqb_neq; cbn [length]; lia).
    cbn [snd db log set_db orders order_items].
    split; [exact Hhas|]. split; [reflexivity|].
    apply filter_ext. intros i. f_equal.
    assert (Hall : forall r, In r (r0 :: l0) -> OrdersRow.id r = id).
    { intros r Hr. rewrite <- Hhit in Hr. apply filter_In in Hr.
      destruct Hr as [_ Heq]. apply String.eqb_eq. exact Heq. }
    destruct (String.eqb_spec (OrderItemsRow.order_id i) id) as [Heq|Hne].
    + cbn [existsb]. rewrite (Hall r0 (or_introl eq_refl)), Heq.
      rewrite String.eqb_refl. reflexivity.
    + apply not_true_iff_false. intros Hex.
      apply existsb_exists in Hex. destruct Hex as (r & Hr & Heq).
      apply String.eqb_eq in Heq. rewrite (Hall r Hr) in Heq. congruence.
  - left. apply filter_hit_nil_iff in Hn. rewrite Hn.
    cbn [length Z.of_nat Z.eqb snd db log set_db existsb negb].
    apply filter_hit_nil_iff in Hn.
    rewrite !filter_keeps_all; [destruct (db w); reflexivity | reflexivity |].
    intros r Hr. destruct (String.eqb_spec (OrdersRow.id r) id);
      [|reflexivity].
    exfalso. apply Hn. exists r. auto.
Qed.

(** A client's calls to the service, and the world after running them one
    after the other (their answers are dropped). *)
Inductive Call :=
| CallCreateOrder (request : CreateOrderRequest.t)
| CallGetOrderByID (id : string)
| CallGetOrdersByCustomerID (customerID : string)
| CallGetAllOrders (page pageSize : Z)
| CallUpdateOrderStatus (id : string) (request : UpdateOrderStatusRequest.t)
| CallDeleteOrder (id : string)
| CallGetOrderStatistics.

Definition call (E : Env) (c : Call) (w : World) : World :=
  match c with
  | CallCreateOrder request => snd (service_CreateOrder E request w)
  | CallGetOrderByID id => snd (service_GetOrderByID E id w)
  | CallGetOrdersByCustomerID customerID =>
      snd (service_GetOrdersByCustomerID E customerID w)
  | CallGetAllOrders page pageSize =>
      snd (service_GetAllOrders E page pageSize w)
  | CallUpdateOrderStatus id request =>
      snd (service_UpdateOrderStatus E id request w)
  | CallDeleteOrder id => snd (service_DeleteOrder E id w)
  | CallGetOrderStatistics => snd (service_GetOrderStatistics E w)
  end.

Definition calls (E : Env) (cs : list Call) (w : World) : World :=
  fold_left (fun w c => call E c w) cs w.

Lemma service_GetOrderByID_db E id w :
  db (snd (service_GetOrderByID E id w)) = db w.
Proof.
  unfold service_GetOrderByID. destruct (String.eqb id ""); [reflexivity|].
  apply read_only_repo_GetOrderByID.
Qed.

Lemma service_GetOrdersByCustomerID_db E customerID w :
  db (snd (service_GetOrdersByCustomerID E customerID w)) = db w.
Proof.
  unfold service_GetOrdersByCustomerID.
  destruct (String.eqb customerID ""); [reflexivity|].
  apply read_only_repo_GetOrdersByCustomerID.
Qed.

(** One call changes the tables in one of three ways, or not at all. *)
Lemma call_step E c w :
  db (call E c w) = db w
  \/ (exists request, order_added E request (db w) (db (call E c w)))
  \/ (exists id status, status_changed id status (db w) (db (call E c w)))
  \/ (exists id, order_removed id (db w) (db (call E c w))).
Proof.
  destruct c as [request|id|customerID|page pageSize|id request|id|];
    cbn [call].
  - destruct (service_CreateOrder_step E request w) as [H|H]; [left | right; left]; eauto.
  - left. apply service_GetOrderByID_db.
  - left. apply service_GetOrdersByCustomerID_db.
  - left. unfold service_GetAllOrders.
    apply (read_only_bind _ _ (read_only_repo_GetAllOrders E _ _)
             (fun r => read_only_ret _)).
  - destruct (service_UpdateOrderStatus_step E id request w) as [H|H];
      [left | right; right; left]; eauto.
  - destruct (service_DeleteOrder_step E id w) as [H|H];
      [left | right; right; right]; eauto.
  - left. unfold service_GetOrderStatistics.
    apply (read_only_bind _ _
             (read_only_Errorf _ _ (read_only_repo_GetAllOrders E _ _))).
    intros r. destruct (statistics_loop _ _ _). apply read_only_ret.
Qed.

Lemma calls_invariant (P : Database -> Prop) E :
  (forall c w, P (db w) -> P (db (call E c w))) ->
  forall cs w, P (db w) -> P (db (calls E cs w)).
Proof.
  intros Hstep cs. induction cs as [|c cs IH]; intros w Hw; [exact Hw|].
  cbn [calls fold_left]. apply IH, Hstep, Hw.
Qed.

Lemma has_order_In d id :
  has_order d id <-> In id (map OrdersRow.id (orders d)).
Proof.
  unfold has_order. rewrite in_map_iff. split; intros (r & H1 & H2);
    exists r; auto.
Qed.

Lemma status_set_ids id status now rows rows' :
  Forall2 (status_set id status now) rows rows' ->
  map OrdersRow.id rows' = map OrdersRow.id rows.
Proof.
  induction 1 as [|r r' rows rows' [Hhit Hmiss] _ IH]; [reflexivity|].
  cbn [map]. rewrite IH. f_equal.
  destruct (String.eqb_spec (OrdersRow.id r) id) as [Heq|Hne].
  - rewrite (Hhit Heq). reflexivity.
  - rewrite (Hmiss Hne). reflexivity.
Qed.

Lemma NoDup_map_filter {A} (f : A -> string) (p : A -> bool) (l : list A) :
  NoDup (map f l) -> NoDup (map f (List.filter p l)).
Proof.
  induction l as [|x l IH]; simpl; [auto|].
  intros Hnd. apply NoDup_cons in Hnd. destruct Hnd as [Hx Hnd].
  destruct (p x); [|exact (IH Hnd)].
  cbn [map]. apply NoDup_cons. split; [|exact (IH Hnd)].
  intros Hin. apply Hx. apply list_elem_of_In in Hin.
  apply list_elem_of_In. apply in_map_iff in Hin.
  destruct Hin as (y & Hy & Hin). apply filter_In in Hin.
  apply in_map_iff. exists y. tauto.
Qed.

Lemma integrity_order_added E request d d' :
  order_added E request d d' -> integrity d -> integrity d'.
Proof.
  intros (order & Ho & Hi & Hfresh & Hkeys & Hpoint & _) (Hk1 & Hk2 & Href).
  split; [|split].
  - rewrite Ho, map_app. apply NoDup_snoc_fresh; [exact Hk1|].
    destruct order; exact Hfresh.
  - exact (Hkeys Hk2).
  - intros i Hin. rewrite Hi in Hin. apply in_app_iff in Hin.
    apply has_order_In. rewrite Ho, map_app, in_app_iff.
    destruct Hin as [Hin|Hin].
    + left. apply has_order_In. exact (Href i Hin).
    + right. left. rewrite map_map in Hin.
      apply in_map_iff in Hin. destruct Hin as (it & <- & Hit).
      unfold items_point_to in Hpoint. rewrite Forall_forall in Hpoint.
      cbn. symmetry. apply Hpoint. apply list_elem_of_In. exact Hit.
Qed.

Lemma integrity_status_changed id status d d' :
  status_changed id status d d' -> integrity d -> integrity d'.
Proof.
  intros (now & _ & Hi & Hrows) (Hk1 & Hk2 & Href).
  apply status_set_ids in Hrows.
  split; [|split].
  - rewrite Hrows. exact Hk1.
  - rewrite Hi. exact Hk2.
  - intros i Hin. rewrite Hi in Hin. apply has_order_In. rewrite Hrows.
    apply has_order_In. exact (Href i Hin).
Qed.

Lemma integrity_order_removed id d d' :
  order_removed id d d' -> integrity d -> integrity d'.
Proof.
  intros (_ & Ho & Hi) (Hk1 & Hk2 & Href).
  split; [|split].
  - rewrite Ho. apply NoDup_map_filter. exact Hk1.
  - rewrite Hi. apply NoDup_map_filter. exact Hk2.
  - intros i Hin. rewrite Hi in Hin. apply filter_In in Hin.
    destruct Hin as [Hin Hne]. apply negb_true_iff in Hne.
    destruct (Href i Hin) as (r & Hr & Hid).
    exists r. split; [|exact Hid]. rewrite Ho. apply filter_In.
    split; [exact Hr|]. rewrite Hid, Hne. reflexivity.
Qed.

(** X6. Whatever calls a client makes to the service and whatever the
    driver does, a store whose order keys and item keys are unique and
    whose items all belong to a stored order stays such a store: no call
    duplicates a key or leaves an item without its order. *)
Theorem integrity_preserved E cs w :
  integrity (db w) -> integrity (db (calls E cs w)).
Proof.
  apply (calls_invariant integrity). clear. intros c w Hw.
  destruct (call_step E c w)
    as [H | [[request H] | [(id & status & H) | [id H]]]].
  - rewrite H. exact Hw.
  - exact (integrity_order_added _ _ _ _ H Hw).
  - exact (integrity_status_changed _ _ _ _ H Hw).
  - exact (integrity_order_removed _ _ _ H Hw).
Qed.

(** Every stored status is one of the six. *)
Definition statuses_valid (d : Database) : Prop :=
  Forall (fun r => In (OrdersRow.status r) six_statuses) (orders d).

(** X7. Whatever calls a client makes to the service and whatever the
    driver does, if every stored order has one of the six statuses then
    this stays so: creation stores "pending" and the update stores only
    what the whitelist lets through. *)
Theorem statuses_stay_valid E cs w :
  statuses_valid (db w) -> statuses_valid (db (calls E cs w)).
Proof.
  apply (calls_invariant statuses_valid). clear. intros c w Hw.
  unfold statuses_valid in *.
  destruct (call_step E c w)
    as [H | [[request H] | [(id & status & H) | [id H]]]].
  - rewrite H. exact Hw.
  - destruct H as (order & Ho & _ & _ & _ & _ & Hs & _).
    rewrite Ho. apply Forall_app. split; [exact Hw|].
    constructor; [|constructor]. cbn. rewrite Hs. left. reflexivity.
  - destruct H as (now & Hin & _ & Hrows).
    induction Hrows as [|r r' rows rows' [Hhit Hmiss] _ IH];
      [constructor|].
    apply Forall_cons in Hw. destruct Hw as [Hr Hw].
    constructor; [|exact (IH Hw)].
    destruct (String.eqb_spec (OrdersRow.id r) id) as [Heq|Hne].
    + rewrite (Hhit Heq). exact Hin.
    + rewrite (Hmiss Hne). exact Hr.
  - destruct H as (_ & Ho & _). rewrite Ho.
    apply Forall_forall. intros r Hr. apply list_elem_of_In in Hr.
    apply filter_In in Hr. destruct Hr as [Hr _].
    rewrite Forall_forall in Hw. apply Hw, list_elem_of_In, Hr.
Qed.

(** The items stored for an order id, in table order. *)
Definition items_for (d : Database) (id : string) : list OrderItemsRow.t :=
  List.filter (fun i => String.eqb (OrderItemsRow.order_id i) id)
    (order_items d).

(** An item as [CreateOrder] prices it: a positive quantity, a price that
    is not below 0 and the subtotal [price * float64(quantity)]. *)
Definition item_accounted (i : OrderItem.t) : Prop :=
  OrderItem.Subtotal i
  = (OrderItem.Price i * float64_of_int (OrderItem.Quantity i))%float
  /\ 0 < OrderItem.Quantity i
  /\ (OrderItem.Price i <? 0)%float = false.

(** The binary64 sum of the subtotals of items, in order from 0. *)
Definition sum_subtotals (its : list OrderItem.t) : float :=
  fold_left (fun total i => (total + OrderItem.Subtotal i)%float) its
    0%float.

(** An order row is accounted for by the items of a priced order: at least
    one; the item rows stored for the order are theirs, with price and
    subtotal as [DECIMAL(10,2)] holds them; and the stored total is the
    binary64 sum of their subtotals as [DECIMAL(10,2)] holds it. *)
Definition order_accounted (E : Env) (d : Database) (r : OrdersRow.t)
  : Prop :=
  exists its,
    its <> []
    /\ Forall item_accounted its
    /\ items_for d (OrdersRow.id r) = map (stored_item E) (map item_row its)
    /\ OrdersRow.total_price r = numeric_10_2 E (sum_subtotals its).

Definition accounted (E : Env) (d : Database) : Prop :=
  Forall (order_accounted E d) (orders d).

Lemma fold_subtotals_created orderID items its total :
  Forall2 (fun item i' => stamped orderID (priced (blank_item item)) i')
    items its ->
  fold_left (fun total i => (total + OrderItem.Subtotal i)%float) its total
  = fold_left
      (fun total item =>
         (total + CreateOrderItemRequest.Price item
                  * float64_of_int (CreateOrderItemRequest.Quantity item))%float)
      items total.
Proof.
  intros Hf. revert total.
  induction Hf as [|item i' items its [id ->] _ IH]; intros total;
    [reflexivity|].
  cbn [fold_left]. rewrite IH. reflexivity.
Qed.

Lemma items_accounted_created orderID items its :
  Forall valid_item items ->
  Forall2 (fun item i' => stamped orderID (priced (blank_item item)) i')
    items its ->
  Forall item_accounted its.
Proof.
  intros Hv Hf. induction Hf as [|item i' items its [id ->] _ IH];
    [constructor|].
  apply Forall_cons in Hv. destruct Hv as [[Hq Hp] Hv].
  constructor; [|exact (IH Hv)].
  unfold item_accounted. cbn. auto.
Qed.

Lemma filter_filter_other (id id0 : string) (items : list OrderItemsRow.t) :
  id <> id0 ->
  List.filter (fun i => String.eqb (OrderItemsRow.order_id i) id)
    (List.filter (fun i => negb (String.eqb (OrderItemsRow.order_id i) id0))
       items)
  = List.filter (fun i => String.eqb (OrderItemsRow.order_id i) id) items.
Proof.
  intros Hne. induction items as [|i items IH]; simpl; [reflexivity|].
  destruct (String.eqb_spec (OrderItemsRow.order_id i) id0) as [H0|H0];
    cbn [negb List.filter].
  - destruct (String.eqb_spec (OrderItemsRow.order_id i) id);
      [congruence | exact IH].
  - rewrite IH. reflexivity.
Qed.

Lemma accounted_order_added E request d d' :
  order_added E request d d' -> integrity d -> accounted E d ->
  accounted E d'.
Proof.
  intros (order & Ho & Hi & Hfresh & _ & Hpoint & _ & Ht & Hf & [Hne Hv])
         (_ & _ & Href) Hrows.
  assert (Hnew : items_for d' (Order.ID order)
                 = map (stored_item E) (map item_row (Order.Items order))).
  { exact (items_of_created E d d' order Href Hfresh Hpoint Hi). }
  unfold accounted. rewrite Ho. apply Forall_app. split.
  - apply Forall_forall. intros r Hr. unfold accounted in Hrows.
    rewrite Forall_forall in Hrows.
    specialize (Hrows r Hr). apply list_elem_of_In in Hr.
    assert (Hsame : items_for d' (OrdersRow.id r)
                    = items_for d (OrdersRow.id r)).
    { unfold items_for. rewrite Hi, List.filter_app.
      rewrite (filter_none _
                 (map (stored_item E) (map item_row (Order.Items order))));
        [apply app_nil_r|].
      intros x Hx. rewrite map_map in Hx.
      apply in_map_iff in Hx. destruct Hx as (it & <- & Hit).
      unfold items_point_to in Hpoint. rewrite Forall_forall in Hpoint.
      cbn. rewrite (Hpoint it) by (apply list_elem_of_In; exact Hit).
      destruct (String.eqb_spec (Order.ID order) (OrdersRow.id r));
        [|reflexivity].
      exfalso. apply Hfresh. apply in_map_iff. exists r. auto. }
    unfold order_accounted. rewrite Hsame. exact Hrows.
  - constructor; [|constructor]. exists (Order.Items order).
    replace (OrdersRow.id (stored_order E (order_row order)))
      with (Order.ID order) by (destruct order; reflexivity).
    split; [|split; [|split]].
    + destruct (CreateOrderRequest.Items request); [congruence|].
      inversion Hf; subst. discriminate.
    + exact (items_accounted_created _ _ _ Hv Hf).
    + exact Hnew.
    + replace (OrdersRow.total_price (stored_order E (order_row order)))
        with (numeric_10_2 E (Order.TotalPrice order))
        by (destruct order; reflexivity).
      rewrite Ht. unfold float_total, sum_subtotals. f_equal. symmetry.
      exact (fold_subtotals_created _ _ _ _ Hf).
Qed.

Lemma accounted_status_changed E id status d d' :
  status_changed id status d d' -> accounted E d -> accounted E d'.
Proof.
  intros (now & _ & Hi & Hrows) Hacc. unfold accounted in *.
  assert (Hfor : forall x, items_for d' x = items_for d x).
  { intros x. unfold items_for. rewrite Hi. reflexivity. }
  induction Hrows as [|r r' rows rows' [Hhit Hmiss] _ IH]; [constructor|].
  apply Forall_cons in Hacc. destruct Hacc as [Hr Hacc].
  constructor; [|exact (IH Hacc)].
  unfold order_accounted in *.
  destruct (String.eqb_spec (OrdersRow.id r) id) as [Heq|Hne].
  - rewrite (Hhit Heq). cbn [OrdersRow.id OrdersRow.total_price].
    destruct Hr as (its & H1 & H2 & H3 & H4). exists its.
    rewrite Hfor. auto.
  - rewrite (Hmiss Hne). destruct Hr as (its & H1 & H2 & H3 & H4).
    exists its. rewrite Hfor. auto.
Qed.

Lemma accounted_order_removed E id d d' :
  order_removed id d d' -> accounted E d -> accounted E d'.
Proof.
  intros (_ & Ho & Hi) Hacc. unfold accounted in *.
  rewrite Ho. apply Forall_forall. intros r Hr.
  apply list_elem_of_In, filter_In in Hr. destruct Hr as [Hr Hne].
  apply negb_true_iff in Hne.
  rewrite Forall_forall in Hacc.
  specialize (Hacc r (proj2 (list_elem_of_In _ _) Hr)).
  unfold order_accounted, items_for in *. rewrite Hi.
  rewrite filter_filter_other; [exact Hacc|].
  intros Heq. rewrite Heq, String.eqb_refl in Hne. discriminate.
Qed.

(** X8. Whatever calls a client makes to the service and whatever the
    driver does, a store with unique keys and no orphan item in which
    every order is accounted for stays such a store: every stored order
    has at least one item row, and its rows are the column forms of a
    priced order, that is of items with positive quantity, price not below
    0 and subtotal [price * float64(quantity)], whose binary64 sum of
    subtotals, as [DECIMAL(10,2)] holds it, is the stored total. (The
    stored amounts themselves need not add up: each went through the
    column on its own.) The empty store is one, so every store the
    service builds is. *)
Theorem accounts_preserved E cs w :
  integrity (db w) /\ accounted E (db w) ->
  integrity (db (calls E cs w)) /\ accounted E (db (calls E cs w)).
Proof.
  apply (calls_invariant (fun d => integrity d /\ accounted E d)). clear.
  intros c w [Hint Hacc].
  destruct (call_step E c w)
    as [H | [[request H] | [(id & status & H) | [id H]]]].
  - rewrite H. split; assumption.
  - split; [exact (integrity_order_added _ _ _ _ H Hint)|].
    exact (accounted_order_added _ _ _ _ H Hint Hacc).
  - split; [exact (integrity_status_changed _ _ _ _ H Hint)|].
    exact (accounted_status_changed _ _ _ _ _ H Hacc).
  - split; [exact (integrity_order_removed _ _ _ H Hint)|].
    exact (accounted_order_removed _ _ _ _ H Hacc).
Qed.

(** ** Listings *)

(** Dates from newest to oldest. *)
Definition newest_to_oldest (dates : list Z) : Prop :=
  StronglySorted (fun a b => b <= a) dates.

Lemma scan_order_fields E r order :
  scan_order E r = Ok order ->
  Order.ID order = OrdersRow.id r
  /\ Order.CustomerID order = OrdersRow.customer_id r
  /\ Order.OrderDate order = OrdersRow.order_date r.
Proof.
  unfold scan_order.
  destruct (OrdersRow.created_at r), (OrdersRow.updated_at r);
    intros H; inversion H; repeat split.
Qed.

Lemma fetched_projections E d rows l :
  Forall2 (fetched E d) rows l ->
  map Order.ID l = map OrdersRow.id rows
  /\ map Order.CustomerID l = map OrdersRow.customer_id rows
  /\ map Order.OrderDate l = map OrdersRow.order_date rows.
Proof.
  induction 1 as [|r o rows l (order & Hs & ->) _ (IH1 & IH2 & IH3)];
    [repeat split|].
  apply scan_order_fields in Hs. destruct Hs as (H1 & H2 & H3).
  cbn. rewrite IH1, IH2, IH3, H1, H2, H3. repeat split.
Qed.

Lemma sorted_rows_dates rows :
  StronglySorted newest_first rows ->
  newest_to_oldest (map OrdersRow.order_date rows).
Proof.
  apply (StronglySorted_fmap OrdersRow.order_date newest_first
           (fun a b => b <= a)).
  intros x y H. exact H.
Qed.

Lemma merge_sort_newest_first rows :
  StronglySorted newest_first (merge_sort newest_first rows).
Proof. apply StronglySorted_merge_sort; apply _. Qed.

Lemma page_rows_sorted limit offset d :
  StronglySorted newest_first (page_rows limit offset d).
Proof.
  unfold page_rows.
  pose proof (merge_sort_newest_first (orders d)) as Hs.
  rewrite <- (take_drop (Z.to_nat offset)) in Hs.
  apply StronglySorted_app_1_r in Hs.
  rewrite <- (take_drop (Z.to_nat limit)) in Hs.
  apply StronglySorted_app_1_l in Hs. exact Hs.
Qed.

(** X9. The orders of a customer. With a driver that fails no statement,
    a non-empty customer id and rows of that customer that decode, the
    handler answers 200 with a list and its length as [total]; the tables
    are untouched; every order of the list has the customer id asked for;
    the ids of the list are those of the stored rows of that customer,
    each once; the list runs from the newest order date to the oldest; and
    a customer without orders gets the empty list, not an error. *)
Theorem customer_orders_listing E customerID w :
  reliable E ->
  customerID <> "" ->
  Forall decodable
    (List.filter (fun r => String.eqb (OrdersRow.customer_id r) customerID)
       (orders (db w))) ->
  exists l w',
    handler_GetOrdersByCustomerID E customerID w
    = (mkReply StatusOK (OrdersBody l (Z.of_nat (length l))), w')
    /\ db w' = db w
    /\ Forall (fun o => Order.CustomerID o = customerID) l
    /\ map Order.ID l
       ≡ₚ map OrdersRow.id
            (List.filter
               (fun r => String.eqb (OrdersRow.customer_id r) customerID)
               (orders (db w)))
    /\ newest_to_oldest (map Order.OrderDate l)
    /\ ((forall r, In r (orders (db w)) ->
                   OrdersRow.customer_id r <> customerID) ->
        l = []).
Proof.
  intros Hrel Hid Hdec.
  unfold handler_GetOrdersByCustomerID, service_GetOrdersByCustomerID.
  destruct (String.eqb_spec customerID ""); [contradiction|].
  destruct (repo_GetOrdersByCustomerID E customerID w) as [[l|e] w'] eqn:Hrun.
  - apply repo_GetOrdersByCustomerID_spec in Hrun. destruct Hrun as [Hdb Hf].
    exists l, w'. split; [reflexivity|]. split; [exact Hdb|].
    destruct (fetched_projections _ _ _ _ Hf) as (Hids & Hcust & Hdates).
    split.
    { apply Forall_forall. intros o Ho.
      assert (Hc : In (Order.CustomerID o) (map Order.CustomerID l)).
      { apply in_map, list_elem_of_In, Ho. }
      rewrite Hcust in Hc. apply in_map_iff in Hc.
      destruct Hc as (r & Hr & Hin). unfold customer_rows in Hin.
      apply list_elem_of_In in Hin. rewrite merge_sort_Permutation in Hin.
      apply list_elem_of_In, filter_In in Hin. destruct Hin as [_ Heq].
      apply String.eqb_eq in Heq. congruence. }
    split.
    { rewrite Hids. unfold customer_rows.
      rewrite merge_sort_Permutation. reflexivity. }
    split.
    { unfold newest_to_oldest. rewrite Hdates.
      apply sorted_rows_dates, merge_sort_newest_first. }
    intros Hnone.
    assert (Hlen : length l = 0%nat).
    { rewrite <- (length_map Order.ID), Hids, length_map.
      unfold customer_rows.
      rewrite (Permutation_length (merge_sort_Permutation _ _)).
      rewrite filter_none; [reflexivity|].
      intros r Hr. destruct (String.eqb_spec (OrdersRow.customer_id r)
                               customerID); [|reflexivity].
      exfalso. exact (Hnone r Hr ltac:(assumption)). }
    destruct l; [reflexivity | discriminate].
  - exfalso. revert Hrun.
    unfold repo_GetOrdersByCustomerID, select_orders_by_customer.
    rewrite bind_run, Errorf_run, bind_run, (send_reliable _ _ _ Hrel).
    cbn [db log].
    match goal with
    | |- context [scan_orders E ?rows ?w0] =>
        destruct (scan_orders_reliable E rows w0 Hrel) as (l & w1 & Hrun & _)
    end.
    { rewrite merge_sort_Permutation. exact Hdec. }
    rewrite Hrun. discriminate.
Qed.

Lemma service_GetAllOrders_Ok E page pageSize w response w' :
  service_GetAllOrders E page pageSize w = (Ok response, w') ->
  OrdersListResponse.Total response = Z.of_nat (length (orders (db w)))
  /\ map OrderResponse.ID (OrdersListResponse.Orders response)
     = map OrdersRow.id
         (page_rows (normal_pageSize pageSize)
            (int_mul (normal_page page - 1) (normal_pageSize pageSize))
            (db w))
  /\ newest_to_oldest
       (map OrderResponse.OrderDate (OrdersListResponse.Orders response))
  /\ (Z.of_nat (length (orders (db w)))
      <= int_mul (normal_page page - 1) (normal_pageSize pageSize) ->
      OrdersListResponse.Orders response = []).
Proof.
  unfold service_GetAllOrders. rewrite bind_run.
  destruct (repo_GetAllOrders E _ _ w) as [[[l total]|e] w1] eqn:Hrun;
    [|discriminate].
  apply repo_GetAllOrders_spec in Hrun.
  destruct Hrun as (_ & Hl & Ho & Htotal & Hf). cbn [fst snd] in *.
  intros H. inversion H; subst. clear H.
  cbn [OrdersListResponse.Total OrdersListResponse.Orders].
  destruct (fetched_projections _ _ _ _ Hf) as (Hids & _ & Hdates).
  split; [reflexivity|]. split; [|split].
  - rewrite <- Hids, <- list_fmap_compose. reflexivity.
  - rewrite <- list_fmap_compose.
    change (OrderResponse.OrderDate ∘ to_response) with Order.OrderDate.
    change (Order.OrderDate <$> l) with (map Order.OrderDate l).
    unfold newest_to_oldest. rewrite Hdates.
    apply sorted_rows_dates, page_rows_sorted.
  - intros Hpast. apply Forall2_length in Hf.
    rewrite page_rows_length in Hf.
    destruct l; [reflexivity|]. cbn [length] in Hf. lia.
Qed.

(** X10. A page of orders. When [OrderService.GetAllOrders] returns,
    [total] is the number of stored orders whatever the page; the ids of
    the page are those of the rows from position [offset] to
    [offset + pageSize] of the stored orders sorted from newest to oldest,
    in that order; and a page that starts past the last order is empty. *)
Theorem page_listing E page pageSize w response w' :
  service_GetAllOrders E page pageSize w = (Ok response, w') ->
  OrdersListResponse.Total response = Z.of_nat (length (orders (db w)))
  /\ map OrderResponse.ID (OrdersListResponse.Orders response)
     = map OrdersRow.id
         (page_rows (normal_pageSize pageSize)
            (int_mul (normal_page page - 1) (normal_pageSize pageSize))
            (db w))
  /\ newest_to_oldest
       (map OrderResponse.OrderDate (OrdersListResponse.Orders response))
  /\ (Z.of_nat (length (orders (db w)))
      <= int_mul (normal_page page - 1) (normal_pageSize pageSize) ->
      OrdersListResponse.Orders response = []).
Proof. exact (service_GetAllOrders_Ok E page pageSize w response w'). Qed.

Lemma take_drop_tile {A} (l : list A) (size n : nat) :
  concat (map (fun k => take size (drop (k * size) l)) (seq 0 n))
  = take (n * size) l.
Proof.
  induction n as [|n IH]; [reflexivity|].
  rewrite seq_S, map_app, concat_app, IH. cbn [map concat Nat.add].
  rewrite app_nil_r, take_take_drop. f_equal. lia.
Qed.

(** X11. Pages tile the listing. For a page size in 1..100 and as long as
    the product stays within 64 bits, the rows selected for pages 1, 2,
    ..., n, put one after the other, are the first [n * pageSize] rows of
    the stored orders sorted from newest to oldest: in an unchanged store
    no order is skipped and none is listed twice. *)
Theorem pages_tile_listing d pageSize n :
  1 <= pageSize <= 100 ->
  Z.of_nat n * pageSize < 2 ^ 63 ->
  concat
    (map (fun k =>
            page_rows (normal_pageSize pageSize)
              (int_mul (normal_page (Z.of_nat k + 1) - 1)
                 (normal_pageSize pageSize)) d)
       (seq 0 n))
  = take (n * Z.to_nat pageSize) (merge_sort newest_first (orders d)).
Proof.
  intros Hsize Hfit. rewrite <- take_drop_tile. f_equal.
  apply map_ext_in. intros k Hk. apply in_seq in Hk.
  unfold page_rows, normal_pageSize, normal_page.
  replace (pageSize <? 1) with false by (symmetry; apply Z.ltb_ge; lia).
  replace (100 <? pageSize) with false by (symmetry; apply Z.ltb_ge; lia).
  replace (Z.of_nat k + 1 <? 1) with false by (symmetry; apply Z.ltb_ge; lia).
  cbn [orb]. unfold int_mul, wrap64.
  replace (Z.of_nat k + 1 - 1) with (Z.of_nat k) by lia.
  rewrite Z.mod_small by nia.
  replace (Z.to_nat (Z.of_nat k * pageSize + 2 ^ 63 - 2 ^ 63))
    with (k * Z.to_nat pageSize)%nat by nia.
  reflexivity.
Qed.

(** ** Items of the orders read back *)

Lemma items_of_rows d orderID :
  map item_row (items_of d orderID) ≡ₚ items_for d orderID.
Proof.
  unfold items_of, items_for.
  assert (Hid : forall l, map item_row (map scan_item l) = l).
  { induction l as [|r l IH]; simpl; [reflexivity|].
    rewrite IH. destruct r; reflexivity. }
  rewrite Hid. apply merge_sort_Permutation.
Qed.

(** X12. The items of every order read back ([GetOrderByID], the orders
    of a customer, a page) are the item rows stored for its id, each once,
    listed in ascending order of the item ids (not in the order of their
    insertion). *)
Theorem items_read_back_by_id E w :
  (forall id o w',
      repo_GetOrderByID E id w = (Ok o, w') ->
      map item_row (Order.Items o) ≡ₚ items_for (db w) (Order.ID o)
      /\ Sorted items_by_id (Order.Items o))
  /\ (forall customerID l w',
        repo_GetOrdersByCustomerID E customerID w = (Ok l, w') ->
        Forall (fun o =>
                  map item_row (Order.Items o) ≡ₚ items_for (db w) (Order.ID o)
                  /\ Sorted items_by_id (Order.Items o)) l)
  /\ (forall limit offset l total w',
        repo_GetAllOrders E limit offset w = (Ok (l, total), w') ->
        Forall (fun o =>
                  map item_row (Order.Items o) ≡ₚ items_for (db w) (Order.ID o)
                  /\ Sorted items_by_id (Order.Items o)) l).
Proof.
  assert (Hlist : forall rows l,
             Forall2 (fetched E (db w)) rows l ->
             Forall (fun o =>
                       map item_row (Order.Items o)
                       ≡ₚ items_for (db w) (Order.ID o)
                       /\ Sorted items_by_id (Order.Items o)) l).
  { induction 1 as [|r o rows l Hr _ IH]; constructor; [|exact IH].
    apply fetched_fields in Hr. destruct Hr as (Hid & _ & _ & _ & Hi).
    rewrite Hi, Hid. split; [apply items_of_rows | apply items_of_sorted]. }
  split; [|split].
  - intros id o w' Hrun. apply repo_GetOrderByID_spec in Hrun.
    destruct Hrun as (_ & Hid & Hitems & _). rewrite Hitems, Hid.
    split; [apply items_of_rows | apply items_of_sorted].
  - intros customerID l w' Hrun.
    apply repo_GetOrdersByCustomerID_spec in Hrun.
    destruct Hrun as [_ Hf]. exact (Hlist _ _ Hf).
  - intros limit offset l total w' Hrun.
    apply repo_GetAllOrders_spec in Hrun.
    destruct Hrun as (_ & _ & _ & _ & Hf). exact (Hlist _ _ Hf).
Qed.

(** ** Validation *)

(** X13. Validation stops at the first item that fails: when the items
    before it are valid, the error names the game of that item, with the
    quantity message if its quantity is not positive and the price message
    otherwise; no statement is sent, whatever follows in the request. *)
Theorem first_invalid_item_reported E request good bad rest w :
  CreateOrderRequest.Items request = good ++ bad :: rest ->
  Forall valid_item good ->
  ~ valid_item bad ->
  service_CreateOrder E request w
  = (Err (if CreateOrderItemRequest.Quantity bad <=? 0
          then "quantity must be greater than 0 for game "
               +:+ CreateOrderItemRequest.GameName bad
          else "price cannot be negative for game "
               +:+ CreateOrderItemRequest.GameName bad), w).
Proof.
  intros Hitems Hgood Hbad. unfold service_CreateOrder. rewrite Hitems.
  replace (length (good ++ bad :: rest) =? 0)%nat with false
    by (symmetry; apply Nat.eqb_neq; rewrite length_app; cbn; lia).
  assert (Hconv : convert_items (good ++ bad :: rest)
                  = Err (if CreateOrderItemRequest.Quantity bad <=? 0
                         then "quantity must be greater than 0 for game "
                              +:+ CreateOrderItemRequest.GameName bad
                         else "price cannot be negative for game "
                              +:+ CreateOrderItemRequest.GameName bad)).
  { clear Hitems. induction Hgood as [|item good [Hq Hp] _ IH].
    - cbn [app convert_items].
      destruct (CreateOrderItemRequest.Quantity bad <=? 0) eqn:Hq;
        [reflexivity|].
      destruct (CreateOrderItemRequest.Price bad <? 0)%float eqn:Hp;
        [reflexivity|].
      exfalso. apply Hbad. split; [lia | exact Hp].
    - cbn [app convert_items].
      replace (CreateOrderItemRequest.Quantity item <=? 0) with false
        by (symmetry; apply Z.leb_gt; exact Hq).
      rewrite Hp, IH. reflexivity. }
  rewrite Hconv. reflexivity.
Qed.

(** ** What the handlers answer *)

Lemma service_CreateOrder_Err_db E request w e w' :
  service_CreateOrder E request w = (Err e, w') -> db w' = db w.
Proof.
  unfold service_CreateOrder.
  destruct (length (CreateOrderRequest.Items request) =? 0)%nat.
  { intros H. inversion H. reflexivity. }
  destruct (convert_items _) as [l|e'].
  2:{ intros H. inversion H. reflexivity. }
  rewrite Errorf_run.
  match goal with
  | |- context [repo_CreateOrder E ?o0 w] =>
      destruct (repo_CreateOrder E o0 w) as [[o1|e1] w1] eqn:Hrepo
  end; [discriminate|].
  apply repo_CreateOrder_spec in Hrepo.
  intros H. inversion H; subst. exact Hrepo.
Qed.

(** X14. [OrderHandler.CreateOrder] answers 201 or 400 and nothing else:
    201 with the created order exactly when the order row and its item
    rows were committed (amounts and times as the columns hold them), and
    400 in every other case (a body that does not
    bind, a validation error, and also a storage failure), with the
    committed tables unchanged. *)
Theorem create_order_answers E details items_binding decoded w :
  (exists order,
      fst (handler_CreateOrder E details items_binding decoded w)
      = mkResponse StatusCreated (Created "Order created successfully" order)
      /\ orders (db (snd (handler_CreateOrder E details items_binding
                            decoded w)))
         = orders (db w) ++ [stored_order E (order_row order)]
      /\ order_items (db (snd (handler_CreateOrder E details items_binding
                                 decoded w)))
         = order_items (db w)
           ++ map (stored_item E) (map item_row (Order.Items order)))
  \/ (StatusCode (fst (handler_CreateOrder E details items_binding decoded w))
      = StatusBadRequest
      /\ db (snd (handler_CreateOrder E details items_binding decoded w))
         = db w).
Proof.
  unfold handler_CreateOrder.
  destruct (ShouldBindJSON _ decoded) as [request|];
    [|right; split; reflexivity].
  destruct (service_CreateOrder E request w) as [[order|e] w'] eqn:Hrun.
  - left. exists order. cbn [fst snd]. split; [reflexivity|].
    destruct (service_CreateOrder_Ok_repo _ _ _ _ _ Hrun) as [o0 Hrepo].
    apply repo_CreateOrder_spec in Hrepo.
    destruct Hrepo as (Ho & Hi & _). split; assumption.
  - right. cbn [fst snd]. split; [reflexivity|].
    exact (service_CreateOrder_Err_db _ _ _ _ _ Hrun).
Qed.

(** X15. [OrderHandler.GetOrderByID] with a driver that fails no
    statement: the empty id is answered 500 "order ID is required"; a
    non-empty id with no row is answered 404; a non-empty id whose row
    decodes is answered 200 with the order of that id, carrying the stored
    customer, total and status; a row that does not decode is answered
    500 with "failed to get order: " followed by the row's decoding error.
    The tables are never changed. *)
Theorem get_order_answers E id w :
  reliable E ->
  db (snd (handler_GetOrderByID E id w)) = db w
  /\ (id = "" ->
      fst (handler_GetOrderByID E id w)
      = mkReply StatusInternalServerError
          (ErrorBody "Failed to get order" (Some "order ID is required")))
  /\ (id <> "" -> ~ has_order (db w) id ->
      fst (handler_GetOrderByID E id w)
      = mkReply StatusNotFound (ErrorBody "Order not found" None))
  /\ (id <> "" ->
      forall r,
        List.find (fun x => String.eqb (OrdersRow.id x) id) (orders (db w))
        = Some r ->
        (decodable r ->
         exists o,
           fst (handler_GetOrderByID E id w) = mkReply StatusOK (OrderBody o)
           /\ Order.ID o = id
           /\ Order.CustomerID o = OrdersRow.customer_id r
           /\ Order.TotalPrice o = OrdersRow.total_price r
           /\ Order.Status o = OrdersRow.status r
           /\ Order.Items o = items_of (db w) id)
        /\ (~ decodable r ->
            fst (handler_GetOrderByID E id w)
            = mkReply StatusInternalServerError
                (ErrorBody "Failed to get order"
                   (Some ("failed to get order: " +:+ scan_error E r))))).
Proof.
  intros Hrel. split.
  { unfold handler_GetOrderByID.
    pose proof (service_GetOrderByID_db E id w) as Hdb.
    destruct (service_GetOrderByID E id w) as [[o|e] w'];
      [exact Hdb|]. destruct (String.eqb e "order not found"); exact Hdb. }
  unfold handler_GetOrderByID, service_GetOrderByID.
  destruct (String.eqb_spec id "") as [->|Hid].
  { split; [reflexivity|]. split; [congruence|]. congruence. }
  split; [congruence|].
  unfold repo_GetOrderByID, select_order.
  rewrite bind_run, Errorf_run, bind_run, (send_reliable _ _ _ Hrel).
  cbn [db log]. split.
  - intros _ Hn. apply find_none_iff in Hn. rewrite Hn. reflexivity.
  - intros _ r Hfind. rewrite Hfind. split.
    + intros [[c Hc] [u Hu]]. unfold scan_order. rewrite Hc, Hu.
      rewrite bind_run, Errorf_run, (getOrderItems_reliable _ _ _ Hrel).
      eexists. split; [reflexivity|]. cbn.
      apply find_some in Hfind. destruct Hfind as [_ Heq].
      apply String.eqb_eq in Heq. repeat split. exact Heq.
    + intros Hbad. rewrite (scan_order_Err E _ Hbad). reflexivity.
Qed.

(** X16. [OrderHandler.DeleteOrder] for a non-empty id: when the driver
    lets the DELETE through, an existing order is answered 200 and is gone
    afterwards, an absent one is answered 404 with the tables unchanged;
    when the driver fails the DELETE the answer is 500 with the wrapped
    driver message, and the tables are unchanged. *)
Theorem delete_order_answers E id w :
  id <> "" ->
  (driver_error E (length (trace w)) = None ->
   has_order (db w) id ->
   fst (handler_DeleteOrder E id w)
   = mkReply StatusOK (MessageBody "Order deleted successfully")
   /\ ~ has_order (db (snd (handler_DeleteOrder E id w))) id)
  /\ (driver_error E (length (trace w)) = None ->
      ~ has_order (db w) id ->
      fst (handler_DeleteOrder E id w)
      = mkReply StatusNotFound (ErrorBody "Order not found" None)
      /\ db (snd (handler_DeleteOrder E id w)) = db w)
  /\ (forall msg,
        driver_error E (length (trace w)) = Some msg ->
        fst (handler_DeleteOrder E id w)
        = mkReply StatusInternalServerError
            (ErrorBody "Failed to delete order"
               (Some ("failed to delete order: " +:+ msg)))
        /\ db (snd (handler_DeleteOrder E id w)) = db w).
Proof.
  intros Hid. unfold handler_DeleteOrder, service_DeleteOrder.
  destruct (String.eqb_spec id ""); [contradiction|].
  split; [|split].
  - intros Hd Hhas.
    destruct (exec_delete_order_run E id w Hd)
      as (w' & Hrun & _ & Horders & _ & _).
    unfold repo_DeleteOrder. rewrite bind_run, Errorf_run, Hrun.
    destruct (List.filter _ (orders (db w))) as [|r0 l0] eqn:Hhit.
    { apply filter_hit_nil_iff in Hhit. contradiction. }
    replace (Z.of_nat (length (r0 :: l0)) =? 0) with false
      by (symmetry; apply Z.eqb_neq; cbn [length]; lia).
    cbn [ret fst snd]. split; [reflexivity|].
    intros (r & Hr & Hrid). apply Horders in Hr. tauto.
  - intros Hd Hn.
    destruct (exec_delete_order_run E id w Hd)
      as (w' & Hrun & _ & _ & _ & Hsame).
    unfold repo_DeleteOrder. rewrite bind_run, Errorf_run, Hrun.
    pose proof Hn as Hnil. apply filter_hit_nil_iff in Hnil. rewrite Hnil.
    cbn. split; [reflexivity | exact (Hsame Hn)].
  - intros msg Hd. unfold repo_DeleteOrder, exec_delete_order.
    rewrite bind_run, Errorf_run, bind_run. unfold send. rewrite Hd.
    change (String.eqb ("failed to delete order: " +:+ msg)
              "order not found") with false.
    split; reflexivity.
Qed.

Lemma binding_accepts_six status :
  In status six_statuses ->
  binding_UpdateOrderStatusRequest (UpdateOrderStatusRequest.mk status) = true.
Proof.
  intros Hin. unfold binding_UpdateOrderStatusRequest.
  apply existsb_exists. exists status. split; [exact Hin|].
  apply String.eqb_refl.
Qed.

(** X17. [OrderHandler.UpdateOrderStatus] for a non-empty id and one of
    the six statuses: when the driver lets the UPDATE through, an existing
    order is answered 200 and its rows carry the new status, an absent one
    is answered 404 with the tables unchanged; when the driver fails the
    UPDATE the answer is 400 (not 500) with the wrapped driver message,
    and the tables are unchanged. *)
Theorem update_status_answers E details id status w :
  id <> "" ->
  In status six_statuses ->
  let answer :=
    handler_UpdateOrderStatus E details id
      (Some (UpdateOrderStatusRequest.mk status)) w in
  (driver_error E (length (trace w)) = None ->
   has_order (db w) id ->
   fst answer
   = mkResponse StatusOK (Message "Order status updated successfully")
   /\ Forall2 (status_set id status (timestamp E (time_Now E (clock w))))
        (orders (db w)) (orders (db (snd answer)))
   /\ order_items (db (snd answer)) = order_items (db w))
  /\ (driver_error E (length (trace w)) = None ->
      ~ has_order (db w) id ->
      fst answer = mkResponse StatusNotFound (ErrorOnly "Order not found")
      /\ db (snd answer) = db w)
  /\ (forall msg,
        driver_error E (length (trace w)) = Some msg ->
        fst answer
        = mkResponse StatusBadRequest
            (ErrorDetails "Failed to update order status"
               ("failed to update order status: " +:+ msg))
        /\ db (snd answer) = db w).
Proof.
  intros Hid Hin. cbv zeta.
  unfold handler_UpdateOrderStatus, ShouldBindJSON.
  rewrite (binding_accepts_six _ Hin).
  unfold service_UpdateOrderStatus.
  destruct (String.eqb_spec id ""); [contradiction|].
  cbn [UpdateOrderStatusRequest.Status].
  pose proof (proj2 (validStatuses_spec status) Hin) as Hvalid.
  rewrite Hvalid. cbn [negb].
  split; [|split].
  - intros Hd Hhas.
    destruct (repo_UpdateOrderStatus_run E id status w Hd)
      as (r & w' & Hrun & Hitems & Hrows & _ & _ & Hok & _).
    rewrite Hrun, (Hok Hhas). cbn [fst snd].
    split; [reflexivity|]. split; assumption.
  - intros Hd Hn.
    destruct (repo_UpdateOrderStatus_run E id status w Hd)
      as (r & w' & Hrun & _ & _ & _ & _ & _ & Habs).
    destruct (Habs Hn) as [-> Hdb]. rewrite Hrun. cbn.
    split; [reflexivity | exact Hdb].
  - intros msg Hd.
    unfold repo_UpdateOrderStatus, time_Now_, exec_update_status.
    rewrite bind_run. cbn beta iota. rewrite bind_run, Errorf_run, bind_run.
    unfold send. cbn [trace]. rewrite Hd.
    change (String.eqb ("failed to update order status: " +:+ msg)
              "order not found") with false.
    split; reflexivity.
Qed.

Lemma parse_page_normal Atoi pageParam :
  1 <= parse_page Atoi pageParam
  /\ normal_page (parse_page Atoi pageParam) = parse_page Atoi pageParam.
Proof.
  unfold parse_page, normal_page.
  destruct (String.eqb pageParam ""); [split; [lia | reflexivity]|].
  destruct (Atoi pageParam) as [p|]; [|split; [lia | reflexivity]].
  destruct (0 <? p) eqn:Hp; [|split; [lia | reflexivity]].
  apply Z.ltb_lt in Hp. split; [lia|].
  replace (p <? 1) with false by (symmetry; apply Z.ltb_ge; lia).
  reflexivity.
Qed.

Lemma parse_page_size_normal Atoi sizeParam :
  1 <= parse_page_size Atoi sizeParam <= 100
  /\ normal_pageSize (parse_page_size Atoi sizeParam)
     = parse_page_size Atoi sizeParam.
Proof.
  unfold parse_page_size, normal_pageSize.
  destruct (String.eqb sizeParam ""); [split; [lia | reflexivity]|].
  destruct (Atoi sizeParam) as [s|]; [|split; [lia | reflexivity]].
  destruct (0 <? s) eqn:H0; destruct (s <=? 100) eqn:H1; cbn [andb];
    try (split; [lia | reflexivity]).
  apply Z.ltb_lt in H0. apply Z.leb_le in H1. split; [lia|].
  replace (s <? 1) with false by (symmetry; apply Z.ltb_ge; lia).
  replace (100 <? s) with false by (symmetry; apply Z.ltb_ge; lia).
  reflexivity.
Qed.

(** X18. What [OrderHandler.GetAllOrders] echoes is what it used. Whatever
    the query parameters and whatever [strconv.Atoi] makes of them, the
    answer is 200 or 500 and the tables are unchanged; in a 200 answer the
    echoed [page] is at least 1, the echoed [page_size] is in 1..100,
    [total] is the number of stored orders, the list has at most
    [page_size] orders, and their ids are those of the rows from position
    [(page - 1) * page_size] of the listing from newest to oldest: the
    service's own normalisation never alters what the handler parsed. *)
Theorem list_orders_echo E Atoi pageParam sizeParam w :
  let answer := handler_GetAllOrders E Atoi pageParam sizeParam w in
  db (snd answer) = db w
  /\ ((exists e,
          fst answer
          = mkResponse StatusInternalServerError
              (ErrorDetails "Failed to get orders" e))
      \/ (exists listed total page page_size,
             fst answer
             = mkResponse StatusOK (Listing listed total page page_size)
             /\ 1 <= page
             /\ 1 <= page_size <= 100
             /\ total = Z.of_nat (length (orders (db w)))
             /\ (Z.of_nat (length listed) <= page_size)
             /\ map OrderResponse.ID listed
                = map OrdersRow.id
                    (page_rows page_size (int_mul (page - 1) page_size)
                       (db w)))).
Proof.
  cbv zeta. unfold handler_GetAllOrders.
  destruct (parse_page_normal Atoi pageParam) as [Hp Hpn].
  destruct (parse_page_size_normal Atoi sizeParam) as [Hs Hsn].
  pose proof (read_only_bind _ _
                (read_only_repo_GetAllOrders E
                   (normal_pageSize (parse_page_size Atoi sizeParam))
                   (int_mul (normal_page (parse_page Atoi pageParam) - 1)
                      (normal_pageSize (parse_page_size Atoi sizeParam))))
                (fun r => read_only_ret
                            (OrdersListResponse.mk
                               (map to_response (fst r)) (snd r))) w)
    as (Hdb & _).
  change (db (snd (service_GetAllOrders E (parse_page Atoi pageParam)
                     (parse_page_size Atoi sizeParam) w)) = db w) in Hdb.
  destruct (service_GetAllOrders E (parse_page Atoi pageParam)
              (parse_page_size Atoi sizeParam) w)
    as [[response|e] w'] eqn:Hrun; cbn [fst snd] in *.
  - split; [exact Hdb|]. right.
    destruct (service_GetAllOrders_Ok _ _ _ _ _ _ Hrun) as (Htotal & Hids & _).
    rewrite Hpn, Hsn in Hids.
    eexists _, _, _, _. split; [reflexivity|].
    split; [exact Hp|]. split; [exact Hs|]. split; [exact Htotal|].
    split; [|exact Hids].
    rewrite <- (length_map OrderResponse.ID), Hids, length_map.
    rewrite page_rows_length. lia.
  - split; [exact Hdb|]. left. eexists. reflexivity.
Qed.

(** ** The keys of the status counts *)

Lemma statistics_loop_None l (m : gmap string Z) rev s :
  fst (statistics_loop l m rev) !! s = None
  <-> m !! s = None /\ Forall (fun o => Order.Status o <> s) l.
Proof.
  revert m rev. induction l as [|o l IH]; intros m rev.
  - cbn [statistics_loop fst]. split; [intros H; split; [exact H|constructor]
                                      | intros [H _]; exact H].
  - cbn [statistics_loop]. rewrite IH, lookup_insert_None, Forall_cons.
    tauto.
Qed.

Lemma fetched_statuses E d rows l :
  Forall2 (fetched E d) rows l ->
  map Order.Status l = map OrdersRow.status rows.
Proof.
  induction 1 as [|r o rows l Hr _ IH]; [reflexivity|].
  apply fetched_fields in Hr. destruct Hr as (_ & Hs & _).
  cbn [map]. rewrite IH, Hs. reflexivity.
Qed.

Lemma count_status_positive s rows r :
  In r rows -> OrdersRow.status r = s -> 1 <= count_status s rows.
Proof.
  intros Hin Hs. unfold count_status.
  assert (Hf : In r (List.filter
                       (fun x => String.eqb (OrdersRow.status x) s) rows)).
  { apply filter_In. split; [exact Hin|]. rewrite Hs.
    apply String.eqb_refl. }
  destruct (List.filter _ rows); [destruct Hf|]. cbn [length]. lia.
Qed.

Lemma classic_status_occurs s (rows : list OrdersRow.t) :
  (exists r, In r rows /\ OrdersRow.status r = s)
  \/ (forall r, In r rows -> OrdersRow.status r <> s).
Proof.
  induction rows as [|x rows [(r & Hr & Hs)|IH]].
  - right. intros r [].
  - left. exists r. split; [right; exact Hr | exact Hs].
  - destruct (String.eqb_spec (OrdersRow.status x) s) as [Heq|Hne].
    + left. exists x. split; [left; reflexivity | exact Heq].
    + right. intros r [<-|Hr]; [exact Hne | exact (IH r Hr)].
Qed.

(** X19. The status counts returned by the statistics have a key exactly
    for the statuses that occur among the orders examined (the 1000
    newest): a status that does not occur has no entry, not an entry of
    0, and every entry is the number of occurrences, at least 1. *)
Theorem status_counts_keys E w st w' :
  service_GetOrderStatistics E w = (Ok st, w') ->
  forall s,
    (status_counts st !! s = None
     <-> forall r, In r (recent_orders (db w)) -> OrdersRow.status r <> s)
    /\ (forall n,
          status_counts st !! s = Some n ->
          n = count_status s (recent_orders (db w)) /\ 1 <= n).
Proof.
  intros Hrun s.
  pose proof (service_GetOrderStatistics_spec _ _ _ _ Hrun)
    as (_ & _ & _ & Hcount).
  assert (Hnone : status_counts st !! s = None
                  <-> forall r, In r (recent_orders (db w)) ->
                                OrdersRow.status r <> s).
  { revert Hrun. unfold service_GetOrderStatistics.
    rewrite bind_run, Errorf_run.
    destruct (repo_GetAllOrders E 1000 0 w) as [[[l total]|e] w1] eqn:Hrepo;
      [|discriminate].
    apply repo_GetAllOrders_spec in Hrepo.
    destruct Hrepo as (_ & _ & _ & _ & Hf). cbn [fst snd] in *.
    rewrite recent_orders_page in Hf.
    pose proof (statistics_loop_None l ∅ 0%float s) as Hkeys.
    destruct (statistics_loop l ∅ 0%float) as [counts rev].
    cbn [fst] in Hkeys. intros H. inversion H; subst.
    cbn [status_counts]. rewrite Hkeys, lookup_empty.
    apply fetched_statuses in Hf.
    assert (Hiff : Forall (fun o => Order.Status o <> s) l
                   <-> Forall (fun x => x <> s) (map Order.Status l)).
    { rewrite Forall_fmap. reflexivity. }
    rewrite Hiff, Hf, Forall_fmap, Forall_forall.
    split.
    - intros [_ H0] r Hr. apply (H0 r), list_elem_of_In, Hr.
    - intros H0. split; [reflexivity|]. intros r Hr.
      apply (H0 r), list_elem_of_In, Hr. }
  split; [exact Hnone|].
  intros n Hn. specialize (Hcount s). rewrite Hn in Hcount.
  cbn [default] in Hcount. unfold id in Hcount. split; [exact Hcount|].
  rewrite Hcount.
  destruct (classic_status_occurs s (recent_orders (db w)))
    as [(r & Hr & Hs)|Hno].
  - exact (count_status_positive _ _ _ Hr Hs).
  - apply Hnone in Hno. congruence.
Qed.

(** ** Sample runs of the further properties *)

Lemma sample_world_integrity : integrity (db sample_world).
Proof.
  split; [|split].
  - apply (bool_decide_unpack _). vm_compute. exact I.
  - apply (bool_decide_unpack _). vm_compute. exact I.
  - intros i Hin. apply has_order_In. cbn in Hin. cbn.
    destruct Hin as [<-|[<-|[<-|[]]]]; cbn; tauto.
Qed.

Lemma sample_world_references : references_resolve (db sample_world).
Proof. exact (proj2 (proj2 sample_world_integrity)). Qed.

Lemma a2_stored : has_order (db sample_world) "a2".
Proof. apply has_order_In. cbn. tauto. Qed.

Lemma update_status_effect_witness :
  driver_error sample_env (length (trace sample_world)) = None
  /\ exists w',
       repo_UpdateOrderStatus sample_env "a2" "shipped" sample_world
       = (Ok tt, w')
       /\ map OrdersRow.status (orders (db w'))
          = ["delivered"; "shipped"; "delivered"]
       /\ order_items (db w') = order_items (db sample_world).
Proof.
  split; [reflexivity|].
  destruct (update_status_effect sample_env "a2" "shipped" sample_world
              eq_refl)
    as (r & w' & Hrun & Hitems & _ & _ & _ & Hok & _).
  rewrite (Hok a2_stored) in Hrun. exists w'.
  split; [exact Hrun|]. split; [|exact Hitems].
  vm_compute in Hrun. inversion Hrun. reflexivity.
Defined.

Lemma update_then_get_witness :
  exists w1 o w2,
    service_UpdateOrderStatus sample_env "a2"
      (UpdateOrderStatusRequest.mk "shipped") sample_world = (Ok tt, w1)
    /\ service_GetOrderByID sample_env "a2" w1 = (Ok o, w2)
    /\ Order.Status o = "shipped"
    /\ Order.UpdatedAt o = 0
    /\ Order.CreatedAt o = 4
    /\ Order.CustomerID o = "c2".
Proof.
  assert (Hin : In "shipped" six_statuses) by (cbn; tauto).
  destruct (update_then_get sample_env "a2" "shipped" sample_world
              (OrdersRow.mk "a2" "c2" 5%float "pending" 4 (Some 4) (Some 4))
              4 sample_env_reliable ltac:(discriminate) Hin eq_refl eq_refl)
    as (w1 & o & w2 & H1 & H2 & H3 & H4 & _ & H6 & _ & _ & H9 & _).
  exists w1, o, w2. repeat split; assumption.
Defined.

Lemma create_then_get_witness :
  exists order w1 o w2,
    service_CreateOrder sample_env tenth_request sample_world
    = (Ok order, w1)
    /\ service_GetOrderByID sample_env (Order.ID order) w1 = (Ok o, w2)
    /\ Order.Items o ≡ₚ map (read_back_item sample_env) (Order.Items order)
    /\ Order.TotalPrice order = 0x1.3333333333334p-2%float
    /\ Order.TotalPrice o = 0x1.3333333333333p-2%float.
Proof.
  destruct (service_CreateOrder sample_env tenth_request sample_world)
    as [[order|e] w1] eqn:Hrun; [|vm_compute in Hrun; discriminate Hrun].
  assert (Hfacts : Order.ID order = "uuid-0"
                   /\ Order.TotalPrice order = 0x1.3333333333334p-2%float).
  { pose proof Hrun as H. vm_compute in H. inversion H. split; reflexivity. }
  destruct Hfacts as [Hid Htotal].
  destruct (create_then_get sample_env tenth_request sample_world order w1
              sample_world_references Hrun)
    as (o & w2 & Hget & _ & _ & _ & Hheld & _ & _ & _ & Hperm & _).
  { rewrite Hid. discriminate. }
  { reflexivity. }
  { reflexivity. }
  exists order, w1, o, w2. split; [reflexivity|]. split; [exact Hget|].
  split; [exact Hperm|]. split; [exact Htotal|].
  rewrite Hheld, Htotal. vm_compute. reflexivity.
Defined.

Lemma create_then_delete_witness :
  exists order w1 w2,
    service_CreateOrder sample_env sample_request sample_world
    = (Ok order, w1)
    /\ service_DeleteOrder sample_env (Order.ID order) w1 = (Ok tt, w2)
    /\ db w2 = db sample_world.
Proof.
  destruct (service_CreateOrder sample_env sample_request sample_world)
    as [[order|e] w1] eqn:Hrun; [|vm_compute in Hrun; discriminate Hrun].
  assert (Hid : Order.ID order = "uuid-0").
  { pose proof Hrun as H. vm_compute in H. inversion H. reflexivity. }
  destruct (create_then_delete sample_env sample_request sample_world order
              w1 sample_world_references Hrun)
    as (w2 & Hdel & Hdb).
  { rewrite Hid. discriminate. }
  { reflexivity. }
  exists order, w1, w2. split; [reflexivity|]. split; assumption.
Defined.

(** A client session: create, move an order on, delete another, read. *)
Definition sample_calls : list Call :=
  [CallCreateOrder sample_request;
   CallCreateOrder tenth_request;
   CallUpdateOrderStatus "a2" (UpdateOrderStatusRequest.mk "shipped");
   CallDeleteOrder "a1";
   CallGetOrderStatistics;
   CallGetAllOrders 1 10].

Lemma integrity_preserved_witness :
  integrity (db sample_world)
  /\ integrity (db (calls sample_env sample_calls sample_world))
  /\ map OrdersRow.id (orders (db (calls sample_env sample_calls sample_world)))
     = ["a2"; "a3"; "uuid-0"; "uuid-2"].
Proof.
  split; [exact sample_world_integrity|].
  split; [|vm_compute; reflexivity].
  exact (integrity_preserved sample_env sample_calls sample_world
           sample_world_integrity).
Defined.

Lemma sample_world_statuses : statuses_valid (db sample_world).
Proof. unfold statuses_valid. cbn. repeat constructor; cbn; tauto. Qed.

Lemma statuses_stay_valid_witness :
  statuses_valid (db sample_world)
  /\ statuses_valid (db (calls sample_env sample_calls sample_world))
  /\ map OrdersRow.status
       (orders (db (calls sample_env sample_calls sample_world)))
     = ["shipped"; "delivered"; "pending"; "pending"].
Proof.
  split; [exact sample_world_statuses|].
  split; [|vm_compute; reflexivity].
  exact (statuses_stay_valid sample_env sample_calls sample_world
           sample_world_statuses).
Defined.

Lemma empty_world_accounted :
  integrity (db empty_world) /\ accounted sample_env (db empty_world).
Proof.
  split; [split; [constructor | split; [constructor | intros i []]]|].
  constructor.
Qed.

Lemma accounts_preserved_witness :
  (integrity (db empty_world) /\ accounted sample_env (db empty_world))
  /\ (integrity (db (calls sample_env sample_calls empty_world))
      /\ accounted sample_env (db (calls sample_env sample_calls empty_world)))
  /\ map OrdersRow.total_price
       (orders (db (calls sample_env sample_calls empty_world)))
     = [20%float; 0x1.3333333333333p-2%float]
  /\ map OrderItemsRow.subtotal
       (order_items (db (calls sample_env sample_calls empty_world)))
     = [20%float; 0x1.3333333333333p-2%float].
Proof.
  split; [exact empty_world_accounted|].
  split; [|split; vm_compute; reflexivity].
  exact (accounts_preserved sample_env sample_calls empty_world
           empty_world_accounted).
Defined.

Lemma customer_orders_listing_witness :
  exists l w',
    handler_GetOrdersByCustomerID sample_env "c1" sample_world
    = (mkReply 200 (OrdersBody l 2), w')
    /\ map Order.ID l = ["a3"; "a1"]
    /\ Forall (fun o => Order.CustomerID o = "c1") l.
Proof.
  destruct (customer_orders_listing sample_env "c1" sample_world
              sample_env_reliable ltac:(discriminate))
    as (l & w' & Hrun & _ & Hcust & _).
  { cbn. repeat constructor; eexists; reflexivity. }
  assert (Hids : map Order.ID l = ["a3"; "a1"]).
  { pose proof Hrun as H. vm_compute in H. inversion H. reflexivity. }
  exists l, w'. split; [|split; assumption].
  rewrite Hrun. replace (Z.of_nat (length l)) with 2; [reflexivity|].
  rewrite <- (length_map Order.ID), Hids. reflexivity.
Defined.

Lemma page_listing_witness :
  exists response w',
    service_GetAllOrders sample_env 2 2 sample_world = (Ok response, w')
    /\ OrdersListResponse.Total response = 3
    /\ map OrderResponse.ID (OrdersListResponse.Orders response) = ["a1"].
Proof.
  destruct (service_GetAllOrders sample_env 2 2 sample_world)
    as [[response|e] w'] eqn:Hrun; [|vm_compute in Hrun; discriminate Hrun].
  exists response, w'. split; [reflexivity|].
  destruct (page_listing sample_env 2 2 sample_world response w' Hrun)
    as (Htotal & Hids & _).
  split; [exact Htotal|]. rewrite Hids. vm_compute. reflexivity.
Defined.

Lemma pages_tile_listing_witness :
  1 <= 2 <= 100
  /\ Z.of_nat 2 * 2 < 2 ^ 63
  /\ map OrdersRow.id (page_rows 2 0 (db sample_world))
     ++ map OrdersRow.id (page_rows 2 2 (db sample_world))
     = ["a3"; "a2"; "a1"].
Proof.
  assert (H1 : 1 <= 2 <= 100) by lia.
  assert (H2 : Z.of_nat 2 * 2 < 2 ^ 63) by reflexivity.
  split; [exact H1|]. split; [exact H2|].
  pose proof (pages_tile_listing (db sample_world) 2 2 H1 H2) as Htile.
  cbn [seq map concat] in Htile. rewrite app_nil_r in Htile.
  change (page_rows 2 0 (db sample_world) ++ page_rows 2 2 (db sample_world)
          = take (2 * Z.to_nat 2)
              (merge_sort newest_first (orders (db sample_world))))
    in Htile.
  rewrite <- map_app, Htile. vm_compute. reflexivity.
Defined.

Lemma first_invalid_item_reported_witness :
  let request :=
    CreateOrderRequest.mk "c1"
      [CreateOrderItemRequest.mk 1 "G" 10%float 2;
       CreateOrderItemRequest.mk 2 "H" 5%float 0;
       CreateOrderItemRequest.mk 3 "K" (-1)%float 1] in
  service_CreateOrder sample_env request sample_world
  = (Err "quantity must be greater than 0 for game H", sample_world).
Proof.
  cbv zeta.
  apply (first_invalid_item_reported sample_env _
           [CreateOrderItemRequest.mk 1 "G" 10%float 2]
           (CreateOrderItemRequest.mk 2 "H" 5%float 0)
           [CreateOrderItemRequest.mk 3 "K" (-1)%float 1]).
  - reflexivity.
  - repeat constructor.
  - intros [Hq _]. cbn in Hq. lia.
Defined.

(** A store whose ids have the shape of a UUID: one order that decodes
    and one without [created_at]. *)
Definition uuid_rows : list OrdersRow.t :=
  [OrdersRow.mk "3f2b8c1e-5d4a-4e6f-9a7b-0c1d2e3f4a5b" "c1" 20%float
     "delivered" 3 (Some 3) (Some 7);
   OrdersRow.mk "7a9e4d2c-1b3f-4c5d-8e6f-9a0b1c2d3e4f" "c1" 2%float
     "pending" 6 None (Some 6)].

Definition uuid_world : World := mkWorld (mkDatabase uuid_rows []) [] 0 0.

Lemma get_order_answers_witness :
  reliable sample_env
  /\ fst (handler_GetOrderByID sample_env
            "00000000-0000-4000-8000-000000000000" uuid_world)
     = mkReply 404 (ErrorBody "Order not found" None)
  /\ (exists o,
         fst (handler_GetOrderByID sample_env
                "3f2b8c1e-5d4a-4e6f-9a7b-0c1d2e3f4a5b" uuid_world)
         = mkReply 200 (OrderBody o)
         /\ Order.ID o = "3f2b8c1e-5d4a-4e6f-9a7b-0c1d2e3f4a5b"
         /\ Order.Status o = "delivered")
  /\ fst (handler_GetOrderByID sample_env
            "7a9e4d2c-1b3f-4c5d-8e6f-9a0b1c2d3e4f" uuid_world)
     = mkReply 500
         (ErrorBody "Failed to get order"
            (Some ("failed to get order: sql: Scan error on column index 5, name "
                   +:+ quoted "created_at"
                   +:+ ": unsupported Scan, storing driver.Value type <nil> into type *time.Time"))).
Proof.
  split; [exact sample_env_reliable|].
  destruct (get_order_answers sample_env
              "00000000-0000-4000-8000-000000000000" uuid_world
              sample_env_reliable) as (_ & _ & Habsent & _).
  split.
  { apply Habsent; [discriminate|].
    intros H. apply has_order_In in H. cbn in H. intuition discriminate. }
  destruct (get_order_answers sample_env
              "3f2b8c1e-5d4a-4e6f-9a7b-0c1d2e3f4a5b" uuid_world
              sample_env_reliable) as (_ & _ & _ & Hfound).
  destruct (Hfound ltac:(discriminate)
              (OrdersRow.mk "3f2b8c1e-5d4a-4e6f-9a7b-0c1d2e3f4a5b" "c1"
                 20%float "delivered" 3 (Some 3) (Some 7)) eq_refl)
    as [Hok _].
  split.
  { destruct Hok as (o & Hrun & Hid & _ & _ & Hs & _).
    { split; eexists; reflexivity. }
    exists o. split; [exact Hrun|]. split; assumption. }
  destruct (get_order_answers sample_env
              "7a9e4d2c-1b3f-4c5d-8e6f-9a0b1c2d3e4f" uuid_world
              sample_env_reliable) as (_ & _ & _ & Hbad).
  destruct (Hbad ltac:(discriminate)
              (OrdersRow.mk "7a9e4d2c-1b3f-4c5d-8e6f-9a0b1c2d3e4f" "c1"
                 2%float "pending" 6 None (Some 6)) eq_refl)
    as [_ Herr].
  rewrite Herr; [reflexivity|].
  intros [[c Hc] _]. discriminate Hc.
Defined.

Lemma delete_order_answers_witness :
  "a1" <> ""
  /\ fst (handler_DeleteOrder sample_env "a1" sample_world)
     = mkReply 200 (MessageBody "Order deleted successfully")
  /\ fst (handler_DeleteOrder sample_env "00000000-0000-4000-8000-000000000000" sample_world)
     = mkReply 404 (ErrorBody "Order not found" None).
Proof.
  assert (H1 : "a1" <> "") by discriminate.
  split; [exact H1|].
  destruct (delete_order_answers sample_env "a1" sample_world H1)
    as (Hfound & _ & _).
  destruct (Hfound eq_refl) as [Hrun _].
  { apply has_order_In. cbn. tauto. }
  split; [exact Hrun|].
  destruct (delete_order_answers sample_env "00000000-0000-4000-8000-000000000000" sample_world
              ltac:(discriminate)) as (_ & Habsent & _).
  apply Habsent; [reflexivity|].
  intros H. apply has_order_In in H. cbn in H. intuition discriminate.
Defined.

Lemma update_status_answers_witness :
  "a2" <> ""
  /\ In "shipped" six_statuses
  /\ fst (handler_UpdateOrderStatus sample_env "details" "a2"
            (Some (UpdateOrderStatusRequest.mk "shipped")) sample_world)
     = mkResponse 200 (Message "Order status updated successfully")
  /\ fst (handler_UpdateOrderStatus sample_env "details" "00000000-0000-4000-8000-000000000000"
            (Some (UpdateOrderStatusRequest.mk "shipped")) sample_world)
     = mkResponse 404 (ErrorOnly "Order not found").
Proof.
  assert (H1 : "a2" <> "") by discriminate.
  assert (H2 : In "shipped" six_statuses) by (cbn; tauto).
  split; [exact H1|]. split; [exact H2|].
  destruct (update_status_answers sample_env "details" "a2" "shipped"
              sample_world H1 H2) as (Hfound & _ & _).
  destruct (Hfound eq_refl a2_stored) as [Hrun _].
  split; [exact Hrun|].
  destruct (update_status_answers sample_env "details"
              "00000000-0000-4000-8000-000000000000" "shipped"
              sample_world ltac:(discriminate) H2) as (_ & Habsent & _).
  apply Habsent; [reflexivity|].
  intros H. apply has_order_In in H. cbn in H. intuition discriminate.
Defined.

Lemma status_counts_keys_witness :
  exists st w',
    service_GetOrderStatistics sample_env sample_world = (Ok st, w')
    /\ status_counts st !! "shipped" = None
    /\ status_counts st !! "delivered" = Some 2.
Proof.
  destruct (service_GetOrderStatistics sample_env sample_world)
    as [[st|e] w'] eqn:Hrun; [|vm_compute in Hrun; discriminate Hrun].
  exists st, w'. split; [reflexivity|].
  pose proof (status_counts_keys sample_env sample_world st w' Hrun) as Hkeys.
  split.
  - apply (proj1 (Hkeys "shipped")). intros r Hr.
    cbn in Hr. destruct Hr as [<-|[<-|[<-|[]]]]; discriminate.
  - destruct (status_counts st !! "delivered") as [n|] eqn:Hn.
    + destruct (proj2 (Hkeys "delivered") n Hn) as [-> _]. reflexivity.
    + exfalso.
      apply (proj1 (proj1 (Hkeys "delivered")) Hn
               (OrdersRow.mk "a3" "c1" 1.5%float "delivered" 5 (Some 5)
                  (Some 9))); [vm_compute; tauto | reflexivity].
Defined.
